(** * Cloudflare-Analytics: the monthly collection job, embedded and verified

    A shallow embedding of [cloudflare_analytics.py]:

    - the Python values the job handles (ints, binary64 floats, strings),
      with the arithmetic and the formatting the source applies to them;
    - [format_bytes], the cache ratio of a daily record, the parsing of a
      date by [datetime.strptime] with the format [%Y-%m-%d];
    - [GoogleSheetHandler]: [get_existing_data], [get_sheet_id] and
      [append_daily_data], run against an abstract spreadsheet service in a
      state-and-exception monad that also records what is printed and which
      requests are issued;
    - [should_collect_data], with the clock as an argument;
    - [ConfigHandler], the fetcher [get_last_30days_analytics] and the loop
      of [main], with the file, the provider's answer and the clock as
      arguments.

    Floats are IEEE 754 binary64 values, computed with the reference
    operations of [SpecFloat] at precision 53 and maximal exponent 1024.
    Strings are byte strings (UTF-8), compared byte-wise, which is the order
    of the code points. *)

From Stdlib Require Import ZArith String Ascii List Lia DecimalString Sorted.
From Stdlib Require Import Floats.SpecFloat.
From stdpp Require Import base list gmap strings.

Open Scope Z_scope.

(** ** Python numbers *)

Module Py.

(** Exceptions the modelled code can meet. [ApiError] stands for whatever
    the spreadsheet client raises. *)
Inductive exn :=
| IndexError
| ValueError
| OverflowError
| ZeroDivisionError
| ApiError (msg : string).

Inductive outcome (A : Type) :=
| Ok (a : A)
| Raise (e : exn).
Arguments Ok {A} a.
Arguments Raise {A} e.

Definition obind {A B} (x : outcome A) (f : A -> outcome B) : outcome B :=
  match x with
  | Ok a => f a
  | Raise e => Raise e
  end.

(** binary64 *)
Definition prec : Z := 53.
Definition emax : Z := 1024.

Definition fdiv : spec_float -> spec_float -> spec_float := SFdiv prec emax.
Definition fmul : spec_float -> spec_float -> spec_float := SFmul prec emax.
Definition fltb : spec_float -> spec_float -> bool := SFltb.

(** The double nearest to an integer (ties to even); infinite when the
    integer is out of range. *)
Definition nearest_double (n : Z) : spec_float :=
  binary_normalize prec emax n 0 false.

Definition is_finite (x : spec_float) : bool :=
  match x with
  | S754_zero _ | S754_finite _ _ _ => true
  | _ => false
  end.

(** [float(n)] for an int [n]: OverflowError when [n] is too large. *)
Definition float_of_int (n : Z) : outcome spec_float :=
  let x := nearest_double n in
  if is_finite x then Ok x else Raise OverflowError.

(** [str(n)] for an int [n]. *)
Definition str_of_int (n : Z) : string :=
  NilZero.string_of_int (Z.to_int n).

(** Rounding of the rational [num / den] ([0 <= num], [0 < den]) to an
    integer, ties to even. *)
Definition round_half_even (num den : Z) : Z :=
  let q := num / den in
  let r := num mod den in
  match 2 * r ?= den with
  | Lt => q
  | Gt => q + 1
  | Eq => if Z.even q then q else q + 1
  end.

(** The magnitude of a finite double, times 100, rounded to an integer:
    the digits that [.2f] prints. *)
Definition hundredths (m : positive) (e : Z) : Z :=
  match e with
  | Z0 => Z.pos m * 100
  | Zpos p => Z.pos m * 2 ^ Z.pos p * 100
  | Zneg p => round_half_even (Z.pos m * 100) (2 ^ Z.pos p)
  end.

(** The magnitude of a double in units of [2 ^ -1074], the least positive
    double. *)
Definition ulps (x : spec_float) : Z :=
  match x with
  | S754_finite _ m e => Z.pos m * 2 ^ (e + 1074)
  | _ => 0
  end.

Definition digit_char (d : Z) : ascii :=
  ascii_of_nat (48 + Z.to_nat d).

(** [h] hundredths printed with two decimals. *)
Definition two_decimals (h : Z) : string :=
  str_of_int (h / 100) +:+ "." +:+
  String (digit_char (h / 10 mod 10)) (String (digit_char (h mod 10)) "").

Definition sign_prefix (s : bool) : string := if s then "-" else "".

(** [f"{x:.2f}"] for a float [x]: the decimal expansion of the exact value
    of [x], correctly rounded to two decimals. *)
Definition format_2f (x : spec_float) : string :=
  match x with
  | S754_zero s => sign_prefix s +:+ "0.00"
  | S754_finite s m e => sign_prefix s +:+ two_decimals (hundredths m e)
  | S754_infinity s => sign_prefix s +:+ "inf"
  | S754_nan => "nan"
  end.

(** A Python number: an int or a float. *)
Inductive num :=
| NInt (n : Z)
| NFloat (x : spec_float).

(** A value sent in a cell of the sheet. *)
Inductive value :=
| VNum (v : num)
| VStr (s : string).

#[export] Instance outcome_ret : MRet outcome := fun _ a => Ok a.
#[export] Instance outcome_bind : MBind outcome := fun _ _ f x => obind x f.

End Py.
Import Py.

(** ** [GoogleSheetHandler.format_bytes] *)

Definition f1024 : spec_float := nearest_double 1024.

(** [bytes_value < 1024.0]: an int is compared with a float exactly. *)
Definition lt_1024 (bytes_value : num) : bool :=
  match bytes_value with
  | NInt n => n <? 1024
  | NFloat x => fltb x f1024
  end.

(** [f"{bytes_value:.2f}"]: an int is converted to a float first. *)
Definition fmt_2f (bytes_value : num) : outcome string :=
  match bytes_value with
  | NInt n => x ← float_of_int n; mret (format_2f x)
  | NFloat x => mret (format_2f x)
  end.

(** [bytes_value /= 1024.0] *)
Definition div_1024 (bytes_value : num) : outcome num :=
  match bytes_value with
  | NInt n => x ← float_of_int n; mret (NFloat (fdiv x f1024))
  | NFloat x => mret (NFloat (fdiv x f1024))
  end.

Definition units : list string := ["B"; "KB"; "MB"; "GB"; "TB"]%string.

(** The [for unit in ...] loop, and the [return] after it when the list is
    exhausted. *)
Fixpoint format_bytes_loop (us : list string) (bytes_value : num)
  : outcome string :=
  match us with
  | [] => s ← fmt_2f bytes_value; mret (s +:+ " PB")
  | unit :: us' =>
      if lt_1024 bytes_value
      then s ← fmt_2f bytes_value; mret (s +:+ " " +:+ unit)
      else v ← div_1024 bytes_value; format_bytes_loop us' v
  end.

Definition format_bytes (bytes_value : Z) : outcome string :=
  format_bytes_loop units (NInt bytes_value).

(** The ladder of units, and the step of the ladder a byte count stands on:
    the number of times 1024 goes into it, 5 at most. *)
Definition ladder : list string := units ++ ["PB"%string].

Definition scale (n : Z) : nat :=
  if n <? 1024 then 0
  else if n <? 1024 ^ 2 then 1
  else if n <? 1024 ^ 3 then 2
  else if n <? 1024 ^ 4 then 3
  else if n <? 1024 ^ 5 then 4
  else 5.

(** ** [datetime.strptime(s, '%Y-%m-%d')]

    A string stands for the text it encodes in UTF-8, and the library
    matches its pattern on the characters of that text. The directives as
    the pattern of the library reads them: [\d\d\d\d] for the year, a
    dash, [1[0-2]|0[1-9]|[1-9]] for the month, a dash,
    [3[0-1]|[1-2]\d|0[1-9]|[1-9]| [1-9]] for the day, nothing after it;
    then the date must exist. [\d] is any decimal digit of Unicode, the
    bracketed classes are the ASCII digits they list, and [int] reads the
    decimal digits of every script. *)

Module Strptime.

(** The characters of a text in UTF-8, as code points; [-1] stands for
    bytes that encode no character. *)
Fixpoint chars_from (s : string) (need : nat) (acc least : Z) : list Z :=
  match s with
  | EmptyString => match need with O => [] | S _ => [-1] end
  | String c s' =>
      let b := Z.of_nat (nat_of_ascii c) in
      match need with
      | O =>
          if b <? 128 then b :: chars_from s' 0 0 0
          else if (194 <=? b) && (b <=? 223) then chars_from s' 1 (b - 192) 128
          else if (224 <=? b) && (b <=? 239) then chars_from s' 2 (b - 224) 2048
          else if (240 <=? b) && (b <=? 244) then chars_from s' 3 (b - 240) 65536
          else -1 :: chars_from s' 0 0 0
      | S n =>
          if (128 <=? b) && (b <=? 191) then
            let acc' := 64 * acc + (b - 128) in
            match n with
            | O =>
                (if (least <=? acc') && (acc' <=? 1114111)
                    && negb ((55296 <=? acc') && (acc' <=? 57343))
                 then acc' else -1) :: chars_from s' 0 0 0
            | S _ => chars_from s' n acc' least
            end
          else -1 :: chars_from s' 0 0 0
      end
  end.

Definition chars (s : string) : list Z := chars_from s 0 0 0.

(** The code points of the digit zero of every script (Unicode 14.0, the
    version of Python 3.11): the nine digits that follow each are in
    order. *)
Definition zeros : list Z :=
  [48; 1632; 1776; 1984; 2406; 2534; 2662; 2790; 2918; 3046; 3174; 3302;
   3430; 3558; 3664; 3792; 3872; 4160; 4240; 6112; 6160; 6470; 6608; 6784;
   6800; 6992; 7088; 7232; 7248; 42528; 43216; 43264; 43472; 43504; 43600;
   44016; 65296; 66720; 68912; 69734; 69872; 69942; 70096; 70384; 70736;
   70864; 71248; 71360; 71472; 71904; 72016; 72784; 73040; 73120; 92768;
   92864; 93008; 120782; 120792; 120802; 120812; 120822; 123200; 123632;
   125264; 130032].

(** [\d], and the value [int] gives the digit. *)
Definition decimal_of (c : Z) : option Z :=
  z ← find (fun z => (z <=? c) && (c <=? z + 9)) zeros; Some (c - z).

(** [[0-9]] *)
Definition digit_of (c : Z) : option Z :=
  if (48 <=? c) && (c <=? 57) then Some (c - 48) else None.

(** [%Y]: exactly four digits. *)
Definition year_of (a b c d : Z) : option Z :=
  a ← decimal_of a; b ← decimal_of b; c ← decimal_of c; d ← decimal_of d;
  Some (1000 * a + 100 * b + 10 * c + d).

(** [%m] on two characters: [1[0-2]] or [0[1-9]]. *)
Definition month2_of (a b : Z) : option Z :=
  a ← digit_of a; b ← digit_of b;
  if (a =? 1) && (b <=? 2) || (a =? 0) && (1 <=? b)
  then Some (10 * a + b) else None.

(** [%m] or [%d] on one character: [[1-9]]. *)
Definition nonzero_digit_of (a : Z) : option Z :=
  a ← digit_of a; if 1 <=? a then Some a else None.

(** [%d] on two characters: [3[0-1]], [[1-2]\d], [0[1-9]] or a space
    and [[1-9]]. *)
Definition day2_of (a b : Z) : option Z :=
  if a =? 32 then nonzero_digit_of b
  else
    a ← digit_of a;
    if a =? 3 then b ← digit_of b; if b <=? 1 then Some (30 + b) else None
    else if (1 <=? a) && (a <=? 2) then b ← decimal_of b; Some (10 * a + b)
    else if a =? 0 then nonzero_digit_of b
    else None.

(** [%d] and the end of the string. *)
Definition day_of (s : list Z) : option Z :=
  match s with
  | [a] => nonzero_digit_of a
  | [a; b] => day2_of a b
  | _ => None
  end.

(** [%m], the dash, and the rest. *)
Definition month_day_of (s : list Z) : option (Z * Z) :=
  match s with
  | a :: 45 :: rest =>
      m ← nonzero_digit_of a; d ← day_of rest; Some (m, d)
  | a :: b :: 45 :: rest =>
      m ← month2_of a b; d ← day_of rest; Some (m, d)
  | _ => None
  end.

Definition fields_of (s : string) : option (Z * Z * Z) :=
  match chars s with
  | a :: b :: c :: d :: 45 :: rest =>
      y ← year_of a b c d; md ← month_day_of rest; Some (y, md.1, md.2)
  | _ => None
  end.

Definition is_leap (y : Z) : bool :=
  (y mod 4 =? 0) && (negb (y mod 100 =? 0) || (y mod 400 =? 0)).

Definition days_in_month (y m : Z) : Z :=
  if m =? 2 then (if is_leap y then 29 else 28)
  else if (m =? 4) || (m =? 6) || (m =? 9) || (m =? 11) then 30
  else 31.

(** The date must exist: years start at 1. *)
Definition valid_date (y m d : Z) : bool :=
  (1 <=? y) && (1 <=? m) && (m <=? 12) && (1 <=? d) && (d <=? days_in_month y m).

Record date_obj := { year : Z; month : Z; day : Z }.

Definition strptime (s : string) : outcome date_obj :=
  match fields_of s with
  | Some (y, m, d) =>
      if valid_date y m d then Ok {| year := y; month := m; day := d |}
      else Raise ValueError
  | None => Raise ValueError
  end.

End Strptime.
Import Strptime.

(** ** The daily record of [CloudflareAnalytics.get_last_30days_analytics] *)

(** One group of [httpRequests1dGroups] in the provider's response. The
    counters are read with [.get(key, 0)]: a missing key counts as 0. *)
Record DayGroup := {
  dimensions_date : string;
  sum_bytes : option Z;
  sum_cachedBytes : option Z;
  sum_requests : option Z;
  sum_cachedRequests : option Z;
  sum_pageViews : option Z;
  sum_threats : option Z;
  uniq_uniques : option Z;
}.

(** The dictionary [daily_record], one field per key. *)
Record DailyRecord := {
  date : string;            (* '날짜' *)
  uniques : Z;              (* '고유 방문자' *)
  page_views : Z;           (* '페이지뷰' *)
  requests : Z;             (* '총 요청수' *)
  cached_requests : Z;      (* '캐시된 요청수' *)
  bytes : Z;                (* '총 데이터(bytes)' *)
  cached_bytes : Z;         (* '캐시된 데이터(bytes)' *)
  threats : Z;              (* '위협 감지' *)
  cache_ratio : num;        (* '캐시 비율(%)' *)
}.

(** An int as the operand of a true division: its exact value. *)
Definition exact_int (n : Z) : spec_float :=
  match n with
  | Z0 => S754_zero false
  | Zpos p => S754_finite false p 0
  | Zneg p => S754_finite true p 0
  end.

(** [a / b] on ints: the double nearest to the exact quotient. *)
Definition int_truediv (a b : Z) : outcome spec_float :=
  if b =? 0 then Raise ZeroDivisionError
  else
    let q := fdiv (exact_int a) (exact_int b) in
    if is_finite q then Ok q else Raise OverflowError.

(** [round(x, 2)]: the double nearest to the two-decimal number nearest to
    [x] (ties to even); zeros, infinities and NaN round to themselves. *)
Definition round_2 (x : spec_float) : spec_float :=
  match x with
  | S754_finite s m e =>
      match hundredths m e with
      | Zpos h => fdiv (S754_finite s h 0) (exact_int 100)
      | _ => S754_zero s
      end
  | _ => x
  end.

(** [round(cached / total * 100, 2)], the three operations on doubles. *)
Definition percent_rounded (cached total : Z) : spec_float :=
  round_2 (fmul (fdiv (exact_int cached) (exact_int total)) (nearest_double 100)).

(** The cache ratio of a day: lines 150 to 156. *)
Definition cache_ratio_of (cached_requests total_requests : Z) : outcome num :=
  if 0 <? total_requests then
    q ← int_truediv cached_requests total_requests;
    let cache_ratio := fmul q (nearest_double 100) in
    mret (NFloat (round_2 cache_ratio))
  else mret (NInt 0).

Definition daily_record_of (day : DayGroup) : outcome DailyRecord :=
  let total_requests := default 0 (sum_requests day) in
  let cached := default 0 (sum_cachedRequests day) in
  ratio ← cache_ratio_of cached total_requests;
  mret {| date := dimensions_date day;
          uniques := default 0 (uniq_uniques day);
          page_views := default 0 (sum_pageViews day);
          requests := total_requests;
          cached_requests := cached;
          bytes := default 0 (sum_bytes day);
          cached_bytes := default 0 (sum_cachedBytes day);
          threats := default 0 (sum_threats day);
          cache_ratio := ratio |}.

(** ** The pure steps of [append_daily_data] *)

Definition headers : list string :=
  ["날짜"; "고유 방문자"; "페이지뷰"; "총 요청수"; "캐시된 요청수";
   "캐시 비율(%)"; "총 데이터"; "캐시된 데이터"; "위협 감지"]%string.

(** Lines 223 and 224: an empty reading is replaced, in memory, by the
    header row. *)
Definition or_headers (existing_data : list (list string)) : list (list string) :=
  match existing_data with [] => [headers] | _ => existing_data end.

(** [{row[0] for row in rows}]: IndexError on a row without cells. *)
Fixpoint first_cells (rows : list (list string)) : outcome (list string) :=
  match rows with
  | [] => mret []
  | row :: rows' =>
      match row with
      | [] => Raise IndexError
      | c :: _ => cs ← first_cells rows'; mret (c :: cs)
      end
  end.

(** Lines 227 to 229. *)
Definition existing_dates_of (existing_data : list (list string))
  : outcome (gset string) :=
  if (1 <? length existing_data)%nat
  then cs ← first_cells (tail existing_data); mret (list_to_set cs)
  else mret ∅.

(** [daily_data.sort(key=lambda x: x['날짜'])]: a stable sort, oldest date
    first. *)
Fixpoint insert_by_date (x : DailyRecord) (l : list DailyRecord) : list DailyRecord :=
  match l with
  | [] => [x]
  | y :: l' =>
      if String.leb (date x) (date y) then x :: l
      else y :: insert_by_date x l'
  end.

Definition sort_by_date (l : list DailyRecord) : list DailyRecord :=
  foldr insert_by_date [] l.

(** The order of the keys: strings compare as Python compares them. *)
Definition date_le (x y : DailyRecord) : Prop :=
  String.leb (date x) (date y) = true.

(** [f"=DATE({date_obj.year}, {date_obj.month}, {date_obj.day})"] *)
Definition formatted_date_of (date_obj : Strptime.date_obj) : string :=
  "=DATE(" +:+ str_of_int (year date_obj) +:+ ", " +:+
  str_of_int (month date_obj) +:+ ", " +:+ str_of_int (day date_obj) +:+ ")".

(** The list [row] of lines 244 to 254. *)
Definition row_of (formatted_date : string) (day : DailyRecord)
  : outcome (list value) :=
  total ← format_bytes (bytes day);
  cached ← format_bytes (cached_bytes day);
  mret [VStr formatted_date;
        VNum (NInt (uniques day));
        VNum (NInt (page_views day));
        VNum (NInt (requests day));
        VNum (NInt (cached_requests day));
        VNum (cache_ratio day);
        VStr total;
        VStr cached;
        VNum (NInt (threats day))].

(** The body of the [for day in daily_data] loop, on the two accumulators
    [new_rows] and [duplicate_count]. *)
Definition filter_step (existing_dates : gset string)
    (acc : list (list value) * nat) (day : DailyRecord)
  : outcome (list (list value) * nat) :=
  date_obj ← strptime (date day);
  let formatted_date := formatted_date_of date_obj in
  if decide (date day ∉ existing_dates)
  then row ← row_of formatted_date day; mret (acc.1 ++ [row], acc.2)
  else mret (acc.1, S acc.2).

Fixpoint filter_new (existing_dates : gset string) (days : list DailyRecord)
    (acc : list (list value) * nat) : outcome (list (list value) * nat) :=
  match days with
  | [] => mret acc
  | day :: days' =>
      acc' ← filter_step existing_dates acc day;
      filter_new existing_dates days' acc'
  end.

(** The row a record is sent as, and the rows of a list of records. *)
Definition format_row (day : DailyRecord) : outcome (list value) :=
  date_obj ← strptime (date day);
  row_of (formatted_date_of date_obj) day.

Fixpoint format_rows (days : list DailyRecord) : outcome (list (list value)) :=
  match days with
  | [] => mret []
  | day :: days' =>
      row ← format_row day; rows ← format_rows days'; mret (row :: rows)
  end.

(** The records a call keeps and the records it skips, given the dates read
    from the sheet. *)
Definition new_days (existing_dates : gset string) (days : list DailyRecord)
  : list DailyRecord :=
  filter (fun day => date day ∉ existing_dates) days.

Definition duplicate_days (existing_dates : gset string) (days : list DailyRecord)
  : list DailyRecord :=
  filter (fun day => date day ∈ existing_dates) days.

(** ** The spreadsheet service *)

(** The body of [values().append]. *)
Record AppendRequest := {
  ar_spreadsheetId : string;
  ar_range : string;
  ar_valueInputOption : string;
  ar_insertDataOption : string;
  ar_values : list (list value);
}.

(** The [repeatCell] request of [batchUpdate]: a number format for a range
    that has no end row. *)
Record RepeatCell := {
  rc_sheetId : Z;
  rc_startColumnIndex : Z;
  rc_endColumnIndex : Z;
  rc_startRowIndex : Z;
  rc_type : string;
  rc_pattern : string;
  rc_fields : string;
}.

(** One entry of [spreadsheet['sheets']]: its [properties]. *)
Record SheetProperties := { title : string; sheetId : Z }.

(** The requests the handler executes. *)
Inductive request :=
| ValuesGet (spreadsheetId range : string)
| ValuesAppend (body : AppendRequest)
| SpreadsheetsGet (spreadsheetId : string)
| BatchUpdate (spreadsheetId : string) (body : RepeatCell).

(** The service behind the client: [W] is the state of the remote
    spreadsheet (and of the network), [Resp] the response to an append.
    Every [execute()] may change the state and may raise. A read returns
    the displayed cells row by row, or [None] when the response has no
    ['values'] key. *)
Class Sheets (W Resp : Type) := {
  values_get : string -> string -> W -> W * outcome (option (list (list string)));
  values_append : AppendRequest -> W -> W * outcome Resp;
  spreadsheets_get : string -> W -> W * outcome (list SheetProperties);
  batch_update : string -> RepeatCell -> W -> W * outcome unit;
}.

(** What the job prints. *)
Inductive line :=
| MsgNothingToAppend           (* 추가할 데이터가 없습니다. *)
| MsgReadError (e : exn)       (* 기존 데이터 조회 중 오류 발생: ... *)
| MsgNoNewData                 (* 추가할 새로운 데이터가 없습니다. *)
| MsgDuplicates (n : nat)      (* 중복된 데이터: n개 *)
| MsgAppended (n : nat)        (* 새로 추가된 데이터: n개 *)
| MsgAppendError (e : exn)     (* 데이터 추가 중 오류 발생: ... *)
| MsgCurrentDay (d : Z).       (* 현재 날짜: d *)

(** ** The monad of the handler's methods *)

Section Handler.

Context {W Resp : Type} `{!Sheets W Resp}.

(** The state a call runs in: the remote spreadsheet, the requests
    executed so far, the lines printed so far, and the list object
    [daily_data], which the caller hands over by reference and
    [append_daily_data] sorts in place. *)
Record state := {
  world : W;
  issued : list request;
  printed : list line;
  daily_data : list DailyRecord;
}.

Definition M (A : Type) : Type := state -> state * outcome A.

#[global] Instance M_ret : MRet M := fun _ a s => (s, Ok a).
#[global] Instance M_bind : MBind M := fun _ _ f m s =>
  match m s with
  | (s', Ok a) => f a s'
  | (s', Raise e) => (s', Raise e)
  end.

Definition raise {A} (e : exn) : M A := fun s => (s, Raise e).

(** [try: body except Exception as e: handler e] *)
Definition try_except {A} (body : M A) (handler : exn -> M A) : M A :=
  fun s =>
    match body s with
    | (s', Ok a) => (s', Ok a)
    | (s', Raise e) => handler e s'
    end.

Definition lift {A} (x : outcome A) : M A := fun s => (s, x).

(** The state after a line is printed, after a request is answered with
    the new remote state [w], and after the list is sorted in place. *)
Definition say (l : line) (s : state) : state :=
  {| world := world s; issued := issued s;
     printed := printed s ++ [l]; daily_data := daily_data s |}.

Definition sent (r : request) (w : W) (s : state) : state :=
  {| world := w; issued := issued s ++ [r];
     printed := printed s; daily_data := daily_data s |}.

Definition sorted_in_place (s : state) : state :=
  {| world := world s; issued := issued s;
     printed := printed s; daily_data := sort_by_date (daily_data s) |}.

Definition print (l : line) : M unit := fun s => (say l s, Ok tt).

Definition get_daily_data : M (list DailyRecord) := fun s => (s, Ok (daily_data s)).

Definition sort_daily_data : M unit := fun s => (sorted_in_place s, Ok tt).

(** [request.execute()]: the request is recorded and the service answers. *)
Definition execute {A} (r : request) (op : W -> W * outcome A) : M A := fun s =>
  let '(w, a) := op (world s) in (sent r w s, a).

(** ** [GoogleSheetHandler] *)

Record GoogleSheetHandler := {
  spreadsheet_id : string;
  sheet_name : string;
}.

Definition get_existing_data (self : GoogleSheetHandler) : M (list (list string)) :=
  try_except
    (result ← execute (ValuesGet (spreadsheet_id self) (sheet_name self +:+ "!A:J"))
                      (values_get (spreadsheet_id self) (sheet_name self +:+ "!A:J"));
     mret (default [] result))
    (fun e => print (MsgReadError e);; mret []).

(** The first sheet whose title is the configured name. *)
Fixpoint find_sheet (name : string) (sheets : list SheetProperties) : option Z :=
  match sheets with
  | [] => None
  | sheet :: rest =>
      if String.eqb (title sheet) name then Some (sheetId sheet)
      else find_sheet name rest
  end.

Definition get_sheet_id (self : GoogleSheetHandler) : M (option Z) :=
  try_except
    (spreadsheet ← execute (SpreadsheetsGet (spreadsheet_id self))
                           (spreadsheets_get (spreadsheet_id self));
     mret (find_sheet (sheet_name self) spreadsheet))
    (fun _ => mret None).

Definition append_request (self : GoogleSheetHandler) (new_rows : list (list value))
  : AppendRequest :=
  {| ar_spreadsheetId := spreadsheet_id self;
     ar_range := sheet_name self +:+ "!A1";
     ar_valueInputOption := "USER_ENTERED";
     ar_insertDataOption := "INSERT_ROWS";
     ar_values := new_rows |}.

Definition date_format_request (sheet_id : Z) : RepeatCell :=
  {| rc_sheetId := sheet_id;
     rc_startColumnIndex := 0;
     rc_endColumnIndex := 1;
     rc_startRowIndex := 1;
     rc_type := "DATE";
     rc_pattern := "yyyy-mm-dd";
     rc_fields := "userEnteredFormat.numberFormat" |}.

Definition print_duplicates (duplicate_count : nat) : M unit :=
  if (0 <? duplicate_count)%nat then print (MsgDuplicates duplicate_count)
  else mret tt.

(** Lines 276 to 303. [if sheet_id:] is false for [None] and for the
    id 0. *)
Definition format_date_column (self : GoogleSheetHandler) (sheet_id : option Z)
  : M unit :=
  match sheet_id with
  | Some i =>
      if i =? 0 then mret tt
      else execute (BatchUpdate (spreadsheet_id self) (date_format_request i))
                   (batch_update (spreadsheet_id self) (date_format_request i))
  | None => mret tt
  end.

(** Lines 265 to 309: the batch write, the date format, the report. *)
Definition write_new_rows (self : GoogleSheetHandler)
    (new_rows : list (list value)) (duplicate_count : nat) : M (option Resp) :=
  result ← execute (ValuesAppend (append_request self new_rows))
                   (values_append (append_request self new_rows));
  sheet_id ← get_sheet_id self;
  format_date_column self sheet_id;;
  print (MsgAppended (length new_rows));;
  print_duplicates duplicate_count;;
  mret (Some result).

(** Lines 214 to 309: the body of the [try]. *)
Definition append_body (self : GoogleSheetHandler) : M (option Resp) :=
  existing_data ← get_existing_data self;
  let existing_data := or_headers existing_data in
  existing_dates ← lift (existing_dates_of existing_data);
  sort_daily_data;;
  sorted ← get_daily_data;
  acc ← lift (filter_new existing_dates sorted ([], 0%nat));
  let '(new_rows, duplicate_count) := acc in
  match new_rows with
  | [] =>
      print MsgNoNewData;;
      print_duplicates duplicate_count;;
      mret None
  | _ => write_new_rows self new_rows duplicate_count
  end.

(** [append_daily_data(self, daily_data)], the argument being the list
    held in the state. *)
Definition append_daily_data (self : GoogleSheetHandler) : M (option Resp) :=
  arg ← get_daily_data;
  match arg with
  | [] => print MsgNothingToAppend;; mret None
  | _ =>
      try_except (append_body self)
                 (fun e => print (MsgAppendError e);; raise e)
  end.

(** ** Names for the statements *)

Definition read_request (self : GoogleSheetHandler) : request :=
  ValuesGet (spreadsheet_id self) (sheet_name self +:+ "!A:J").

(** The state after the report of lines 305 to 307. *)
Definition reported (new_rows : list (list value)) (duplicate_count : nat)
    (s : state) : state :=
  let s' := say (MsgAppended (length new_rows)) s in
  if (0 <? duplicate_count)%nat then say (MsgDuplicates duplicate_count) s' else s'.

(** The requests of the date format never carry cell values. *)
Definition cosmetic (r : request) : Prop :=
  match r with
  | SpreadsheetsGet _ | BatchUpdate _ _ => True
  | _ => False
  end.


End Handler.

Arguments state : clear implicits.
Arguments M : clear implicits.

(** ** [should_collect_data] *)

(** What the job reads of [datetime.now()]. *)
Record datetime := {
  dt_year : Z; dt_month : Z; dt_day : Z;
  dt_hour : Z; dt_minute : Z; dt_second : Z;
}.

(** The function with the clock as an argument: the line it prints and the
    value it returns. *)
Definition should_collect_data (now : datetime) : list line * bool :=
  ([MsgCurrentDay (dt_day now)], dt_day now =? 1).

(** ** A spreadsheet in memory

    An instance of the service to run the handler on: one tab of displayed
    cells that shows a date formula as [yyyy-mm-dd], and a script of faults,
    one entry per request, that says which requests fail. *)

Module MemSheet.

Record sheet := {
  cells : list (list string);
  tabs : list SheetProperties;
  faults : list bool;
}.

Record updates := { updatedRows : nat; tableRows : nat }.

(** The next entry of the script, a request without an entry succeeds. *)
Definition next_fault (w : sheet) : bool * sheet :=
  match faults w with
  | [] => (false, w)
  | f :: fs => (f, {| cells := cells w; tabs := tabs w; faults := fs |})
  end.

Definition answer {A} (w : sheet) (ok : sheet -> sheet * A)
  : sheet * outcome A :=
  let '(f, w') := next_fault w in
  if f then (w', Raise (ApiError "HttpError"))
  else let '(w'', a) := ok w' in (w'', Ok a).

(** Digits at the head of a string, as a number. *)
Fixpoint read_digits (s : string) (acc : option Z) : option Z * string :=
  match s with
  | String c s' =>
      match digit_of (Z.of_nat (nat_of_ascii c)) with
      | Some d => read_digits s' (Some (10 * default 0 acc + d))
      | None => (acc, s)
      end
  | EmptyString => (acc, s)
  end.

Definition strip (p s : string) : option string :=
  if String.prefix p s
  then Some (String.substring (String.length p) (String.length s - String.length p) s)
  else None.

Definition pad (width : nat) (n : Z) : string :=
  let t := str_of_int n in
  String.concat "" (replicate (width - String.length t) "0"%string) +:+ t.

(** [=DATE(y, m, d)] shown with the pattern [yyyy-mm-dd]. *)
Definition show_date (s : string) : option string :=
  s ← strip "=DATE(" s;
  let '(y, s) := read_digits s None in y ← y;
  s ← strip ", " s;
  let '(m, s) := read_digits s None in m ← m;
  s ← strip ", " s;
  let '(d, s) := read_digits s None in d ← d;
  if String.eqb s ")" then Some (pad 4 y +:+ "-" +:+ pad 2 m +:+ "-" +:+ pad 2 d)
  else None.

(** What a cell entered as [USER_ENTERED] displays: a date formula as a
    date, an int in decimal, a float with two decimals, a text as it is. *)
Definition display (v : value) : string :=
  match v with
  | VStr s => default s (show_date s)
  | VNum (NInt n) => str_of_int n
  | VNum (NFloat x) => format_2f x
  end.

#[export] Instance service : Sheets sheet updates := {
  values_get _ _ w :=
    answer w (fun w => (w, match cells w with [] => None | rows => Some rows end));
  values_append body w :=
    answer w (fun w =>
      ({| cells := cells w ++ map (map display) (ar_values body);
          tabs := tabs w; faults := faults w |},
       {| updatedRows := length (ar_values body); tableRows := length (cells w) |}));
  spreadsheets_get _ w := answer w (fun w => (w, tabs w));
  batch_update _ _ w := answer w (fun w => (w, tt));
}.

End MemSheet.

(** ** Fixtures *)

Module Fixtures.
Import MemSheet.

Definition handler : GoogleSheetHandler :=
  {| spreadsheet_id := "doc"; sheet_name := "Analytics" |}.

Definition jan (d : string) (cached total : Z) (ratio : num) : DailyRecord :=
  {| date := d; uniques := 10; page_views := 20; requests := total;
     cached_requests := cached; bytes := 1536; cached_bytes := 1024;
     threats := 0; cache_ratio := ratio |}.

Definition day1 : DailyRecord := jan "2024-01-01" 0 0 (NInt 0).
Definition day2 : DailyRecord := jan "2024-01-02" 1 4 (NFloat (nearest_double 25)).
Definition day3 : DailyRecord := jan "2024-01-03" 2 2 (NFloat (nearest_double 100)).

(** A day as the provider sends it: 1 request out of 3 from the cache. *)
Definition group : DayGroup :=
  {| dimensions_date := "2024-01-01"; sum_bytes := Some 1536;
     sum_cachedBytes := Some 1024; sum_requests := Some 3;
     sum_cachedRequests := Some 1; sum_pageViews := Some 20;
     sum_threats := None; uniq_uniques := Some 10 |}.

(** A day with 23 requests out of 160 from the cache: 14.375 %, half way
    between two hundredths. *)
Definition tie_group : DayGroup :=
  {| dimensions_date := "2024-01-02"; sum_bytes := Some 1536;
     sum_cachedBytes := Some 1024; sum_requests := Some 160;
     sum_cachedRequests := Some 23; sum_pageViews := Some 20;
     sum_threats := None; uniq_uniques := Some 10 |}.

Definition tab (i : Z) : SheetProperties := {| title := "Analytics"; sheetId := i |}.

Definition sheet_of (rows : list (list string)) (i : Z) (fs : list bool) : sheet :=
  {| cells := rows; tabs := [tab i]; faults := fs |}.

Definition start (w : sheet) (records : list DailyRecord) : state sheet :=
  {| world := w; issued := []; printed := []; daily_data := records |}.

Definition stored (d : string) : list string :=
  [d; "10"; "20"; "0"; "0"; "0"; "1.50 KB"; "1.00 KB"; "0"]%string.

Definition call (s : state sheet) : state sheet * outcome (option updates) :=
  append_daily_data handler s.

(** The rows sent for [day1] and [day2], and the cells they display. *)
Definition row1 : list value :=
  [VStr "=DATE(2024, 1, 1)"; VNum (NInt 10); VNum (NInt 20); VNum (NInt 0);
   VNum (NInt 0); VNum (NInt 0); VStr "1.50 KB"; VStr "1.00 KB"; VNum (NInt 0)].

Definition row2 : list value :=
  [VStr "=DATE(2024, 1, 2)"; VNum (NInt 10); VNum (NInt 20); VNum (NInt 4);
   VNum (NInt 1); VNum (NFloat (S754_finite false 7036874417766400 (-48)));
   VStr "1.50 KB"; VStr "1.00 KB"; VNum (NInt 0)].

Definition shown1 : list string := stored "2024-01-01".



(** A sheet with its header, an empty sheet, a sheet that shows one day. *)
Definition with_header : sheet := sheet_of [headers] 7 [].
Definition blank : sheet := sheet_of [] 7 [].
Definition with_day1 : sheet := sheet_of [headers; shown1] 7 [].

(** A sheet with its header whose fifth request fails: the reading of a
    second call. *)
Definition flaky_read : sheet := sheet_of [headers] 7 [false; false; false; false; true].

(** A sheet with its header whose first request fails: the reading. *)
Definition unreadable : sheet := sheet_of [headers; shown1] 7 [true].

(** A sheet with its header whose fourth request fails: the date format
    that follows the batch write and the look-up of the tab. *)
Definition flaky_format : sheet := sheet_of [headers] 7 [false; false; false; true].

(** A sheet with its header whose third request fails: the look-up of the
    tab. *)
Definition flaky_lookup : sheet := sheet_of [headers] 7 [false; false; true].

End Fixtures.

(** ** The rest of the job: failures

    The exceptions of the loader, of the fetcher and of the loop, beside
    those of the handler. *)

Inductive failure :=
| Raised (e : exn)                    (* an exception of the handler's model *)
| KeyError (key : string)
| TypeError
| DateOutOfRange                      (* OverflowError: date value out of range *)
| TransportError (msg : string)       (* what requests.post or response.json raises *)
| RequestFailed (status_code : Z)     (* Exception: API 요청 실패: {status_code} *)
| GraphQLError (errors : list string) (* Exception: GraphQL 에러: {errors} *)
| NoZones                             (* Exception: 응답 데이터에 zones 정보가 없습니다. *)
| ConfigNotFound (path : string)      (* Exception: 설정 파일을 찾을 수 없습니다: {path} *)
| ConfigMalformed (path : string)     (* Exception: 설정 파일 형식이 잘못되었습니다: {path} *)
| MissingSection (section : string)   (* Exception: 설정 파일에 '{section}' 섹션이 없습니다. *)
| MissingField (section field : string)
                                      (* Exception: ... '{section}' 섹션에 '{field}' 필드가 없습니다. *)
| EmptyField (section field : string) (* Exception: ... '{section}.{field}' 값이 비어있습니다. *)
| AuthFailed (msg : string)           (* Exception: Google Sheets 인증 실패: {msg} *)
| OtherError (msg : string).

Inductive attempt (A : Type) :=
| Fine (a : A)
| Failed (e : failure).
Arguments Fine {A} a.
Arguments Failed {A} e.

#[export] Instance attempt_ret : MRet attempt := fun _ a => Fine a.
#[export] Instance attempt_bind : MBind attempt := fun _ _ f x =>
  match x with
  | Fine a => f a
  | Failed e => Failed e
  end.

Definition of_outcome {A} (x : outcome A) : attempt A :=
  match x with
  | Ok a => Fine a
  | Raise e => Failed (Raised e)
  end.

(** ** [ConfigHandler] *)

(** The value [json.load] returns. The members of an object are in the
    order of the file, with distinct keys, as in a dict. *)
#[warnings="-register-all"]
Inductive json :=
| JNull
| JBool (b : bool)
| JInt (n : Z)
| JFloat (x : spec_float)
| JStr (s : string)
| JArr (items : list json)
| JObj (members : list (string * json)).

(** [not v] is false on these. *)
Definition truthy (v : json) : bool :=
  match v with
  | JNull => false
  | JBool b => b
  | JInt n => negb (n =? 0)
  | JFloat (S754_zero _) => false
  | JFloat _ => true
  | JStr s => negb (String.eqb s "")
  | JArr items => match items with [] => false | _ => true end
  | JObj members => match members with [] => false | _ => true end
  end.

Fixpoint member (key : string) (members : list (string * json)) : option json :=
  match members with
  | [] => None
  | (k, v) :: rest => if String.eqb k key then Some v else member key rest
  end.

Definition is_text (key : string) (v : json) : bool :=
  match v with
  | JStr s => String.eqb s key
  | _ => false
  end.

(** [key in s] on strings. *)
Fixpoint occurs_in (key s : string) : bool :=
  String.prefix key s ||
  match s with
  | EmptyString => false
  | String _ s' => occurs_in key s'
  end.

(** [key in c]: a key of a dict, an item of a list, a part of a string;
    a TypeError on the rest. *)
Definition contains (key : string) (c : json) : attempt bool :=
  match c with
  | JObj members => Fine (bool_decide (is_Some (member key members)))
  | JArr items => Fine (existsb (is_text key) items)
  | JStr s => Fine (occurs_in key s)
  | _ => Failed TypeError
  end.

(** [c[key]]: a KeyError on a dict without the key, a TypeError on what is
    not a dict. *)
Definition item (c : json) (key : string) : attempt json :=
  match c with
  | JObj members =>
      match member key members with
      | Some v => Fine v
      | None => Failed (KeyError key)
      end
  | _ => Failed TypeError
  end.

Definition required_fields : list (string * list string) :=
  [("cloudflare", ["api_token"; "zone_id"]);
   ("google_sheets", ["credentials_file"; "spreadsheet_id"; "sheet_name"])]%string.

(** The inner loop of [validate_config]. *)
Fixpoint validate_fields (config : json) (section : string) (fields : list string)
  : attempt unit :=
  match fields with
  | [] => mret tt
  | field :: rest =>
      in_section ← item config section;
      present ← contains field in_section;
      if negb present then Failed (MissingField section field)
      else
        in_section ← item config section;
        v ← item in_section field;
        if negb (truthy v) then Failed (EmptyField section field)
        else validate_fields config section rest
  end.

Fixpoint validate_sections (config : json) (required : list (string * list string))
  : attempt unit :=
  match required with
  | [] => mret tt
  | (section, fields) :: rest =>
      present ← contains section config;
      if negb present then Failed (MissingSection section)
      else validate_fields config section fields;; validate_sections config rest
  end.

Definition validate_config (config : json) : attempt unit :=
  validate_sections config required_fields.

(** What [open] and [json.load] do with the file. *)
Inductive file_read :=
| FileNotFound
| DecodeError
| ReadError (e : failure)
| Parsed (config : json).

Definition load_config (config_path : string) (file : file_read) : attempt json :=
  match file with
  | Parsed config => validate_config config;; mret config
  | FileNotFound => Failed (ConfigNotFound config_path)
  | DecodeError => Failed (ConfigMalformed config_path)
  | ReadError e => Failed e
  end.

(** ** [CloudflareAnalytics] *)

(** The response of the provider, keys that may be missing as options. *)
Record SumData := {
  sd_bytes : option Z;
  sd_cachedBytes : option Z;
  sd_requests : option Z;
  sd_cachedRequests : option Z;
  sd_pageViews : option Z;
  sd_threats : option Z;
}.

Record RawGroup := {
  rg_dimensions : option (option string);   (* 'dimensions', and 'date' in it *)
  rg_sum : option SumData;
  rg_uniq : option (option Z);              (* 'uniq', and 'uniques' in it *)
}.

Record Zone := { httpRequests1dGroups : option (list RawGroup) }.
Record Viewer := { zones : option (list Zone) }.
Record Data := { viewer : option Viewer }.
Record Body := { errors : option (list string); data : option Data }.

Record Response := {
  status_code : Z;
  text : string;
  json_body : attempt Body;                 (* response.json() *)
}.

(** The request to the provider: the address, the token, and the three
    variables of the query (its text is a constant of the source). *)
Record Request := {
  url : string;
  authorization : string;
  zoneTag : string;
  date_geq : string;
  date_leq : string;
}.

Record CloudflareAnalytics := {
  cf_authorization : string;
  cf_zone_id : string;
}.

Definition graphql_url : string := "https://api.cloudflare.com/client/v4/graphql".

Inductive fetch_line :=
| MsgPeriod (first last : string)     (* 수집 기간: {first} ~ {last} *)
| MsgStatus (status_code : Z)         (* API 응답 상태 코드: ... *)
| MsgResponseText (text : string)     (* 응답 내용: ... *)
| MsgGraphQLResponse (body : Body)    (* GraphQL 응답: ... *)
| MsgNoDataInRange                    (* 주의: 지정된 기간에 데이터가 없습니다. *)
| MsgFetchError (e : failure).        (* 데이터 수집 중 오류 발생: ... *)

(** [d[key]] on a dict of the response. *)
Definition key {A} (name : string) (v : option A) : attempt A :=
  match v with
  | Some a => Fine a
  | None => Failed (KeyError name)
  end.

(** Lines 134 to 148: the three dicts of a day, then its date. *)
Definition group_of (day : RawGroup) : attempt DayGroup :=
  dimensions ← key "dimensions" (rg_dimensions day);
  sum_data ← key "sum" (rg_sum day);
  uniq_data ← key "uniq" (rg_uniq day);
  date ← key "date" dimensions;
  mret {| dimensions_date := date;
          sum_bytes := sd_bytes sum_data;
          sum_cachedBytes := sd_cachedBytes sum_data;
          sum_requests := sd_requests sum_data;
          sum_cachedRequests := sd_cachedRequests sum_data;
          sum_pageViews := sd_pageViews sum_data;
          sum_threats := sd_threats sum_data;
          uniq_uniques := uniq_data |}.

(** The [for day in requests_data] loop. *)
Fixpoint records_of (requests_data : list RawGroup) : attempt (list DailyRecord) :=
  match requests_data with
  | [] => mret []
  | day :: rest =>
      group ← group_of day;
      daily_record ← of_outcome (daily_record_of group);
      records ← records_of rest;
      mret (daily_record :: records)
  end.

(** [daily_data.sort(key=lambda x: x['날짜'], reverse=True)]: a stable sort,
    newest date first. *)
Fixpoint insert_by_date_desc (x : DailyRecord) (l : list DailyRecord)
  : list DailyRecord :=
  match l with
  | [] => [x]
  | y :: l' =>
      if String.leb (date y) (date x) then x :: l
      else y :: insert_by_date_desc x l'
  end.

Definition sort_by_date_desc (l : list DailyRecord) : list DailyRecord :=
  foldr insert_by_date_desc [] l.

(** The zones of the response: three [.get] with an empty default. *)
Definition zones_of (body : Body) : list Zone :=
  match data body with
  | Some d =>
      match viewer d with
      | Some v => default [] (zones v)
      | None => []
      end
  | None => []
  end.

(** Lines 110 to 163, the body of the [try] once the response is there. *)
Definition read_response (response : Response)
  : list fetch_line * attempt (option (list DailyRecord)) :=
  if negb (status_code response =? 200)
  then ([MsgStatus (status_code response); MsgResponseText (text response)],
        Failed (RequestFailed (status_code response)))
  else
    match json_body response with
    | Failed e => ([], Failed e)
    | Fine body =>
        match errors body with
        | Some (e :: es) =>
            ([MsgGraphQLResponse body], Failed (GraphQLError (e :: es)))
        | _ =>
            match zones_of body with
            | [] => ([], Failed NoZones)
            | zone :: _ =>
                match default [] (httpRequests1dGroups zone) with
                | [] => ([MsgNoDataInRange], Fine None)
                | requests_data =>
                    ([], records ← records_of requests_data;
                         mret (Some (sort_by_date_desc records)))
                end
            end
        end
    end.

(** The day before, in the calendar; none before the year 1. *)
Definition prev_day (d : date_obj) : attempt date_obj :=
  if 1 <? day d then Fine {| year := year d; month := month d; day := day d - 1 |}
  else if 1 <? month d
       then Fine {| year := year d; month := month d - 1;
                    day := days_in_month (year d) (month d - 1) |}
       else if 1 <? year d
            then Fine {| year := year d - 1; month := 12; day := 31 |}
            else Failed DateOutOfRange.

(** [d - timedelta(days=n)] *)
Fixpoint days_before (n : nat) (d : date_obj) : attempt date_obj :=
  match n with
  | O => Fine d
  | S n' => d' ← prev_day d; days_before n' d'
  end.

Definition two_digits (n : Z) : string :=
  if n <? 10 then "0" +:+ str_of_int n else str_of_int n.

(** [strftime('%Y-%m-%d')] (the year on four digits from 1000 on). *)
Definition strftime (d : date_obj) : string :=
  str_of_int (year d) +:+ "-" +:+ two_digits (month d) +:+ "-" +:+ two_digits (day d).

(** A run of the fetcher: what it printed, what it sent, and what it
    returned or raised. *)
Record fetch := {
  said : list fetch_line;
  posted : list Request;
  returned : attempt (option (list DailyRecord));
}.

(** [except Exception as e: print(...); raise] *)
Definition reported_fetch (run : list fetch_line * attempt (option (list DailyRecord)))
  : list fetch_line * attempt (option (list DailyRecord)) :=
  match run.2 with
  | Failed e => (run.1 ++ [MsgFetchError e], Failed e)
  | Fine _ => run
  end.

Definition request_of (self : CloudflareAnalytics) (start_date_str end_date_str : string)
  : Request :=
  {| url := graphql_url;
     authorization := cf_authorization self;
     zoneTag := cf_zone_id self;
     date_geq := start_date_str;
     date_leq := end_date_str |}.

(** [get_last_30days_analytics], the date of the clock and the exchange
    with the provider as arguments. *)
Definition get_last_30days_analytics (self : CloudflareAnalytics) (now : date_obj)
    (post : Request -> attempt Response) : fetch :=
  match days_before 30 now with
  | Failed e => {| said := []; posted := []; returned := Failed e |}
  | Fine start_date =>
      let start_date_str := strftime start_date in
      let end_date_str := strftime now in
      let request := request_of self start_date_str end_date_str in
      let run := reported_fetch
                   match post request with
                   | Failed e => ([], Failed e)
                   | Fine response => read_response response
                   end in
      {| said := MsgPeriod start_date_str end_date_str :: run.1;
         posted := [request];
         returned := run.2 |}
  end.

(** ** [main] *)

(** The five values of the configuration the job uses, as strings. *)
Record Config := {
  cloudflare_api_token : string;
  cloudflare_zone_id : string;
  google_sheets_credentials_file : string;
  google_sheets_spreadsheet_id : string;
  google_sheets_sheet_name : string;
}.

Inductive main_line :=
| MsgServiceStart (now : datetime)        (* lines 337 to 339 *)
| MsgSettingsHeader                       (* 설정 정보 *)
| MsgSettings (config_path : string) (config : Config)
                                          (* lines 349 to 354 *)
| MsgCollecting (now : datetime)          (* ... - 월간 데이터 수집 시작 *)
| MsgFetching                             (* Cloudflare 데이터 수집 중... *)
| MsgNothingCollected                     (* 수집할 데이터가 없습니다. *)
| MsgAppending                            (* Google Spreadsheet에 데이터 추가 중... *)
| MsgSuccess                              (* 데이터가 성공적으로 추가되었습니다. *)
| MsgSummaryHeader                        (* 수집 데이터 요약: *)
| MsgSummaryPeriod (first last : string)  (* 수집 기간: {first} ~ {last} *)
| MsgTotalVisitors (n : Z)                (* 총 고유 방문자: ... *)
| MsgTotalRequests (n : Z)                (* 총 요청 수: ... *)
| MsgTotalCached (n : Z)                  (* 총 캐시된 요청 수: ... *)
| MsgCacheRatio (percent : string)        (* 전체 캐시 비율: ...% *)
| MsgTotalBytes (size : string)           (* 총 데이터: ... *)
| MsgCachedBytes (size : string)          (* 캐시된 데이터: ... *)
| MsgBytesCacheRatio (percent : string)   (* 데이터 캐시 비율: ...% *)
| MsgWaiting                              (* 다음 데이터 수집까지 대기 중... *)
| MsgError (e : failure)                  (* 에러 발생: ... *)
| MsgRetry.                               (* 1시간 후 다시 시도합니다... *)

Inductive output :=
| OutSheet (l : line)
| OutFetch (l : fetch_line)
| OutMain (l : main_line).

(** [sum(day[...] for day in daily_data)] *)
Definition total (field : DailyRecord -> Z) (daily_data : list DailyRecord) : Z :=
  fold_left (fun acc day => acc + field day) daily_data 0.

(** [(part / whole) * 100] printed with two decimals, when [whole > 0]. *)
Definition ratio_line (part whole : Z) : outcome (option string) :=
  if 0 <? whole then
    q ← int_truediv part whole;
    mret (Some (format_2f (fmul q (nearest_double 100))))
  else mret None.

(** Lines 377 to 398: the lines printed, and the exception that stops them
    if there is one. *)
Definition summary (daily_data : list DailyRecord) : list main_line * outcome unit :=
  let total_requests := total requests daily_data in
  let total_cached := total cached_requests daily_data in
  let total_visitors := total uniques daily_data in
  let total_bytes := total bytes daily_data in
  let total_cached_bytes := total cached_bytes daily_data in
  match head daily_data, last daily_data with
  | Some first, Some last =>
      let l0 := [MsgSummaryHeader;
                 MsgSummaryPeriod (date first) (date last);
                 MsgTotalVisitors total_visitors;
                 MsgTotalRequests total_requests;
                 MsgTotalCached total_cached] in
      match ratio_line total_cached total_requests with
      | Raise e => (l0, Raise e)
      | Ok cache_ratio =>
          let l1 := l0 ++ option_list (MsgCacheRatio <$> cache_ratio) in
          match format_bytes total_bytes with
          | Raise e => (l1, Raise e)
          | Ok size =>
              let l2 := l1 ++ [MsgTotalBytes size] in
              match format_bytes total_cached_bytes with
              | Raise e => (l2, Raise e)
              | Ok cached_size =>
                  let l3 := l2 ++ [MsgCachedBytes cached_size] in
                  match ratio_line total_cached_bytes total_bytes with
                  | Raise e => (l3, Raise e)
                  | Ok bytes_cache_ratio =>
                      (l3 ++ option_list (MsgBytesCacheRatio <$> bytes_cache_ratio),
                       Ok tt)
                  end
              end
          end
      end
  | _, _ => ([MsgSummaryHeader], Raise IndexError)
  end.

(** What one turn of the loop meets: the clock at its three readings, the
    provider, and the failure of the authentication if it fails. *)
Record Turn := {
  now_checked : datetime;                 (* in should_collect_data *)
  now_started : datetime;                 (* at line 359 *)
  now_fetched : datetime;                 (* in get_last_30days_analytics *)
  post : Request -> attempt Response;
  auth_failure : option string;
}.

Definition date_of (now : datetime) : date_obj :=
  {| year := dt_year now; month := dt_month now; day := dt_day now |}.

Definition CloudflareAnalytics_init (config : Config) : CloudflareAnalytics :=
  {| cf_authorization := "Bearer " +:+ cloudflare_api_token config;
     cf_zone_id := cloudflare_zone_id config |}.

Definition GoogleSheetHandler_init (config : Config) (auth_failure : option string)
  : attempt GoogleSheetHandler :=
  match auth_failure with
  | Some msg => Failed (AuthFailed msg)
  | None => Fine {| spreadsheet_id := google_sheets_spreadsheet_id config;
                    sheet_name := google_sheets_sheet_name config |}
  end.

Section Main.

Context {W Resp : Type} `{!Sheets W Resp}.

(** [if result:] on the answer of the service. *)
Variable nonempty : Resp -> bool.

(** The job as seen from outside: the spreadsheet, the requests sent to it
    and to the provider, the lines printed, the sleeps taken. *)
Record job := {
  remote : W;
  sheet_requests : list request;
  http_requests : list Request;
  output_lines : list output;
  sleeps : list Z;
}.

Definition out (lines : list output) (j : job) : job :=
  {| remote := remote j; sheet_requests := sheet_requests j;
     http_requests := http_requests j;
     output_lines := output_lines j ++ lines; sleeps := sleeps j |}.

Definition sleep (seconds : Z) (j : job) : job :=
  {| remote := remote j; sheet_requests := sheet_requests j;
     http_requests := http_requests j;
     output_lines := output_lines j; sleeps := sleeps j ++ [seconds] |}.

(** The job after a run of the fetcher. *)
Definition after_fetch (f : fetch) (j : job) : job :=
  {| remote := remote j; sheet_requests := sheet_requests j;
     http_requests := http_requests j ++ posted f;
     output_lines := output_lines j ++ (OutFetch <$> said f); sleeps := sleeps j |}.

(** The job after a call of the handler that ended in state [s]. *)
Definition after_call (s : state W) (j : job) : job :=
  {| remote := world s; sheet_requests := sheet_requests j ++ issued s;
     http_requests := http_requests j;
     output_lines := output_lines j ++ (OutSheet <$> printed s); sleeps := sleeps j |}.

(** Lines 369 to 398: the [else] branch, on the list the fetcher returned. *)
Definition store (config : Config) (t : Turn) (fetched : list DailyRecord) (j : job)
  : job * attempt unit :=
  let j := out [OutMain MsgAppending] j in
  match GoogleSheetHandler_init config (auth_failure t) with
  | Failed e => (j, Failed e)
  | Fine gsheet =>
      let run := append_daily_data gsheet
                   {| world := remote j; issued := []; printed := [];
                      daily_data := fetched |} in
      let j := after_call run.1 j in
      match run.2 with
      | Raise e => (j, Failed (Raised e))
      | Ok None => (j, Fine tt)
      | Ok (Some result) =>
          if nonempty result then
            let j := out [OutMain MsgSuccess] j in
            let lines := summary (daily_data run.1) in
            (out (OutMain <$> lines.1) j, of_outcome lines.2)
          else (j, Fine tt)
      end
  end.

(** Lines 358 to 400: the body of the inner [try], up to the sleep. *)
Definition collect (config : Config) (t : Turn) (j : job) : job * attempt unit :=
  let check := should_collect_data (now_checked t) in
  let j := out (OutSheet <$> check.1) j in
  if check.2 then
    let j := out [OutMain (MsgCollecting (now_started t)); OutMain MsgFetching] j in
    let cf_analytics := CloudflareAnalytics_init config in
    let f := get_last_30days_analytics cf_analytics (date_of (now_fetched t)) (post t) in
    let j := after_fetch f j in
    match returned f with
    | Failed e => (j, Failed e)
    | Fine fetched =>
        let stored :=
          match fetched with
          | None | Some [] => (out [OutMain MsgNothingCollected] j, Fine tt)
          | Some fetched => store config t fetched j
          end in
        match stored.2 with
        | Failed e => stored
        | Fine _ => (out [OutMain MsgWaiting] stored.1, Fine tt)
        end
    end
  else (j, Fine tt).

(** One turn of [while True]: the sleep ends the body and the handler of
    its exceptions alike. *)
Definition turn (config : Config) (t : Turn) (j : job) : job :=
  let run := collect config t j in
  match run.2 with
  | Fine _ => sleep 3600 run.1
  | Failed e => sleep 3600 (out [OutMain (MsgError e); OutMain MsgRetry] run.1)
  end.

(** [main], with the outcome of [ConfigHandler] and the turns the loop
    takes while it is watched. *)
Definition main (now : datetime) (config_path : string) (loaded : attempt Config)
    (turns : list Turn) (j : job) : job :=
  let j := out [OutMain (MsgServiceStart now); OutMain MsgSettingsHeader] j in
  match loaded with
  | Failed e => sleep 3600 (out [OutMain (MsgError e); OutMain MsgRetry] j)
  | Fine config =>
      foldl (fun j t => turn config t j)
            (out [OutMain (MsgSettings config_path config)] j) turns
  end.

(** *** Names for the statements *)

(** The fetch of a turn. *)
Definition fetch_of (config : Config) (t : Turn) : fetch :=
  get_last_30days_analytics (CloudflareAnalytics_init config)
    (date_of (now_fetched t)) (post t).

(** The call of the handler in a turn, on the list the fetcher returned. *)
Definition call_of (config : Config) (fetched : list DailyRecord) (j : job)
  : state W * outcome (option Resp) :=
  append_daily_data
    {| spreadsheet_id := google_sheets_spreadsheet_id config;
       sheet_name := google_sheets_sheet_name config |}
    {| world := remote j; issued := []; printed := []; daily_data := fetched |}.

(** What a turn makes of the job, case by case: an off day; a fetch that
    gave no day; an authentication that failed; a call of the handler
    without a summary; a call with one. *)
Inductive turn_case (config : Config) (t : Turn) (j : job) : job -> Prop :=
| off_day :
    dt_day (now_checked t) <> 1 ->
    turn_case config t j
      {| remote := remote j; sheet_requests := sheet_requests j;
         http_requests := http_requests j;
         output_lines := output_lines j
                         ++ [OutSheet (MsgCurrentDay (dt_day (now_checked t)))];
         sleeps := sleeps j ++ [3600] |}
| fetched_nothing lines :
    dt_day (now_checked t) = 1 ->
    (forall fetched, fetched <> [] ->
                     returned (fetch_of config t) <> Fine (Some fetched)) ->
    OutMain MsgSuccess ∉ lines ->
    turn_case config t j
      {| remote := remote j; sheet_requests := sheet_requests j;
         http_requests := http_requests j ++ posted (fetch_of config t);
         output_lines := output_lines j ++ lines;
         sleeps := sleeps j ++ [3600] |}
| not_authenticated fetched lines :
    dt_day (now_checked t) = 1 ->
    returned (fetch_of config t) = Fine (Some fetched) -> fetched <> [] ->
    auth_failure t <> None ->
    OutMain MsgSuccess ∉ lines ->
    turn_case config t j
      {| remote := remote j; sheet_requests := sheet_requests j;
         http_requests := http_requests j ++ posted (fetch_of config t);
         output_lines := output_lines j ++ lines;
         sleeps := sleeps j ++ [3600] |}
| called_without_summary fetched lines :
    dt_day (now_checked t) = 1 ->
    returned (fetch_of config t) = Fine (Some fetched) -> fetched <> [] ->
    auth_failure t = None ->
    (forall result, (call_of config fetched j).2 = Ok (Some result) ->
                    nonempty result = false) ->
    OutMain MsgSuccess ∉ lines ->
    turn_case config t j
      {| remote := world (call_of config fetched j).1;
         sheet_requests := sheet_requests j ++ issued (call_of config fetched j).1;
         http_requests := http_requests j ++ posted (fetch_of config t);
         output_lines := output_lines j ++ lines;
         sleeps := sleeps j ++ [3600] |}
| called_with_summary fetched result before after :
    dt_day (now_checked t) = 1 ->
    returned (fetch_of config t) = Fine (Some fetched) -> fetched <> [] ->
    auth_failure t = None ->
    (call_of config fetched j).2 = Ok (Some result) ->
    nonempty result = true ->
    OutMain MsgSuccess ∉ before ->
    OutMain MsgSuccess ∉ after ->
    turn_case config t j
      {| remote := world (call_of config fetched j).1;
         sheet_requests := sheet_requests j ++ issued (call_of config fetched j).1;
         http_requests := http_requests j ++ posted (fetch_of config t);
         output_lines :=
           output_lines j ++ before ++ [OutMain MsgSuccess]
           ++ (OutMain <$> (summary (daily_data (call_of config fetched j).1)).1)
           ++ after;
         sleeps := sleeps j ++ [3600] |}.

End Main.

Arguments job : clear implicits.

(** The order of the fetcher: newest first. *)
Definition date_ge (x y : DailyRecord) : Prop := date_le y x.

(** A field of a section that is there with a value that counts as true. *)
Definition filled (members : list (string * json)) (field : string) : Prop :=
  exists v, member field members = Some v /\ truthy v = true.

(** ** More fixtures *)

Module Cases.
Import MemSheet Fixtures.

(** A sheet with its header whose second request fails: the batch write. *)
Definition flaky_write : sheet := sheet_of [headers] 7 [false; true].

(** A sheet with a row without cells between its header and a day. *)
Definition with_gap : sheet := sheet_of [headers; []; shown1] 7 [].

(** A sheet whose tab has the id 0. *)
Definition first_tab : sheet := sheet_of [headers] 0 [].

(** A record whose date is no date. *)
Definition no_day : DailyRecord := jan "yesterday" 0 0 (NInt 0).

(** Days as the provider sends them, and one without its date. *)
Definition sums (cached total : Z) : SumData :=
  {| sd_bytes := Some 1536; sd_cachedBytes := Some 1024;
     sd_requests := Some total; sd_cachedRequests := Some cached;
     sd_pageViews := Some 20; sd_threats := None |}.

Definition raw (d : string) (cached total : Z) : RawGroup :=
  {| rg_dimensions := Some (Some d); rg_sum := Some (sums cached total);
     rg_uniq := Some (Some 10) |}.

Definition raw1 : RawGroup := raw "2024-01-01" 0 0.
Definition raw2 : RawGroup := raw "2024-01-02" 1 4.

Definition undated : RawGroup :=
  {| rg_dimensions := Some None; rg_sum := Some (sums 0 0);
     rg_uniq := Some (Some 10) |}.

Definition zone_of (groups : list RawGroup) : Zone :=
  {| httpRequests1dGroups := Some groups |}.

Definition body_of (groups : list RawGroup) : Body :=
  {| errors := None;
     data := Some {| viewer := Some {| zones := Some [zone_of groups] |} |} |}.

Definition response_of (groups : list RawGroup) : Response :=
  {| status_code := 200; text := ""; json_body := Fine (body_of groups) |}.

(** A provider that answers with these days, and one that refuses. *)
Definition answering (groups : list RawGroup) : Request -> attempt Response :=
  fun _ => Fine (response_of groups).

Definition refusing : Request -> attempt Response :=
  fun _ => Fine {| status_code := 403; text := "denied";
                   json_body := Failed (TransportError "no body") |}.

Definition account : CloudflareAnalytics :=
  {| cf_authorization := "Bearer token"; cf_zone_id := "zone" |}.

Definition first_of_february : date_obj := {| year := 2024; month := 2; day := 1 |}.
Definition second_of_january : date_obj := {| year := 2024; month := 1; day := 2 |}.

Definition settings : Config :=
  {| cloudflare_api_token := "token"; cloudflare_zone_id := "zone";
     google_sheets_credentials_file := "key.json";
     google_sheets_spreadsheet_id := "doc";
     google_sheets_sheet_name := "Analytics" |}.

Definition midnight (y m d : Z) : datetime :=
  {| dt_year := y; dt_month := m; dt_day := d;
     dt_hour := 0; dt_minute := 0; dt_second := 0 |}.

(** A turn on the first of February 2024, and one on the second. *)
Definition on_the_first (post : Request -> attempt Response) : Turn :=
  {| now_checked := midnight 2024 2 1; now_started := midnight 2024 2 1;
     now_fetched := midnight 2024 2 1; post := post; auth_failure := None |}.

Definition on_the_second (post : Request -> attempt Response) : Turn :=
  {| now_checked := midnight 2024 2 2; now_started := midnight 2024 2 2;
     now_fetched := midnight 2024 2 2; post := post; auth_failure := None |}.

Definition fresh (w : sheet) : job sheet :=
  {| remote := w; sheet_requests := []; http_requests := [];
     output_lines := []; sleeps := [] |}.

(** The answer of the sheet in memory is never an empty dict. *)
Definition answered (result : updates) : bool := true.

(** A configuration, and one whose last field is the empty string. *)
Definition cloudflare_section : json :=
  JObj [("api_token", JStr "token"); ("zone_id", JStr "zone")]%string.

Definition google_sheets_section (sheet_name : string) : json :=
  JObj [("credentials_file", JStr "key.json"); ("spreadsheet_id", JStr "doc");
        ("sheet_name", JStr sheet_name)]%string.

Definition config_file : json :=
  JObj [("cloudflare", cloudflare_section);
        ("google_sheets", google_sheets_section "Analytics")]%string.

Definition no_sheet_name : list (string * json) :=
  [("cloudflare", cloudflare_section);
   ("google_sheets", google_sheets_section "")]%string.

End Cases.

(** * Properties *)

(** ** Doubles *)

Lemma digits2_pos_size p : digits2_pos p = Pos.size p.
Proof. induction p; simpl; congruence. Qed.

(** [2 ^ (d - 1) <= p < 2 ^ d] for the number [d] of binary digits of [p]. *)
Lemma digits2_pos_bounds p :
  2 ^ (Z.pos (digits2_pos p) - 1) <= Z.pos p < 2 ^ Z.pos (digits2_pos p).
Proof.
  rewrite digits2_pos_size. split.
  - pose proof (Pos.size_le p) as H.
    assert (H' : 2 ^ Z.pos (Pos.size p) <= 2 * Z.pos p).
    { change (2 * Z.pos p) with (Z.pos p~0). rewrite <- Pos2Z.inj_pow. lia. }
    replace (Z.pos (Pos.size p)) with (Z.succ (Z.pos (Pos.size p) - 1)) in H' by lia.
    rewrite Z.pow_succ_r in H' by lia. lia.
  - pose proof (Pos.size_gt p) as H. rewrite <- Pos2Z.inj_pow. lia.
Qed.

Lemma digits2_pos_unique p d :
  2 ^ (d - 1) <= Z.pos p < 2 ^ d -> Z.pos (digits2_pos p) = d.
Proof.
  intros [Hlo Hhi]. pose proof (digits2_pos_bounds p) as [Hlo' Hhi'].
  assert (0 < d).
  { destruct (Z_lt_le_dec 0 d); [done|].
    assert (2 ^ d <= 2 ^ 0).
    { destruct (Z_lt_le_dec d 0); [rewrite Z.pow_neg_r by lia; lia|].
      apply Z.pow_le_mono_r; lia. }
    simpl in *. lia. }
  destruct (Z_lt_le_dec (Z.pos (digits2_pos p)) d) as [Hlt|Hge].
  - assert (2 ^ Z.pos (digits2_pos p) <= 2 ^ (d - 1))
      by (apply Z.pow_le_mono_r; lia).
    lia.
  - destruct (Z_lt_le_dec d (Z.pos (digits2_pos p))) as [Hlt|Hge']; [|lia].
    assert (2 ^ d <= 2 ^ (Z.pos (digits2_pos p) - 1))
      by (apply Z.pow_le_mono_r; lia).
    lia.
Qed.

Lemma f1024_eq : f1024 = S754_finite false 4503599627370496 (-42).
Proof. reflexivity. Qed.

Lemma fexp_eq x : -1021 <= x -> fexp prec emax x = x - 53.
Proof. unfold fexp, emin, prec, emax. lia. Qed.

(** A mantissa of 53 digits with an exponent in range is left as it is. *)
Lemma binary_round_aux_canonical s m e :
  Z.pos (digits2_pos m) = 53 -> -1074 <= e <= 971 ->
  binary_round_aux prec emax s (Z.pos m) e loc_Exact = S754_finite s m e.
Proof.
  intros Hd He. unfold binary_round_aux, shr_fexp. simpl Zdigits2.
  rewrite Hd, fexp_eq by lia.
  replace (53 + e - 53 - e) with 0 by lia. simpl.
  rewrite Hd, fexp_eq by lia.
  replace (53 + e - 53 - e) with 0 by lia. simpl.
  unfold emax, prec. destruct (Z.leb_spec e (1024 - 53)); [done|lia].
Qed.

(** One more digit than 53, the last one 0: the digit is dropped. *)
Lemma binary_round_aux_even s m e :
  Z.pos (digits2_pos m) = 53 -> -1075 <= e <= 970 ->
  binary_round_aux prec emax s (Z.pos m~0) e loc_Exact = S754_finite s m (e + 1).
Proof.
  intros Hd He. unfold binary_round_aux, shr_fexp. simpl Zdigits2.
  replace (Z.pos (Pos.succ (digits2_pos m))) with 54 by lia.
  rewrite fexp_eq by lia.
  replace (54 + e - 53 - e) with 1 by lia. simpl.
  rewrite Hd, fexp_eq by lia.
  replace (53 + (e + 1) - 53 - (e + 1)) with 0 by lia. simpl.
  unfold emax, prec. destruct (Z.leb_spec (e + 1) (1024 - 53)); [done|lia].
Qed.

Lemma fdiv_1024 m e :
  Z.pos (digits2_pos m) = 53 -> -1063 <= e <= 981 ->
  fdiv (S754_finite false m e) f1024 = S754_finite false m (e - 10).
Proof.
  intros Hd He. rewrite f1024_eq. unfold fdiv, SFdiv, SFdiv_core_binary.
  change (Zdigits2 (Z.pos 4503599627370496)) with 53.
  change (Zdigits2 (Z.pos m)) with (Z.pos (digits2_pos m)). rewrite Hd.
  replace (53 + e - (53 + -42)) with (e + 42) by lia.
  rewrite fexp_eq by lia.
  replace (Z.min (e + 42 - 53) (e - -42)) with (e - 11) by lia.
  replace (e - -42 - (e - 11)) with 53 by lia.
  rewrite Z.shiftl_mul_pow2 by lia.
  assert (Hq : Z.div_eucl (Z.pos m * 2 ^ 53) (Z.pos 4503599627370496) = (Z.pos m~0, 0)).
  { pose proof (Z_div_mod (Z.pos m * 2 ^ 53) (Z.pos 4503599627370496) eq_refl) as H.
    destruct (Z.div_eucl _ _) as [q r]. destruct H as [H1 H2].
    change (2 ^ 53) with (2 * 4503599627370496) in H1.
    assert (q = 2 * Z.pos m) by nia. assert (r = 0) by nia. subst. done. }
  rewrite Hq. simpl xorb. change (new_location (Z.pos 4503599627370496) 0) with loc_Exact.
  rewrite binary_round_aux_even by lia. f_equal. lia.
Qed.

(** A float of 53 digits is below 1024.0 when its exponent is below -42. *)
Lemma fltb_1024 m e :
  Z.pos (digits2_pos m) = 53 ->
  fltb (S754_finite false m e) f1024 = (e <? -42).
Proof.
  intros Hd. rewrite f1024_eq.
  assert (Hlo : (4503599627370496 <= m)%positive).
  { pose proof (digits2_pos_bounds m) as [Hlo _]. rewrite Hd in Hlo.
    assert (Hc : 2 ^ (53 - 1) = 4503599627370496) by (vm_compute; reflexivity).
    rewrite Hc in Hlo. lia. }
  revert Hlo. generalize 4503599627370496%positive. intros c Hlo.
  unfold fltb, SFltb, SFcompare.
  destruct (Z.compare_spec e (-42)) as [Heq|Hlt|Hgt].
  - replace (e <? -42) with false by (symmetry; apply Z.ltb_ge; lia).
    destruct (Pos.compare_cont Eq m c) eqn:Hc; try done.
    assert (m < c)%positive by (apply Pos.compare_lt_iff; exact Hc). lia.
  - by replace (e <? -42) with true by (symmetry; apply Z.ltb_lt; lia).
  - by replace (e <? -42) with false by (symmetry; apply Z.ltb_ge; lia).
Qed.

Lemma pos_iter_xO p k : Z.pos (Pos.iter xO p k) = Z.pos p * 2 ^ Z.pos k.
Proof.
  induction k as [|k IH] using Pos.peano_ind.
  - simpl. lia.
  - rewrite Pos.iter_succ, Pos2Z.inj_succ, Z.pow_succ_r by lia.
    change (Z.pos (Pos.iter xO p k)~0) with (2 * Z.pos (Pos.iter xO p k)). lia.
Qed.

(** The double of a positive integer below [2 ^ 53]: the integer itself,
    on 53 digits. *)
Lemma nearest_double_small p :
  Z.pos p < 2 ^ 53 ->
  exists m,
    nearest_double (Z.pos p) = S754_finite false m (Z.pos (digits2_pos p) - 53) /\
    Z.pos (digits2_pos m) = 53 /\
    Z.pos m = Z.pos p * 2 ^ (53 - Z.pos (digits2_pos p)).
Proof.
  intros Hp. pose proof (digits2_pos_bounds p) as [Hlo Hhi].
  set (d := Z.pos (digits2_pos p)) in *.
  assert (Hd : 1 <= d <= 53).
  { split; [lia|]. destruct (Z_lt_le_dec 53 d) as [H|H]; [|done].
    assert (2 ^ 53 <= 2 ^ (d - 1)) by (apply Z.pow_le_mono_r; lia). lia. }
  unfold nearest_double, binary_normalize, binary_round, shl_align.
  fold d. rewrite Z.add_0_r, fexp_eq by lia. rewrite Z.sub_0_r.
  destruct (d - 53) as [|q|q] eqn:Hq; try lia.
  - exists p. rewrite binary_round_aux_canonical by (fold d; lia).
    split_and!; try done; [fold d; lia|].
    replace (53 - d) with 0 by lia. lia.
  - assert (Hm : Z.pos (Pos.iter xO p q) = Z.pos p * 2 ^ (53 - d)).
    { rewrite pos_iter_xO. f_equal. f_equal. lia. }
    assert (Hdm : Z.pos (digits2_pos (Pos.iter xO p q)) = 53).
    { apply digits2_pos_unique. rewrite Hm.
      replace (2 ^ (53 - 1)) with (2 ^ (d - 1) * 2 ^ (53 - d))
        by (rewrite <- Z.pow_add_r by lia; f_equal; lia).
      replace (2 ^ 53) with (2 ^ d * 2 ^ (53 - d))
        by (rewrite <- Z.pow_add_r by lia; f_equal; lia).
      assert (0 < 2 ^ (53 - d)) by (apply Z.pow_pos_nonneg; lia). nia. }
    exists (Pos.iter xO p q).
    rewrite binary_round_aux_canonical by (try done; lia). done.
Qed.

Lemma round_half_even_scale num den c :
  0 < den -> 0 < c ->
  round_half_even (num * c) (den * c) = round_half_even num den.
Proof.
  intros Hden Hc. unfold round_half_even.
  rewrite Z.div_mul_cancel_r by lia.
  rewrite Z.mul_mod_distr_r by lia.
  assert (Hcmp : (2 * (num mod den * c) ?= den * c) = (2 * (num mod den) ?= den)).
  { destruct (Z.compare_spec (2 * (num mod den)) den) as [H|H|H].
    - apply Z.compare_eq_iff. nia.
    - apply Z.compare_lt_iff. nia.
    - apply Z.compare_gt_iff. nia. }
  by rewrite Hcmp.
Qed.

Lemma round_half_even_1 num : round_half_even num 1 = num.
Proof.
  unfold round_half_even. rewrite Z.div_1_r, Z.mod_1_r. done.
Qed.

(** The hundredths of [n / 2 ^ k], for a mantissa that is [n] shifted. *)
Lemma hundredths_shifted m n a k :
  Z.pos m = n * 2 ^ a -> 0 <= a -> 0 <= k ->
  hundredths m (- a - k) = round_half_even (n * 100) (2 ^ k).
Proof.
  intros Hm Ha Hk. unfold hundredths.
  destruct (- a - k) as [|q|q] eqn:Hq; try lia.
  - assert (a = 0) by lia. assert (k = 0) by lia. subst.
    rewrite Hm. simpl. rewrite round_half_even_1. lia.
  - rewrite Hm.
    replace (Z.pos q) with (k + a) by lia.
    rewrite Z.pow_add_r by lia.
    replace (n * 2 ^ a * 100) with (n * 100 * 2 ^ a) by lia.
    apply round_half_even_scale; apply Z.pow_pos_nonneg; lia.
Qed.

Lemma float_of_int_small p :
  Z.pos p < 2 ^ 53 ->
  exists m,
    float_of_int (Z.pos p) = Ok (S754_finite false m (Z.pos (digits2_pos p) - 53)) /\
    Z.pos (digits2_pos m) = 53 /\
    Z.pos m = Z.pos p * 2 ^ (53 - Z.pos (digits2_pos p)).
Proof.
  intros Hp. destruct (nearest_double_small p Hp) as (m & Hn & Hd & Hm).
  exists m. unfold float_of_int. rewrite Hn. done.
Qed.

Lemma fltb_threshold p m j :
  Z.pos (digits2_pos m) = 53 -> 0 <= j ->
  fltb (S754_finite false m (Z.pos (digits2_pos p) - 53 - 10 * j)) f1024
  = (Z.pos p <? 1024 ^ (j + 1)).
Proof.
  intros Hd Hj. rewrite fltb_1024 by done.
  pose proof (digits2_pos_bounds p) as [Hlo Hhi].
  set (d := Z.pos (digits2_pos p)) in *.
  assert (Hpow : 1024 ^ (j + 1) = 2 ^ (10 * (j + 1))).
  { rewrite Z.pow_mul_r by lia. done. }
  rewrite Hpow.
  destruct (Z.ltb_spec (d - 53 - 10 * j) (-42)) as [H|H];
    destruct (Z.ltb_spec (Z.pos p) (2 ^ (10 * (j + 1)))) as [H'|H']; try done.
  - assert (2 ^ d <= 2 ^ (10 * (j + 1))) by (apply Z.pow_le_mono_r; lia). lia.
  - assert (2 ^ (10 * (j + 1)) <= 2 ^ (d - 1)) by (apply Z.pow_le_mono_r; lia). lia.
Qed.

Lemma format_2f_scaled p m j :
  Z.pos m = Z.pos p * 2 ^ (53 - Z.pos (digits2_pos p)) ->
  Z.pos (digits2_pos p) <= 53 -> 0 <= j ->
  format_2f (S754_finite false m (Z.pos (digits2_pos p) - 53 - 10 * j))
  = two_decimals (round_half_even (Z.pos p * 100) (1024 ^ j)).
Proof.
  intros Hm Hd Hj. unfold format_2f, sign_prefix.
  replace (Z.pos (digits2_pos p) - 53 - 10 * j)
    with (- (53 - Z.pos (digits2_pos p)) - 10 * j) by lia.
  rewrite (hundredths_shifted m (Z.pos p) _ _ Hm) by lia.
  rewrite Z.pow_mul_r by lia. done.
Qed.

Lemma format_bytes_below_2_53 n :
  0 <= n < 2 ^ 53 ->
  exists unit,
    ladder !! scale n = Some unit /\
    format_bytes n
    = Ok (two_decimals (round_half_even (n * 100) (1024 ^ Z.of_nat (scale n)))
          +:+ " " +:+ unit).
Proof.
  intros [Hn0 Hn]. destruct n as [|p|p]; [by exists "B"%string| |lia].
  destruct (float_of_int_small p Hn) as (m & Hf & Hdm & Hm).
  pose proof (digits2_pos_bounds p) as [Hlo Hhi].
  set (d := Z.pos (digits2_pos p)) in *.
  assert (Hd : 1 <= d <= 53).
  { split; [lia|]. destruct (Z_lt_le_dec 53 d) as [H|H]; [|done].
    assert (2 ^ 53 <= 2 ^ (d - 1)) by (apply Z.pow_le_mono_r; lia). lia. }
  set (F := fun j => S754_finite false m (d - 53 - 10 * j)).
  assert (Hf0 : float_of_int (Z.pos p) = Ok (F 0)).
  { rewrite Hf. unfold F. do 2 f_equal. lia. }
  assert (Hdiv : forall j, 0 <= j <= 4 -> fdiv (F j) f1024 = F (j + 1)).
  { intros j Hj. unfold F. rewrite fdiv_1024 by lia. f_equal. lia. }
  assert (Hlt : forall j, 0 <= j -> fltb (F j) f1024 = (Z.pos p <? 1024 ^ (j + 1))).
  { intros j Hj. by apply fltb_threshold. }
  assert (Hfmt : forall j, 0 <= j ->
            format_2f (F j) = two_decimals (round_half_even (Z.pos p * 100) (1024 ^ j))).
  { intros j Hj. apply format_2f_scaled; [done|fold d; lia|done]. }
  clearbody F. clear Hf.
  unfold format_bytes, scale, units.
  cbn [format_bytes_loop lt_1024 fmt_2f div_1024].
  rewrite Hf0. cbn [mbind mret outcome_bind outcome_ret obind].
  destruct (Z.pos p <? 1024).
  { exists "B"%string. split; [done|]. by rewrite (Hfmt 0). }
  rewrite (Hdiv 0) by lia. cbn [lt_1024 fmt_2f div_1024].
  rewrite (Hlt (0 + 1)) by lia.
  change (1024 ^ (0 + 1 + 1)) with (1024 ^ 2).
  destruct (Z.pos p <? 1024 ^ 2).
  { exists "KB"%string. split; [done|].
    cbn [mbind mret outcome_bind outcome_ret obind]. by rewrite (Hfmt (0 + 1)). }
  cbn [mbind mret outcome_bind outcome_ret obind].
  rewrite (Hdiv (0 + 1)) by lia. cbn [lt_1024 fmt_2f div_1024].
  rewrite (Hlt (0 + 1 + 1)) by lia.
  change (1024 ^ (0 + 1 + 1 + 1)) with (1024 ^ 3).
  destruct (Z.pos p <? 1024 ^ 3).
  { exists "MB"%string. split; [done|].
    cbn [mbind mret outcome_bind outcome_ret obind]. by rewrite (Hfmt (0 + 1 + 1)). }
  cbn [mbind mret outcome_bind outcome_ret obind].
  rewrite (Hdiv (0 + 1 + 1)) by lia. cbn [lt_1024 fmt_2f div_1024].
  rewrite (Hlt (0 + 1 + 1 + 1)) by lia.
  change (1024 ^ (0 + 1 + 1 + 1 + 1)) with (1024 ^ 4).
  destruct (Z.pos p <? 1024 ^ 4).
  { exists "GB"%string. split; [done|].
    cbn [mbind mret outcome_bind outcome_ret obind]. by rewrite (Hfmt (0 + 1 + 1 + 1)). }
  cbn [mbind mret outcome_bind outcome_ret obind].
  rewrite (Hdiv (0 + 1 + 1 + 1)) by lia. cbn [lt_1024 fmt_2f div_1024].
  rewrite (Hlt (0 + 1 + 1 + 1 + 1)) by lia.
  change (1024 ^ (0 + 1 + 1 + 1 + 1 + 1)) with (1024 ^ 5).
  destruct (Z.pos p <? 1024 ^ 5).
  { exists "TB"%string. split; [done|].
    cbn [mbind mret outcome_bind outcome_ret obind].
    by rewrite (Hfmt (0 + 1 + 1 + 1 + 1)). }
  cbn [mbind mret outcome_bind outcome_ret obind].
  rewrite (Hdiv (0 + 1 + 1 + 1 + 1)) by lia. cbn [lt_1024 fmt_2f div_1024].
  exists "PB"%string. split; [done|].
  cbn [mbind mret outcome_bind outcome_ret obind].
  by rewrite (Hfmt (0 + 1 + 1 + 1 + 1 + 1)).
Qed.

(** ** True division of ints never overflows below 1 *)

Lemma Zdigits2_bounds x :
  0 < x -> 2 ^ (Zdigits2 x - 1) <= x < 2 ^ Zdigits2 x.
Proof. destruct x as [|p|p]; try lia. intros _. apply digits2_pos_bounds. Qed.

Lemma Zdigits2_nonneg x : 0 <= Zdigits2 x.
Proof. destruct x; simpl; lia. Qed.

Lemma Zdigits2_le_pow x k : 0 <= x < 2 ^ k -> 0 <= k -> Zdigits2 x <= k.
Proof.
  intros [Hx0 Hx] Hk. destruct (Z.eq_dec x 0) as [->|Hne]; [simpl; lia|].
  pose proof (Zdigits2_bounds x ltac:(lia)) as [Hlo _].
  destruct (Z_lt_le_dec k (Zdigits2 x)) as [H|H]; [|done].
  assert (2 ^ k <= 2 ^ (Zdigits2 x - 1)) by (apply Z.pow_le_mono_r; lia). lia.
Qed.

Lemma Zdigits2_mono x y : 0 <= x <= y -> Zdigits2 x <= Zdigits2 y.
Proof.
  intros [Hx Hxy]. destruct (Z.eq_dec y 0) as [->|Hy].
  - by replace x with 0 by lia.
  - apply Zdigits2_le_pow; [|apply Zdigits2_nonneg].
    pose proof (Zdigits2_bounds y ltac:(lia)). lia.
Qed.

Lemma Zdigits2_succ x : 0 <= x -> Zdigits2 (x + 1) <= Zdigits2 x + 1.
Proof.
  intros Hx. apply Zdigits2_le_pow; [|pose proof (Zdigits2_nonneg x); lia].
  destruct (Z.eq_dec x 0) as [->|Hne]; [simpl; lia|].
  pose proof (Zdigits2_bounds x ltac:(lia)) as [_ Hhi].
  rewrite Z.pow_add_r by (pose proof (Zdigits2_nonneg x); lia). lia.
Qed.

Lemma iter_pos_invariant {A} (f : A -> A) (P : A -> Prop) :
  (forall x, P x -> P (f x)) -> forall n x, P x -> P (SpecFloat.iter_pos f n x).
Proof.
  intros Hf. induction n as [n IH|n IH|]; intros x Hx; simpl; auto.
Qed.

Lemma shr_1_bounds mrs :
  0 <= shr_m mrs -> 0 <= shr_m (shr_1 mrs) <= shr_m mrs.
Proof.
  destruct mrs as [m r s]. simpl. destruct m as [|[p|p|]|p]; simpl; lia.
Qed.

Lemma shr_bounds mrs e n :
  0 <= shr_m mrs -> 0 <= shr_m (shr mrs e n).1 <= shr_m mrs.
Proof.
  intros Hm. unfold shr. destruct n as [|p|p]; simpl; try lia.
  apply (iter_pos_invariant shr_1 (fun x => 0 <= shr_m x <= shr_m mrs)); [|lia].
  intros x Hx. pose proof (shr_1_bounds x). lia.
Qed.

Lemma shr_exponent mrs e n : (shr mrs e n).2 = Z.max e (e + n).
Proof. unfold shr. destruct n; simpl; lia. Qed.

Lemma shr_record_of_loc_m m l : shr_m (shr_record_of_loc m l) = m.
Proof. by destruct l as [|[]]. Qed.

Lemma round_nearest_even_bounds m l :
  0 <= m -> m <= round_nearest_even m l <= m + 1.
Proof.
  intros Hm. unfold round_nearest_even.
  destruct l as [|[]]; try lia. destruct (Z.even m); lia.
Qed.

(** Rounding a magnitude below 2 that has at most 1075 digits gives a zero
    or a finite double. *)
Lemma binary_round_aux_finite s mx ex lx :
  0 <= mx -> Zdigits2 mx <= 1075 -> ex <= -53 -> Zdigits2 mx + ex <= 1 ->
  is_finite (binary_round_aux prec emax s mx ex lx) = true.
Proof.
  intros Hmx Hdig Hex Hv. unfold binary_round_aux, shr_fexp.
  set (n1 := fexp prec emax (Zdigits2 mx + ex) - ex).
  pose proof (shr_bounds (shr_record_of_loc mx lx) ex n1) as Hb1.
  pose proof (shr_exponent (shr_record_of_loc mx lx) ex n1) as He1.
  rewrite shr_record_of_loc_m in Hb1. specialize (Hb1 Hmx).
  destruct (shr (shr_record_of_loc mx lx) ex n1) as [mrs' e']. simpl in Hb1, He1.
  set (m1 := round_nearest_even (shr_m mrs') (loc_of_shr_record mrs')).
  assert (Hm1 : 0 <= m1 <= mx + 1).
  { pose proof (round_nearest_even_bounds (shr_m mrs') (loc_of_shr_record mrs')).
    unfold m1. lia. }
  assert (He' : e' <= -52).
  { subst e' n1. unfold fexp, emin, prec, emax. lia. }
  assert (Hd1 : Zdigits2 m1 <= 1076).
  { pose proof (Zdigits2_mono m1 (mx + 1) Hm1).
    pose proof (Zdigits2_succ mx Hmx). lia. }
  set (n2 := fexp prec emax (Zdigits2 m1 + e') - e').
  pose proof (shr_bounds (shr_record_of_loc m1 loc_Exact) e' n2) as Hb2.
  pose proof (shr_exponent (shr_record_of_loc m1 loc_Exact) e' n2) as He2.
  rewrite shr_record_of_loc_m in Hb2. specialize (Hb2 (proj1 Hm1)).
  destruct (shr (shr_record_of_loc m1 loc_Exact) e' n2) as [mrs'' e'']. simpl in Hb2, He2.
  assert (He'' : e'' <= 971).
  { subst e'' n2. unfold fexp, emin, prec, emax. lia. }
  destruct (shr_m mrs'') as [|p|p]; try done; [|lia].
  unfold emax, prec. destruct (Z.leb_spec e'' (1024 - 53)); [done|lia].
Qed.

Lemma SFdiv_core_ints pa pb :
  Z.pos pa <= Z.pos pb ->
  exists q e l,
    SFdiv_core_binary prec emax (Z.pos pa) 0 (Z.pos pb) 0 = (q, e, l) /\
    -1074 <= e <= -53 /\ 0 <= q <= 2 ^ (- e).
Proof.
  intros Hab. unfold SFdiv_core_binary.
  set (d1 := Zdigits2 (Z.pos pa)). set (d2 := Zdigits2 (Z.pos pb)).
  assert (Hd : 1 <= d1 <= d2).
  { split; [unfold d1; simpl; lia|]. apply Zdigits2_mono. lia. }
  set (e := Z.min (fexp prec emax (d1 + 0 - (d2 + 0))) (0 - 0)).
  assert (He : -1074 <= e <= -53).
  { unfold e, fexp, emin, prec, emax. lia. }
  destruct (0 - 0 - e) as [|s|s] eqn:Hs; try lia.
  rewrite Z.shiftl_mul_pow2 by lia.
  pose proof (Z_div_mod (Z.pos pa * 2 ^ Z.pos s) (Z.pos pb) eq_refl) as Hdiv.
  destruct (Z.div_eucl (Z.pos pa * 2 ^ Z.pos s) (Z.pos pb)) as [q r].
  destruct Hdiv as [Hqr Hr].
  assert (Hpow : 0 < 2 ^ Z.pos s) by (apply Z.pow_pos_nonneg; lia).
  exists q, e, (new_location (Z.pos pb) r). split_and!; try done; try lia.
  - nia.
  - replace (- e) with (Z.pos s) by lia. nia.
Qed.

Lemma fdiv_le_1_finite a b :
  0 <= a <= b -> 0 < b -> is_finite (fdiv (exact_int a) (exact_int b)) = true.
Proof.
  intros [Ha Hab] Hb.
  destruct b as [|pb|pb]; try lia. destruct a as [|pa|pa]; [done| |lia].
  unfold fdiv, exact_int, SFdiv.
  destruct (SFdiv_core_ints pa pb Hab) as (q & e & l & -> & He & Hq).
  assert (Hdq : Zdigits2 q <= - e + 1).
  { apply Zdigits2_le_pow; [|lia]. rewrite Z.pow_add_r by lia. lia. }
  apply binary_round_aux_finite; lia.
Qed.

Lemma shr_1_div mrs : 0 <= shr_m mrs -> shr_m (shr_1 mrs) = shr_m mrs / 2.
Proof.
  destruct mrs as [m r s]. simpl. intros Hm.
  destruct m as [|q|q]; [done| |lia].
  destruct q as [p|p|]; simpl.
  - apply (Z.div_unique (Z.pos p~1) 2 (Z.pos p) 1); lia.
  - apply (Z.div_unique (Z.pos p~0) 2 (Z.pos p) 0); lia.
  - done.
Qed.

Lemma iter_pos_counted {A} (f : A -> A) (P : Z -> A -> Prop) :
  (forall k x, P k x -> P (k + 1) (f x)) ->
  forall n k x, P k x -> P (k + Z.pos n) (SpecFloat.iter_pos f n x).
Proof.
  intros Hf. induction n as [n IH|n IH|]; intros k x Hx; simpl.
  - replace (k + Z.pos n~1) with (k + 1 + Z.pos n + Z.pos n) by lia. auto.
  - replace (k + Z.pos n~0) with (k + Z.pos n + Z.pos n) by lia. auto.
  - auto.
Qed.

(** Shifting right by [n] digits is the integer division by [2 ^ n]. *)
Lemma shr_div mrs e n :
  0 <= shr_m mrs -> 0 < n -> shr_m (shr mrs e n).1 = shr_m mrs / 2 ^ n.
Proof.
  intros Hm Hn. destruct n as [|p|p]; try lia. unfold shr. simpl fst.
  assert (H : 0 <= 0 + Z.pos p /\
              shr_m (SpecFloat.iter_pos shr_1 p mrs) = shr_m mrs / 2 ^ (0 + Z.pos p)).
  { apply (iter_pos_counted shr_1
             (fun k x => 0 <= k /\ shr_m x = shr_m mrs / 2 ^ k)).
    - intros k x [Hk Hx]. split; [lia|].
      assert (0 < 2 ^ k) by (apply Z.pow_pos_nonneg; lia).
      rewrite shr_1_div by (rewrite Hx; apply Z.div_pos; lia).
      rewrite Hx, Z.pow_add_r, Z.pow_1_r by lia.
      rewrite Z.div_div by lia. done.
    - split; [lia|]. by rewrite Z.div_1_r. }
  by destruct H as [_ ->].
Qed.

Lemma Zdigits2_unique x d :
  2 ^ (d - 1) <= x < 2 ^ d -> 0 < x -> Zdigits2 x = d.
Proof.
  intros Hb Hx. destruct x as [|p|p]; try lia. by apply digits2_pos_unique.
Qed.

(** The double of an integer of more than 53 digits: 53 digits and a
    positive exponent, unless the integer is out of range. *)
Lemma nearest_double_large p :
  53 < Z.pos (digits2_pos p) ->
  nearest_double (Z.pos p) = S754_infinity false \/
  exists m e,
    nearest_double (Z.pos p) = S754_finite false m e /\
    Z.pos (digits2_pos m) = 53 /\ 1 <= e <= 971.
Proof.
  intros Hd. pose proof (digits2_pos_bounds p) as [Hlo Hhi].
  set (d := Z.pos (digits2_pos p)) in *.
  unfold nearest_double, binary_normalize, binary_round, shl_align.
  fold d. rewrite Z.add_0_r, fexp_eq by lia. rewrite Z.sub_0_r.
  destruct (d - 53) as [|n|n] eqn:Hn; try lia.
  unfold binary_round_aux, shr_fexp.
  change (Zdigits2 (Z.pos p)) with d. rewrite Z.add_0_r, fexp_eq, Z.sub_0_r by lia.
  rewrite Hn.
  pose proof (shr_div (shr_record_of_loc (Z.pos p) loc_Exact) 0 (Z.pos n)) as Hq.
  pose proof (shr_exponent (shr_record_of_loc (Z.pos p) loc_Exact) 0 (Z.pos n)) as He.
  destruct (shr (shr_record_of_loc (Z.pos p) loc_Exact) 0 (Z.pos n)) as [mrs' e'].
  simpl in Hq, He. specialize (Hq ltac:(lia) ltac:(lia)).
  assert (Hpow : 0 < 2 ^ Z.pos n) by (apply Z.pow_pos_nonneg; lia).
  assert (Hqb : 2 ^ 52 <= shr_m mrs' < 2 ^ 53).
  { rewrite Hq. split.
    - apply Z.div_le_lower_bound; [lia|].
      rewrite <- Z.pow_add_r by lia. replace (Z.pos n + 52) with (d - 1) by lia. lia.
    - apply Z.div_lt_upper_bound; [lia|].
      rewrite <- Z.pow_add_r by lia. replace (Z.pos n + 53) with d by lia. lia. }
  assert (He' : e' = Z.pos n) by lia. clear He. subst e'.
  set (m1 := round_nearest_even (shr_m mrs') (loc_of_shr_record mrs')).
  assert (Hm1 : shr_m mrs' <= m1 <= shr_m mrs' + 1).
  { apply round_nearest_even_bounds. lia. }
  destruct (Z_lt_le_dec m1 (2 ^ 53)) as [Hlt|Hge].
  - (* the rounded mantissa still has 53 digits *)
    assert (Hd1 : Zdigits2 m1 = 53) by (apply Zdigits2_unique; simpl; lia).
    rewrite Hd1, fexp_eq by lia.
    replace (53 + Z.pos n - 53 - Z.pos n) with 0 by lia.
    unfold shr, shr_record_of_loc. simpl shr_m.
    destruct m1 as [|m|m] eqn:Hm; try lia.
    unfold emax, prec. destruct (Z.leb_spec (Z.pos n) (1024 - 53)); [|by left].
    right. exists m, (Z.pos n). split_and!; try done; lia.
  - (* the rounding carried into a 54th digit *)
    assert (Hm1' : m1 = 2 ^ 53) by lia.
    rewrite Hm1'. change (Zdigits2 (2 ^ 53)) with 54. rewrite fexp_eq by lia.
    replace (54 + Z.pos n - 53 - Z.pos n) with 1 by lia.
    assert (Hs : shr (shr_record_of_loc (2 ^ 53) loc_Exact) (Z.pos n) 1
                 = ({| shr_m := 4503599627370496; shr_r := false; shr_s := false |},
                    Z.pos n + 1)) by reflexivity.
    rewrite Hs. simpl shr_m.
    unfold emax, prec. destruct (Z.leb_spec (Z.pos n + 1) (1024 - 53)); [|by left].
    right. exists 4503599627370496%positive, (Z.pos n + 1). split_and!; try done; lia.
Qed.

(** From [2 ^ 53] on, the count is first rounded to the nearest double
    [m * 2 ^ e]; unless that is out of range, the result is the double
    over [1024 ^ 5], in PB. *)
Lemma format_bytes_from_2_53 n :
  2 ^ 53 <= n ->
  format_bytes n = Raise OverflowError /\ float_of_int n = Raise OverflowError \/
  exists m e,
    float_of_int n = Ok (S754_finite false m e) /\
    format_bytes n = Ok (format_2f (S754_finite false m (e - 50)) +:+ " PB").
Proof.
  intros Hn. destruct n as [|p|p]; try lia.
  assert (Hd : 53 < Z.pos (digits2_pos p)).
  { pose proof (digits2_pos_bounds p) as [_ Hhi].
    destruct (Z_lt_le_dec 53 (Z.pos (digits2_pos p))) as [H|H]; [done|].
    assert (2 ^ Z.pos (digits2_pos p) <= 2 ^ 53) by (apply Z.pow_le_mono_r; lia). lia. }
  assert (Hge : (Z.pos p <? 1024) = false).
  { apply Z.ltb_ge. assert (1024 <= 2 ^ 53) by (vm_compute; discriminate). lia. }
  unfold format_bytes, units.
  cbn [format_bytes_loop lt_1024 fmt_2f div_1024]. rewrite Hge.
  destruct (nearest_double_large p Hd) as [Hinf|(m & e & Hfin & Hdm & He)].
  - left. unfold float_of_int. rewrite Hinf. done.
  - right. exists m, e.
    assert (Hf : float_of_int (Z.pos p) = Ok (S754_finite false m e)).
    { unfold float_of_int. by rewrite Hfin. }
    split; [done|]. rewrite Hf.
    assert (Hdiv : forall j, 0 <= j <= 4 ->
              fdiv (S754_finite false m (e - 10 * j)) f1024
              = S754_finite false m (e - 10 * (j + 1))).
    { intros j Hj. rewrite fdiv_1024 by lia. f_equal. lia. }
    assert (Hlt : forall j, 0 <= j <= 4 ->
              fltb (S754_finite false m (e - 10 * j)) f1024 = false).
    { intros j Hj. rewrite fltb_1024 by done. apply Z.ltb_ge. lia. }
    replace e with (e - 10 * 0) at 1 by lia.
    cbn [mbind mret outcome_bind outcome_ret obind].
    rewrite (Hdiv 0) by lia. cbn [lt_1024 fmt_2f div_1024].
    rewrite (Hlt (0 + 1)) by lia.
    cbn [mbind mret outcome_bind outcome_ret obind].
    rewrite (Hdiv (0 + 1)) by lia. cbn [lt_1024 fmt_2f div_1024].
    rewrite (Hlt (0 + 1 + 1)) by lia.
    cbn [mbind mret outcome_bind outcome_ret obind].
    rewrite (Hdiv (0 + 1 + 1)) by lia. cbn [lt_1024 fmt_2f div_1024].
    rewrite (Hlt (0 + 1 + 1 + 1)) by lia.
    cbn [mbind mret outcome_bind outcome_ret obind].
    rewrite (Hdiv (0 + 1 + 1 + 1)) by lia. cbn [lt_1024 fmt_2f div_1024].
    rewrite (Hlt (0 + 1 + 1 + 1 + 1)) by lia.
    cbn [mbind mret outcome_bind outcome_ret obind].
    rewrite (Hdiv (0 + 1 + 1 + 1 + 1)) by lia. cbn [lt_1024 fmt_2f div_1024].
    replace (e - 10 * (0 + 1 + 1 + 1 + 1 + 1)) with (e - 50) by lia. done.
Qed.

(** C6. [format_bytes] climbs the ladder B, KB, MB, GB, TB, PB in steps of
    1024. A byte count below [2 ^ 53] (where an int is a double exactly) is
    printed as the count divided by [1024 ^ k], [k] its step on the ladder,
    rounded to hundredths and written by [two_decimals] with two digits
    after the point, then a space and the unit of the step. A count from
    [2 ^ 53] on is first rounded to a double and printed the same way in
    PB, unless it is too large for a double. So 0 is "0.00 B", 1024 is
    "1.00 KB", 1536 is "1.50 KB" and 1024 * 1024 is "1.00 MB". *)
Theorem C6_format_bytes_climbs_the_ladder :
  (forall n, 0 <= n < 2 ^ 53 ->
     exists unit,
       ladder !! scale n = Some unit /\
       format_bytes n
       = Ok (two_decimals (round_half_even (n * 100) (1024 ^ Z.of_nat (scale n)))
             +:+ " " +:+ unit)) /\
  (forall n, 2 ^ 53 <= n ->
     format_bytes n = Raise OverflowError /\ float_of_int n = Raise OverflowError \/
     exists m e,
       float_of_int n = Ok (S754_finite false m e) /\
       format_bytes n
       = Ok (two_decimals (hundredths m (e - 50)) +:+ " PB")) /\
  format_bytes 0 = Ok "0.00 B"%string /\
  format_bytes 1024 = Ok "1.00 KB"%string /\
  format_bytes 1536 = Ok "1.50 KB"%string /\
  format_bytes (1024 * 1024) = Ok "1.00 MB"%string.
Proof.
  split; [exact format_bytes_below_2_53|].
  split; [exact format_bytes_from_2_53|].
  split_and!; vm_compute; reflexivity.
Qed.

Lemma C6_witness :
  0 <= 1536 < 2 ^ 53 /\
  exists unit,
    ladder !! scale 1536 = Some unit /\
    format_bytes 1536
    = Ok (two_decimals (round_half_even (1536 * 100) (1024 ^ Z.of_nat (scale 1536)))
          +:+ " " +:+ unit).
Proof.
  assert (H : 0 <= 1536 < 2 ^ 53) by (split; [discriminate|reflexivity]).
  split; [exact H|].
  exact (proj1 C6_format_bytes_climbs_the_ladder 1536 H).
Defined.

(** More of the ladder: the last count in bytes, a tie that goes to the
    even hundredth, a count that prints as 1024 of its unit, a count that is
    rounded before it is divided, a count no double holds. *)
Lemma format_bytes_examples :
  format_bytes 1023 = Ok "1023.00 B"%string /\
  format_bytes 1152 = Ok "1.12 KB"%string /\
  format_bytes (1024 ^ 5 - 1) = Ok "1024.00 TB"%string /\
  format_bytes (2 ^ 53 + 1) = Ok "8.00 PB"%string /\
  format_bytes (2 ^ 1024) = Raise OverflowError.
Proof. vm_compute. done. Qed.

(** [two_decimals] writes exactly two digits after the point. *)
Lemma two_decimals_shape h :
  0 <= h ->
  exists d1 d2,
    0 <= d1 <= 9 /\ 0 <= d2 <= 9 /\
    two_decimals h
    = str_of_int (h / 100) +:+ "." +:+
      String (digit_char d1) (String (digit_char d2) "").
Proof.
  intros Hh. exists (h / 10 mod 10), (h mod 10).
  pose proof (Z.mod_pos_bound (h / 10) 10 eq_refl).
  pose proof (Z.mod_pos_bound h 10 eq_refl).
  split_and!; try lia. reflexivity.
Qed.

(** ** The error of a quotient and of a product of doubles *)

Lemma fexp_succ x : fexp prec emax (x + 1) <= fexp prec emax x + 1.
Proof. unfold fexp, emin, prec, emax. lia. Qed.

Lemma fexp_mono x y : x <= y -> fexp prec emax x <= fexp prec emax y.
Proof. unfold fexp, emin, prec, emax. lia. Qed.

Lemma fexp_min x : -1074 <= fexp prec emax x.
Proof. unfold fexp, emin, prec, emax. lia. Qed.

Lemma Zdigits2_div_pow x n :
  0 <= x -> 0 <= n -> Zdigits2 (x / 2 ^ n) <= Z.max 0 (Zdigits2 x - n).
Proof.
  intros Hx Hn.
  assert (Hpow : 0 < 2 ^ n) by (apply Z.pow_pos_nonneg; lia).
  destruct (Z.eq_dec x 0) as [->|Hne].
  { rewrite Z.div_0_l by lia. simpl. lia. }
  pose proof (Zdigits2_bounds x ltac:(lia)) as [_ Hhi].
  pose proof (Zdigits2_nonneg x) as Hd.
  apply Zdigits2_le_pow; [|lia]. split; [apply Z.div_pos; lia|].
  apply Z.div_lt_upper_bound; [lia|].
  destruct (Z_lt_le_dec (Zdigits2 x) n) as [Hlt|Hge].
  - rewrite Z.max_l by lia. rewrite Z.pow_0_r, Z.mul_1_r.
    assert (2 ^ Zdigits2 x <= 2 ^ n) by (apply Z.pow_le_mono_r; lia). lia.
  - rewrite Z.max_r by lia. rewrite <- Z.pow_add_r by lia.
    replace (n + (Zdigits2 x - n)) with (Zdigits2 x) by lia. done.
Qed.

(** The first shift of [binary_round_aux]: the mantissa over [2 ^ n]. *)
Lemma shr_fexp_value mx ex lx :
  0 <= mx ->
  let e1 := Z.max ex (fexp prec emax (Zdigits2 mx + ex)) in
  let r := shr_fexp prec emax mx ex lx in
  r.2 = e1 /\ shr_m r.1 = mx / 2 ^ (e1 - ex).
Proof.
  intros Hmx e1 r. unfold r, shr_fexp.
  set (n := fexp prec emax (Zdigits2 mx + ex) - ex).
  pose proof (shr_exponent (shr_record_of_loc mx lx) ex n) as He.
  split; [rewrite He; unfold e1, n; lia|].
  destruct (Z_lt_le_dec 0 n) as [Hn|Hn].
  - rewrite shr_div by (rewrite ?shr_record_of_loc_m; lia).
    rewrite shr_record_of_loc_m. f_equal. f_equal. unfold e1, n in *. lia.
  - replace (e1 - ex) with 0 by (unfold e1, n in *; lia).
    rewrite Z.pow_0_r, Z.div_1_r. unfold shr.
    destruct n; try lia; simpl; apply shr_record_of_loc_m.
Qed.

(** What [binary_round_aux] returns: the mantissa over [2 ^ n], or the next
    integer, at the exponent [e1] of the first shift; written at [e1 + 1]
    when the rounding carried into a 54th digit. *)
Lemma binary_round_aux_value s mx ex lx :
  0 <= mx ->
  let e1 := Z.max ex (fexp prec emax (Zdigits2 mx + ex)) in
  exists m1 m e,
    mx / 2 ^ (e1 - ex) <= m1 <= mx / 2 ^ (e1 - ex) + 1 /\
    e1 <= e <= e1 + 1 /\ 0 <= m /\ m * 2 ^ (e - e1) = m1 /\
    binary_round_aux prec emax s mx ex lx
    = match m with
      | Z0 => S754_zero s
      | Zpos p => if e <=? emax - prec then S754_finite s p e else S754_infinity s
      | Zneg _ => S754_nan
      end.
Proof.
  intros Hmx e1. unfold binary_round_aux.
  destruct (shr_fexp_value mx ex lx Hmx) as [He' Hm']. fold e1 in He', Hm'.
  destruct (shr_fexp prec emax mx ex lx) as [mrs' e']. simpl in He', Hm'. subst e'.
  set (m' := mx / 2 ^ (e1 - ex)) in *.
  assert (Hn : 0 <= e1 - ex) by (unfold e1; lia).
  assert (Hpow : 0 < 2 ^ (e1 - ex)) by (apply Z.pow_pos_nonneg; lia).
  assert (Hm'0 : 0 <= m') by (apply Z.div_pos; lia).
  assert (Hdm' : Zdigits2 m' <= 53).
  { pose proof (Zdigits2_div_pow mx (e1 - ex) Hmx Hn) as H. fold m' in H.
    pose proof (Zdigits2_nonneg mx).
    unfold e1, fexp, emin, prec, emax in *. lia. }
  set (m1 := round_nearest_even (shr_m mrs') (loc_of_shr_record mrs')).
  assert (Hm1 : m' <= m1 <= m' + 1).
  { unfold m1. rewrite Hm'. apply round_nearest_even_bounds. done. }
  assert (Hm'lt : m' < 2 ^ 53).
  { destruct (Z.eq_dec m' 0) as [->|Hne]; [done|].
    pose proof (Zdigits2_bounds m' ltac:(lia)) as [_ Hhi].
    assert (2 ^ Zdigits2 m' <= 2 ^ 53) by (apply Z.pow_le_mono_r; lia). lia. }
  assert (Hd1 : Zdigits2 m1 <= 54).
  { apply Zdigits2_le_pow; [|lia]. change (2 ^ 54) with (2 * 2 ^ 53). lia. }
  assert (Hm1' : 0 <= m1) by lia.
  destruct (shr_fexp_value m1 e1 loc_Exact Hm1') as [He'' Hm''].
  destruct (shr_fexp prec emax m1 e1 loc_Exact) as [mrs'' e'']. simpl in He'', Hm''.
  assert (He1 : -1074 <= e1) by (pose proof (fexp_min (Zdigits2 mx + ex)); unfold e1; lia).
  assert (He2 : e1 <= e'' <= e1 + 1).
  { subst e''. unfold fexp, emin, prec, emax. lia. }
  exists m1, (shr_m mrs''), e''. split; [done|]. split; [done|].
  assert (Hval : shr_m mrs'' * 2 ^ (e'' - e1) = m1).
  { rewrite Hm''. rewrite <- He''.
    destruct (Z.eq_dec e'' e1) as [->|Hne].
    - rewrite Z.sub_diag, Z.pow_0_r, Z.div_1_r. lia.
    - assert (He3 : e'' = e1 + 1) by lia.
      replace (e'' - e1) with 1 by lia. rewrite Z.pow_1_r.
      assert (H54 : Zdigits2 m1 = 54).
      { rewrite He3 in He''. unfold fexp, emin, prec, emax in He''. lia. }
      assert (Hpos : 0 < m1).
      { destruct (Z.eq_dec m1 0) as [H0|H0]; [rewrite H0 in H54; done|lia]. }
      pose proof (Zdigits2_bounds m1 Hpos) as [Hlo _].
      rewrite H54 in Hlo. change (2 ^ (54 - 1)) with (2 ^ 53) in Hlo.
      assert (Hm53 : m1 = 2 ^ 53) by lia. rewrite Hm53. reflexivity. }
  split; [|split; [done|]].
  - rewrite Hm''. apply Z.div_pos; [lia|]. apply Z.pow_pos_nonneg; lia.
  - reflexivity.
Qed.

Lemma SFdiv_core_ints_quotient pa pb :
  Z.pos pa <= Z.pos pb ->
  exists q e l,
    SFdiv_core_binary prec emax (Z.pos pa) 0 (Z.pos pb) 0 = (q, e, l) /\
    -1074 <= e <= -53 /\ 0 <= q <= 2 ^ (- e) /\
    q * Z.pos pb <= Z.pos pa * 2 ^ (- e) < (q + 1) * Z.pos pb.
Proof.
  intros Hab. unfold SFdiv_core_binary.
  set (d1 := Zdigits2 (Z.pos pa)). set (d2 := Zdigits2 (Z.pos pb)).
  assert (Hd : 1 <= d1 <= d2).
  { split; [unfold d1; simpl; lia|]. apply Zdigits2_mono. lia. }
  set (e := Z.min (fexp prec emax (d1 + 0 - (d2 + 0))) (0 - 0)).
  assert (He : -1074 <= e <= -53).
  { unfold e, fexp, emin, prec, emax. lia. }
  destruct (0 - 0 - e) as [|s|s] eqn:Hs; try lia.
  rewrite Z.shiftl_mul_pow2 by lia.
  pose proof (Z_div_mod (Z.pos pa * 2 ^ Z.pos s) (Z.pos pb) eq_refl) as Hdiv.
  destruct (Z.div_eucl (Z.pos pa * 2 ^ Z.pos s) (Z.pos pb)) as [q r].
  destruct Hdiv as [Hqr Hr].
  assert (Hpow : 0 < 2 ^ Z.pos s) by (apply Z.pow_pos_nonneg; lia).
  exists q, e, (new_location (Z.pos pb) r).
  replace (- e) with (Z.pos s) by lia.
  split_and!; try done; try lia; nia.
Qed.

(** The quotient of two ints [1 <= c <= t] is within [2 ^ -52] of [c / t]. *)
Lemma fdiv_ints_near c t :
  1 <= c <= t ->
  let q := fdiv (exact_int c) (exact_int t) in
  (q = S754_zero false \/
   exists m e, q = S754_finite false m e /\ -1074 <= e <= -51) /\
  Z.abs (ulps q * t - c * 2 ^ 1074) <= 2 ^ 1022 * t.
Proof.
  intros [Hc Hct]. destruct t as [|pb|pb]; try lia. destruct c as [|pa|pa]; try lia.
  unfold fdiv, exact_int, SFdiv.
  destruct (SFdiv_core_ints_quotient pa pb Hct) as (qi & e0 & l & -> & He0 & Hqi & Hquot).
  cbn [xorb].
  destruct (binary_round_aux_value false qi e0 l (proj1 Hqi))
    as (m1 & m & e & Hm1 & He & Hm & Hval & ->).
  set (e1 := Z.max e0 (fexp prec emax (Zdigits2 qi + e0))) in *.
  assert (Hdq : Zdigits2 qi <= - e0 + 1).
  { apply Zdigits2_le_pow; [|lia]. rewrite Z.pow_add_r by lia. lia. }
  assert (He1 : e0 <= e1 <= -52).
  { unfold e1, fexp, emin, prec, emax. lia. }
  set (u := 2 ^ (e1 - e0)) in *.
  assert (Hu : 0 < u) by (apply Z.pow_pos_nonneg; lia).
  set (S0 := 2 ^ (- e0)) in *.
  assert (Hdiv : qi / u * u <= qi < (qi / u + 1) * u).
  { pose proof (Z.mul_div_le qi u Hu). pose proof (Z.mul_succ_div_gt qi u Hu). lia. }
  set (t := Z.pos pb) in *. set (c := Z.pos pa) in *.
  assert (Herr : Z.abs (m1 * u * t - c * S0) <= u * t).
  { apply Z.abs_le. split; nia. }
  set (R0 := 2 ^ (e0 + 1074)).
  assert (HR0 : 0 < R0) by (apply Z.pow_pos_nonneg; lia).
  assert (HS : S0 * R0 = 2 ^ 1074).
  { unfold S0, R0. rewrite <- Z.pow_add_r by lia. f_equal. lia. }
  assert (HU : u * R0 = 2 ^ (e1 + 1074)).
  { unfold u, R0. rewrite <- Z.pow_add_r by lia. f_equal. lia. }
  assert (HUb : 2 ^ (e1 + 1074) <= 2 ^ 1022) by (apply Z.pow_le_mono_r; lia).
  assert (Hulps : m * 2 ^ (e + 1074) = m1 * u * R0).
  { rewrite <- Hval. rewrite <- Z.mul_assoc, HU, <- Z.mul_assoc.
    rewrite <- Z.pow_add_r by lia. do 2 f_equal. lia. }
  assert (Hfinal : Z.abs (m * 2 ^ (e + 1074) * t - c * 2 ^ 1074) <= 2 ^ 1022 * t).
  { rewrite Hulps, <- HS.
    replace (m1 * u * R0 * t - c * (S0 * R0)) with ((m1 * u * t - c * S0) * R0) by ring.
    rewrite Z.abs_mul, (Z.abs_eq R0) by lia.
    assert (Z.abs (m1 * u * t - c * S0) * R0 <= u * t * R0) by nia.
    assert (u * t * R0 = 2 ^ (e1 + 1074) * t) by (rewrite <- HU; ring).
    unfold t in *. nia. }
  destruct m as [|p|p]; [| |lia].
  - split; [by left|]. simpl ulps. simpl in Hfinal. exact Hfinal.
  - replace (e <=? emax - prec) with true
      by (symmetry; apply Z.leb_le; unfold emax, prec; lia).
    split; [right; exists p, e; split; [done|lia]|]. exact Hfinal.
Qed.

Lemma nearest_double_100 :
  nearest_double 100 = S754_finite false 7036874417766400 (-46).
Proof. vm_compute. reflexivity. Qed.

(** The product of a double [q <= 1 + 2 ^ -52] by [100.0] is within
    [2 ^ -46] of [100 * q]. *)
Lemma fmul_100_near q :
  (q = S754_zero false \/
   exists m e, q = S754_finite false m e /\ -1074 <= e <= -51) ->
  ulps q <= 2 ^ 1074 + 2 ^ 1022 ->
  let p := fmul q (nearest_double 100) in
  (p = S754_zero false \/
   exists m e, p = S754_finite false m e /\ -1074 <= e <= -45) /\
  Z.abs (ulps p - 100 * ulps q) <= 2 ^ 1028.
Proof.
  intros [->|(mq & eq & -> & Heq)] Hq; rewrite nearest_double_100.
  { split; [by left|]. simpl. lia. }
  unfold fmul, SFmul. cbn [xorb]. cbn [ulps] in Hq.
  set (mx := Z.pos (mq * 7036874417766400)).
  assert (Hmx : mx = Z.pos mq * 100 * 2 ^ 46) by (unfold mx; lia).
  assert (Hmx0 : 0 <= mx) by lia.
  destruct (binary_round_aux_value false mx (eq + -46) loc_Exact Hmx0)
    as (m1 & m & e & Hm1 & He & Hm & Hval & ->).
  set (e1 := Z.max (eq + -46) (fexp prec emax (Zdigits2 mx + (eq + -46)))) in *.
  set (R := 2 ^ (eq + 1074)) in *.
  assert (HR : 0 < R) by (apply Z.pow_pos_nonneg; lia).
  assert (Hlt : mx < 2 ^ (53 - eq)).
  { assert (H2 : 2 ^ (53 - eq) * R = 2 ^ 53 * 2 ^ 1074).
    { unfold R. rewrite <- !Z.pow_add_r by lia. f_equal. lia. }
    assert (H3 : mx * R < 2 ^ (53 - eq) * R).
    { rewrite H2, Hmx.
      replace (Z.pos mq * 100 * 2 ^ 46 * R) with (Z.pos mq * R * (100 * 2 ^ 46)) by ring.
      assert (H4 : Z.pos mq * R * (100 * 2 ^ 46)
                   <= (2 ^ 1074 + 2 ^ 1022) * (100 * 2 ^ 46))
        by (apply Z.mul_le_mono_nonneg_r; lia).
      assert (H5 : (2 ^ 1074 + 2 ^ 1022) * (100 * 2 ^ 46) < 2 ^ 53 * 2 ^ 1074)
        by (vm_compute; reflexivity).
      lia. }
    apply Z.mul_lt_mono_pos_r in H3; done. }
  assert (Hdx : Zdigits2 mx <= 53 - eq) by (apply Zdigits2_le_pow; lia).
  assert (He1 : eq + -46 <= e1 <= -46).
  { unfold e1, fexp, emin, prec, emax. lia. }
  assert (He1' : -1074 <= e1).
  { unfold e1. pose proof (fexp_min (Zdigits2 mx + (eq + -46))). lia. }
  set (u := 2 ^ (e1 - (eq + -46))) in *.
  assert (Hu : 0 < u) by (apply Z.pow_pos_nonneg; lia).
  assert (Hdiv : mx / u * u <= mx < (mx / u + 1) * u).
  { pose proof (Z.mul_div_le mx u Hu). pose proof (Z.mul_succ_div_gt mx u Hu). lia. }
  assert (Herr : Z.abs (m1 * u - mx) <= u).
  { apply Z.abs_le. split; nia. }
  assert (HU : u * R = 2 ^ (e1 + 1074) * 2 ^ 46).
  { unfold u, R. rewrite <- !Z.pow_add_r by lia. f_equal. lia. }
  assert (HUb : 2 ^ (e1 + 1074) <= 2 ^ 1028) by (apply Z.pow_le_mono_r; lia).
  assert (Hulps : m * 2 ^ (e + 1074) = m1 * 2 ^ (e1 + 1074)).
  { rewrite <- Hval, <- Z.mul_assoc, <- Z.pow_add_r by lia. do 2 f_equal. lia. }
  assert (Hfinal : Z.abs (m * 2 ^ (e + 1074) - 100 * (Z.pos mq * R)) <= 2 ^ 1028).
  { rewrite Hulps.
    assert (H6 : (m1 * 2 ^ (e1 + 1074) - 100 * (Z.pos mq * R)) * 2 ^ 46
                 = (m1 * u - mx) * R).
    { replace ((m1 * u - mx) * R) with (m1 * (u * R) - mx * R) by ring.
      rewrite HU, Hmx. ring. }
    assert (H7 : Z.abs (m1 * 2 ^ (e1 + 1074) - 100 * (Z.pos mq * R)) * 2 ^ 46
                 <= 2 ^ (e1 + 1074) * 2 ^ 46).
    { rewrite <- (Z.abs_eq (2 ^ 46)) at 1 by lia.
      rewrite <- Z.abs_mul, H6, Z.abs_mul, (Z.abs_eq R), <- HU by lia.
      apply Z.mul_le_mono_nonneg_r; lia. }
    apply Z.mul_le_mono_pos_r in H7; lia. }
  destruct m as [|p|p]; [| |lia].
  - split; [by left|]. exact Hfinal.
  - replace (e <=? emax - prec) with true
      by (symmetry; apply Z.leb_le; unfold emax, prec; lia).
    split; [right; exists p, e; split; [done|lia]|]. exact Hfinal.
Qed.

(** [round_half_even] is within half a unit of the quotient. *)
Lemma round_half_even_near num den :
  0 <= num -> 0 < den ->
  0 <= round_half_even num den /\
  2 * Z.abs (round_half_even num den * den - num) <= den.
Proof.
  intros Hn Hd. unfold round_half_even.
  pose proof (Z.div_mod num den ltac:(lia)) as Hdm.
  pose proof (Z.mod_pos_bound num den Hd) as Hr.
  pose proof (Z.div_pos num den Hn Hd) as Hq.
  set (q := num / den) in *. set (r := num mod den) in *.
  destruct (Z.compare_spec (2 * r) den) as [Heq|Hlt|Hgt];
    [destruct (Z.even q)| |]; split; try lia.
Qed.

(** The two-decimal rounding of a double [p] of small exponent: the digits
    are within half a hundredth of [p]. *)
Lemma round_2_near p :
  (p = S754_zero false \/
   exists m e, p = S754_finite false m e /\ -1074 <= e <= -45) ->
  exists h, 0 <= h /\
    2 * Z.abs (h * 2 ^ 1074 - 100 * ulps p) <= 2 ^ 1074 /\
    round_2 p = fdiv (exact_int h) (exact_int 100).
Proof.
  intros [->|(m & e & -> & He)].
  { exists 0. split; [done|]. split; [simpl; lia|]. vm_compute. reflexivity. }
  destruct e as [|pe|pe]; try lia.
  unfold round_2, hundredths. cbn [ulps].
  assert (Hden : 0 < 2 ^ Z.pos pe) by (apply Z.pow_pos_nonneg; lia).
  destruct (round_half_even_near (Z.pos m * 100) (2 ^ Z.pos pe)) as [Hh Hnear];
    [lia|done|].
  set (h := round_half_even (Z.pos m * 100) (2 ^ Z.pos pe)) in *.
  exists h. split; [done|].
  set (R := 2 ^ (Z.neg pe + 1074)).
  assert (HR : 0 < R) by (apply Z.pow_pos_nonneg; lia).
  assert (HS : 2 ^ Z.pos pe * R = 2 ^ 1074).
  { unfold R. rewrite <- Z.pow_add_r by lia. f_equal. lia. }
  split.
  - rewrite <- HS.
    replace (h * (2 ^ Z.pos pe * R) - 100 * (Z.pos m * R))
      with ((h * 2 ^ Z.pos pe - Z.pos m * 100) * R) by ring.
    rewrite Z.abs_mul, (Z.abs_eq R) by lia.
    rewrite Z.mul_assoc. apply Z.mul_le_mono_nonneg_r; lia.
  - destruct h as [|ph|ph]; [|done|lia]. vm_compute. reflexivity.
Qed.

(** The cache ratio the code computes for [0 <= cached <= total],
    [0 < total]: a whole number [h] of hundredths, within
    [1/2 + 5 / 10 ^ 12] of [10000 * cached / total], divided by 100. *)
Lemma cache_ratio_of_near cached total :
  0 <= cached <= total -> 0 < total ->
  exists h,
    0 <= h <= 10000 /\
    10 ^ 11 * Z.abs (2 * (h * total - 10000 * cached)) <= (10 ^ 11 + 1) * total /\
    cache_ratio_of cached total = Ok (NFloat (fdiv (exact_int h) (exact_int 100))).
Proof.
  intros [Hc Hct] Ht. unfold cache_ratio_of, int_truediv.
  rewrite (proj2 (Z.ltb_lt 0 total)) by done.
  destruct (Z.eqb_spec total 0) as [->|_]; [lia|].
  rewrite fdiv_le_1_finite by done. cbn [mbind mret obind].
  set (q := fdiv (exact_int cached) (exact_int total)).
  assert (Hq : (q = S754_zero false \/
                exists m e, q = S754_finite false m e /\ -1074 <= e <= -51) /\
               Z.abs (ulps q * total - cached * 2 ^ 1074) <= 2 ^ 1022 * total).
  { destruct (Z.eq_dec cached 0) as [->|Hc0].
    - destruct total as [|pt|pt]; try lia.
      split; [by left|]. simpl. lia.
    - apply fdiv_ints_near. lia. }
  destruct Hq as [Hqshape Hqerr].
  assert (Hqle : ulps q <= 2 ^ 1074 + 2 ^ 1022).
  { apply Z.abs_le in Hqerr.
    assert (ulps q * total <= (2 ^ 1074 + 2 ^ 1022) * total) by nia.
    apply Z.mul_le_mono_pos_r in H; done. }
  destruct (fmul_100_near q Hqshape Hqle) as [Hpshape Hperr].
  set (p := fmul q (nearest_double 100)) in *.
  destruct (round_2_near p Hpshape) as (h & Hh & Hherr & Hround).
  exists h.
  assert (Hbound : 10 ^ 11 * Z.abs (2 * (h * total - 10000 * cached))
                   <= (10 ^ 11 + 1) * total).
  { set (Q := ulps q) in *. set (P := ulps p) in *.
    replace (2 ^ 1074) with (2 ^ 52 * 2 ^ 1022) in * by (vm_compute; reflexivity).
    replace (2 ^ 1028) with (64 * 2 ^ 1022) in * by (vm_compute; reflexivity).
    set (R := 2 ^ 1022) in *.
    assert (HR : 0 < R) by (vm_compute; reflexivity).
    set (T := 2 ^ 52) in *.
    assert (HT : T = 4503599627370496) by (vm_compute; reflexivity).
    set (d := h * total - 10000 * cached).
    assert (Hsplit : d * (T * R)
                     = (h * (T * R) - 100 * P) * total
                       + 100 * (P - 100 * Q) * total
                       + 10000 * (Q * total - cached * (T * R))) by (unfold d; ring).
    assert (H1 : 2 * Z.abs ((h * (T * R) - 100 * P) * total) <= T * R * total).
    { rewrite Z.abs_mul, (Z.abs_eq total) by lia. nia. }
    assert (H2 : Z.abs (100 * (P - 100 * Q) * total) <= 6400 * R * total).
    { rewrite !Z.abs_mul, (Z.abs_eq total), (Z.abs_eq 100) by lia. nia. }
    assert (H3 : Z.abs (10000 * (Q * total - cached * (T * R))) <= 10000 * R * total).
    { rewrite Z.abs_mul, (Z.abs_eq 10000) by lia. nia. }
    assert (H4 : 2 * Z.abs (d * (T * R)) <= (T + 32800) * R * total).
    { rewrite Hsplit.
      pose proof (Z.abs_triangle ((h * (T * R) - 100 * P) * total
                                  + 100 * (P - 100 * Q) * total)
                    (10000 * (Q * total - cached * (T * R)))).
      pose proof (Z.abs_triangle ((h * (T * R) - 100 * P) * total)
                    (100 * (P - 100 * Q) * total)).
      lia. }
    assert (H5 : 2 * Z.abs d * T * R <= (T + 32800) * total * R).
    { rewrite Z.abs_mul, (Z.abs_eq (T * R)) in H4 by nia. lia. }
    apply Z.mul_le_mono_pos_r in H5; [|done].
    rewrite Z.abs_mul, (Z.abs_eq 2) by lia. fold d.
    replace (10 ^ 11) with 100000000000 by (vm_compute; reflexivity).
    lia. }
  split_and!; try done.
  - replace (10 ^ 11) with 100000000000 in Hbound by (vm_compute; reflexivity).
    pose proof (Z.abs_le (2 * (h * total - 10000 * cached))
                  (2 * (h * total - 10000 * cached))) as [_ Habs].
    pose proof (Z.le_max_l (2 * (h * total - 10000 * cached))
                  (- (2 * (h * total - 10000 * cached)))) as Hmax.
    rewrite <- Z.abs_max in Hmax. nia.
  - change (Ok (NFloat (round_2 p)) = Ok (NFloat (fdiv (exact_int h) (exact_int 100)))).
    by rewrite Hround.
Qed.

(** Away from a tie the hundredths are the correctly rounded ones. *)
Lemma near_is_rounded h cached total :
  0 <= cached -> 0 < total ->
  10 ^ 11 * Z.abs (2 * (h * total - 10000 * cached)) <= (10 ^ 11 + 1) * total ->
  total < 10 ^ 11 * Z.abs (2 * (10000 * cached mod total) - total) ->
  h = round_half_even (10000 * cached) total.
Proof.
  intros Hc Ht Hnear Haway. unfold round_half_even.
  replace (10 ^ 11) with 100000000000 in * by (vm_compute; reflexivity).
  pose proof (Z.div_mod (10000 * cached) total ltac:(lia)) as Hdm.
  pose proof (Z.mod_pos_bound (10000 * cached) total Ht) as Hr.
  set (x := 10000 * cached) in *.
  set (q := x / total) in *. set (r := x mod total) in *.
  assert (Hcases : h <= q - 1 \/ h = q \/ h = q + 1 \/ q + 2 <= h) by lia.
  destruct (Z.compare_spec (2 * r) total) as [Heq|Hlt|Hgt].
  - rewrite Heq, Z.sub_diag in Haway. simpl in Haway. lia.
  - rewrite Z.abs_neq in Haway by lia.
    destruct Hcases as [H|[H|[H|H]]]; [|done| |].
    + rewrite Z.abs_neq in Hnear by nia. nia.
    + subst h. rewrite Z.abs_eq in Hnear by nia. nia.
    + rewrite Z.abs_eq in Hnear by nia. nia.
  - rewrite Z.abs_eq in Haway by lia.
    destruct Hcases as [H|[H|[H|H]]]; [| |done|].
    + rewrite Z.abs_neq in Hnear by nia. nia.
    + subst h. rewrite Z.abs_neq in Hnear by nia. nia.
    + rewrite Z.abs_eq in Hnear by nia. nia.
Qed.

(** C5. For counters [0 <= cached <= total] the record of the day is
    built without an exception. When [total > 0] its cache ratio is the
    float [h / 100], the double nearest to that number of hundredths, for
    a whole number [h] from 0 to 10000 that differs from the exact
    [10000 * cached / total] by at most [1/2 + 5 / 10 ^ 12]; so [h] is the
    exact percentage rounded to two decimals (ties to even) unless that
    percentage lies within [5 / 10 ^ 14] of the middle between two
    hundredths, where [h] is one of the two. When [total = 0] the ratio
    is the int 0. *)
Theorem C5_cache_ratio_of_a_day (day : DayGroup) :
  let cached := default 0 (sum_cachedRequests day) in
  let total := default 0 (sum_requests day) in
  0 <= cached <= total ->
  exists r,
    daily_record_of day = Ok r /\
    cached_requests r = cached /\ requests r = total /\
    (0 < total ->
     exists h,
       0 <= h <= 10000 /\
       10 ^ 11 * Z.abs (2 * (h * total - 10000 * cached)) <= (10 ^ 11 + 1) * total /\
       (total < 10 ^ 11 * Z.abs (2 * (10000 * cached mod total) - total) ->
        h = round_half_even (10000 * cached) total) /\
       cache_ratio r = NFloat (fdiv (exact_int h) (exact_int 100))) /\
    (total = 0 -> cache_ratio r = NInt 0).
Proof.
  intros cached total Hct. unfold daily_record_of. fold cached total.
  destruct (Z.ltb_spec 0 total) as [Hpos|Hzero].
  - destruct (cache_ratio_of_near cached total Hct Hpos) as (h & Hh & Hnear & ->).
    eexists. split; [reflexivity|]. simpl. split_and!; try done; [|lia].
    intros _. exists h. split; [done|]. split; [done|]. split; [|done].
    apply near_is_rounded; lia.
  - unfold cache_ratio_of. rewrite (proj2 (Z.ltb_ge 0 total)) by done.
    eexists. split; [reflexivity|]. simpl. split_and!; try done. lia.
Qed.

Lemma C5_witness :
  0 <= 1 <= 3 /\
  exists r,
    daily_record_of Fixtures.group = Ok r /\
    cached_requests r = 1 /\ requests r = 3 /\
    (0 < 3 ->
     exists h,
       0 <= h <= 10000 /\
       10 ^ 11 * Z.abs (2 * (h * 3 - 10000 * 1)) <= (10 ^ 11 + 1) * 3 /\
       (3 < 10 ^ 11 * Z.abs (2 * (10000 * 1 mod 3) - 3) ->
        h = round_half_even (10000 * 1) 3) /\
       cache_ratio r = NFloat (fdiv (exact_int h) (exact_int 100))) /\
    (3 = 0 -> cache_ratio r = NInt 0).
Proof.
  assert (H : 0 <= 1 <= 3) by (split; discriminate).
  split; [exact H|].
  exact (C5_cache_ratio_of_a_day Fixtures.group H).
Defined.

(** 23 requests out of 160 are 14.375 % exactly, which rounds to 14.38;
    the quotient of doubles times 100 is just below it (14.374999999999998)
    and the code stores 14.37. *)
Lemma C5_ratio_of_23_in_160 :
  10000 * 23 = 1437 * 160 + 80 /\
  round_half_even (10000 * 23) 160 = 1438 /\
  (exists r, daily_record_of Fixtures.tie_group = Ok r /\
     cached_requests r = 23 /\ requests r = 160 /\
     cache_ratio r = NFloat (fdiv (exact_int 1437) (exact_int 100))) /\
  fdiv (exact_int 1437) (exact_int 100) <> fdiv (exact_int 1438) (exact_int 100).
Proof.
  split; [reflexivity|]. split; [reflexivity|]. split.
  - eexists. split; [vm_compute; reflexivity|]. by vm_compute.
  - vm_compute. discriminate.
Qed.

(** The ratio of 1 request out of 3 is the double nearest to 33.33, and a
    tie goes to the even hundredth: 1 out of 800 is 0.12. *)
Lemma percent_rounded_examples :
  percent_rounded 1 3 = fdiv (exact_int 3333) (exact_int 100) /\
  percent_rounded 1 800 = fdiv (exact_int 12) (exact_int 100) /\
  percent_rounded 3 3 = nearest_double 100 /\
  percent_rounded 0 5 = S754_zero false.
Proof. vm_compute. done. Qed.

(** ** The pure steps *)

(** [strptime] on a few texts: one-digit months and days are read; the
    year, and the second digit of a day from 10 to 29, may be decimal
    digits of any script, the month may not; text after the day and a day
    the month does not have are refused. *)
Lemma strptime_examples :
  strptime "2024-01-05" = Ok {| year := 2024; month := 1; day := 5 |} /\
  strptime "2024-1-5" = Ok {| year := 2024; month := 1; day := 5 |} /\
  strptime "２０２４-01-1٣" = Ok {| year := 2024; month := 1; day := 13 |} /\
  strptime "2024-０1-05" = Raise ValueError /\
  strptime "2024-02-30" = Raise ValueError /\
  strptime "2024-01-05 " = Raise ValueError.
Proof. vm_compute. done. Qed.

Lemma sort_by_date_insert_perm x l : insert_by_date x l ≡ₚ x :: l.
Proof.
  induction l as [|y l IH]; simpl; [done|].
  destruct (String.leb (date x) (date y)); [done|].
  rewrite IH. apply Permutation_swap.
Qed.

Lemma sort_by_date_perm l : sort_by_date l ≡ₚ l.
Proof.
  induction l as [|x l IH]; simpl; [done|].
  rewrite sort_by_date_insert_perm. by rewrite IH.
Qed.

Lemma sort_by_date_length l : length (sort_by_date l) = length l.
Proof. by rewrite sort_by_date_perm. Qed.

Lemma new_days_all seen days :
  Forall (fun day => date day ∉ seen) days -> new_days seen days = days.
Proof.
  unfold new_days. induction 1 as [|day days Hd _ IH]; [done|].
  rewrite filter_cons_True by done. by rewrite IH.
Qed.

Lemma new_days_none seen days :
  Forall (fun day => date day ∈ seen) days -> new_days seen days = [].
Proof.
  unfold new_days. induction 1 as [|day days Hd _ IH]; [done|].
  rewrite filter_cons_False; [done|]. intros Hn. by apply Hn.
Qed.

Lemma duplicate_days_all seen days :
  Forall (fun day => date day ∈ seen) days -> duplicate_days seen days = days.
Proof.
  unfold duplicate_days. induction 1 as [|day days Hd _ IH]; [done|].
  rewrite filter_cons_True by done. by rewrite IH.
Qed.

Lemma new_days_cons seen day days :
  new_days seen (day :: days)
  = if decide (date day ∉ seen) then day :: new_days seen days
    else new_days seen days.
Proof.
  unfold new_days. destruct (decide _).
  - by rewrite filter_cons_True.
  - by rewrite filter_cons_False.
Qed.

Lemma duplicate_days_cons seen day days :
  duplicate_days seen (day :: days)
  = if decide (date day ∉ seen) then duplicate_days seen days
    else day :: duplicate_days seen days.
Proof.
  unfold duplicate_days. destruct (decide _) as [Hn|Hn].
  - by rewrite filter_cons_False.
  - rewrite filter_cons_True; [done|].
    by destruct (decide (date day ∈ seen)) as [?|Hx]; [|destruct Hn].
Qed.

Lemma format_rows_length days rows :
  format_rows days = Ok rows -> length rows = length days.
Proof.
  revert rows. induction days as [|day days IH]; intros rows; simpl.
  - by intros [= <-].
  - destruct (format_row day) as [row|]; simpl; [|done].
    destruct (format_rows days) as [rows'|]; simpl; [|done].
    intros [= <-]. simpl. f_equal. by apply IH.
Qed.

(** The loop keeps the rows of the new records, in order, and counts the
    others, whenever it ends normally. *)
Lemma filter_new_inv seen days acc res :
  filter_new seen days acc = Ok res ->
  exists rows,
    format_rows (new_days seen days) = Ok rows /\
    res = (acc.1 ++ rows, (acc.2 + length (duplicate_days seen days))%nat) /\
    Forall (fun day => exists d, strptime (date day) = Ok d) days.
Proof.
  revert acc res. induction days as [|day days IH]; intros [a n] res; simpl.
  - intros [= <-]. exists []. by rewrite app_nil_r, Nat.add_0_r.
  - rewrite new_days_cons, duplicate_days_cons. unfold filter_step.
    destruct (strptime (date day)) as [d|] eqn:Hd; simpl; [|done].
    destruct (decide (date day ∉ seen)) as [Hnew|Hold]; simpl.
    + unfold format_row. rewrite Hd. simpl.
      destruct (row_of (formatted_date_of d) day) as [row|]; simpl; [|done].
      intros H. destruct (IH _ _ H) as (rows & Hrows & Hres & Hall).
      exists (row :: rows). rewrite Hrows. simpl in *.
      rewrite <- app_assoc in Hres. eauto.
    + intros H. destruct (IH _ _ H) as (rows & Hrows & Hres & Hall).
      exists rows. simpl in *. rewrite Nat.add_succ_r. eauto.
Qed.

Lemma filter_new_run seen days acc rows :
  Forall (fun day => exists d, strptime (date day) = Ok d) days ->
  format_rows (new_days seen days) = Ok rows ->
  filter_new seen days acc
  = Ok (acc.1 ++ rows, (acc.2 + length (duplicate_days seen days))%nat).
Proof.
  revert acc rows. induction days as [|day days IH]; intros [a n] rows Hall; simpl.
  - intros [= <-]. by rewrite app_nil_r, Nat.add_0_r.
  - inversion Hall as [|? ? [d Hd] Hall']; subst.
    rewrite new_days_cons, duplicate_days_cons. unfold filter_step.
    rewrite Hd. simpl.
    destruct (decide (date day ∉ seen)) as [Hnew|Hold]; simpl.
    + unfold format_row. rewrite Hd. simpl.
      destruct (row_of (formatted_date_of d) day) as [row|]; simpl; [|done].
      destruct (format_rows (new_days seen days)) as [rows'|] eqn:Hrows;
        simpl; [|done].
      intros [= <-]. rewrite (IH _ rows') by done. simpl.
      by rewrite <- app_assoc.
    + intros Hrows. rewrite (IH _ rows) by done. simpl.
      by rewrite Nat.add_succ_r.
Qed.

(** Sorting a list that is sorted changes nothing. *)

Lemma insert_by_date_Sorted x l :
  Sorted date_le l -> Sorted date_le (insert_by_date x l).
Proof.
  induction 1 as [|y l Hs IH Hhd]; simpl.
  - by repeat constructor.
  - destruct (String.leb (date x) (date y)) eqn:Hxy.
    + constructor; [by constructor|]. by constructor.
    + constructor; [done|].
      assert (Hyx : date_le y x).
      { destruct (String.leb_total (date x) (date y)) as [H|H]; [congruence|done]. }
      destruct Hhd as [|z l Hyz]; simpl; [by constructor|].
      destruct (String.leb (date x) (date z)); by constructor.
Qed.

Lemma sort_by_date_Sorted l : Sorted date_le (sort_by_date l).
Proof.
  induction l as [|x l IH]; simpl; [constructor|].
  by apply insert_by_date_Sorted.
Qed.

Lemma sort_by_date_id l : Sorted date_le l -> sort_by_date l = l.
Proof.
  induction 1 as [|x l Hs IH Hhd]; simpl; [done|].
  rewrite IH. destruct Hhd as [|y l Hxy]; simpl; [done|].
  unfold date_le in Hxy. by rewrite Hxy.
Qed.

Lemma sort_by_date_idemp l : sort_by_date (sort_by_date l) = sort_by_date l.
Proof. apply sort_by_date_id, sort_by_date_Sorted. Qed.





(** ** How a call runs *)

Section Runs.

Context {W Resp : Type} `{!Sheets W Resp}.
Implicit Types (self : GoogleSheetHandler) (s : state W).

Lemma get_existing_data_run self s :
  get_existing_data self s
  = match values_get (spreadsheet_id self) (sheet_name self +:+ "!A:J") (world s) with
    | (w, Ok result) => (sent (read_request self) w s, Ok (default [] result))
    | (w, Raise e) => (say (MsgReadError e) (sent (read_request self) w s), Ok [])
    end.
Proof.
  unfold get_existing_data, try_except, mbind, M_bind, execute.
  by destruct (values_get _ _ _) as [w [result|e]].
Qed.

Lemma get_sheet_id_run self s :
  get_sheet_id self s
  = match spreadsheets_get (spreadsheet_id self) (world s) with
    | (w, Ok sheets) =>
        (sent (SpreadsheetsGet (spreadsheet_id self)) w s,
         Ok (find_sheet (sheet_name self) sheets))
    | (w, Raise e) => (sent (SpreadsheetsGet (spreadsheet_id self)) w s, Ok None)
    end.
Proof.
  unfold get_sheet_id, try_except, mbind, M_bind, execute.
  by destruct (spreadsheets_get _ _) as [w [sheets|e]].
Qed.

(** The reading never raises and leaves the list alone. *)
Lemma get_existing_data_ok self s :
  exists s1 existing_data,
    get_existing_data self s = (s1, Ok existing_data) /\
    daily_data s1 = daily_data s /\
    exists extra, printed s1 = printed s ++ extra /\
                  issued s1 = issued s ++ [read_request self].
Proof.
  rewrite get_existing_data_run.
  destruct (values_get _ _ _) as [w [result|e]]; do 2 eexists;
    (split; [done|]); (split; [done|]); simpl.
  - exists []. by rewrite app_nil_r.
  - by eexists.
Qed.

(** The run of the body once the sheet is read. *)
Lemma append_body_run self s s1 existing_data :
  get_existing_data self s = (s1, Ok existing_data) ->
  append_body self s
  = match existing_dates_of (or_headers existing_data) with
    | Raise e => (s1, Raise e)
    | Ok existing_dates =>
        match filter_new existing_dates (sort_by_date (daily_data s1)) ([], 0%nat) with
        | Raise e => (sorted_in_place s1, Raise e)
        | Ok ([], duplicate_count) =>
            (print MsgNoNewData;; print_duplicates duplicate_count;; mret None)
              (sorted_in_place s1)
        | Ok (new_rows, duplicate_count) =>
            write_new_rows self new_rows duplicate_count (sorted_in_place s1)
        end
    end.
Proof.
  intros Hread. unfold append_body, mbind at 1, M_bind at 1. rewrite Hread.
  unfold mbind at 1, M_bind at 1, lift at 1.
  destruct (existing_dates_of _) as [existing_dates|e]; [|done].
  unfold mbind at 1, M_bind at 1, sort_daily_data.
  unfold mbind at 1, M_bind at 1, get_daily_data.
  unfold mbind at 1, M_bind at 1, lift. simpl.
  destruct (filter_new _ _ _) as [[new_rows n]|e]; [|done].
  by destruct new_rows.
Qed.

Lemma print_duplicates_run (duplicate_count : nat) s :
  print_duplicates duplicate_count s
  = (if (0 <? duplicate_count)%nat then say (MsgDuplicates duplicate_count) s else s,
     Ok tt).
Proof. unfold print_duplicates. by destruct (0 <? duplicate_count)%nat. Qed.

Lemma write_new_rows_run self new_rows duplicate_count s :
  write_new_rows self new_rows duplicate_count s
  = match values_append (append_request self new_rows) (world s) with
    | (w, Raise e) => (sent (ValuesAppend (append_request self new_rows)) w s, Raise e)
    | (w, Ok result) =>
        match get_sheet_id self (sent (ValuesAppend (append_request self new_rows)) w s) with
        | (s2, Ok sheet_id) =>
            match format_date_column self sheet_id s2 with
            | (s3, Ok _) => (reported new_rows duplicate_count s3, Ok (Some result))
            | (s3, Raise e) => (s3, Raise e)
            end
        | (s2, Raise e) => (s2, Raise e)
        end
    end.
Proof.
  unfold write_new_rows, mbind at 1, M_bind at 1, execute at 1.
  destruct (values_append _ _) as [w [result|e]]; [|done].
  unfold mbind at 1, M_bind at 1.
  destruct (get_sheet_id _ _) as [s2 [sheet_id|e]]; [|done].
  unfold mbind at 1, M_bind at 1.
  destruct (format_date_column _ _ _) as [s3 [[]|e]]; [|done].
  unfold mbind at 1, M_bind at 1, print at 1.
  unfold mbind, M_bind. rewrite print_duplicates_run. unfold reported.
  by destruct (0 <? duplicate_count)%nat.
Qed.

Lemma append_daily_data_run self s :
  daily_data s <> [] ->
  append_daily_data self s
  = match append_body self s with
    | (s', Ok a) => (s', Ok a)
    | (s', Raise e) => (say (MsgAppendError e) s', Raise e)
    end.
Proof.
  intros Hne. unfold append_daily_data, mbind at 1, M_bind at 1, get_daily_data.
  destruct (daily_data s) as [|day days] eqn:Hd; [done|].
  unfold try_except. by destruct (append_body self s) as [s' [a|e]].
Qed.

Lemma get_sheet_id_issued self s :
  exists w sheet_id,
    get_sheet_id self s
    = (sent (SpreadsheetsGet (spreadsheet_id self)) w s, Ok sheet_id).
Proof.
  rewrite get_sheet_id_run.
  destruct (spreadsheets_get _ _) as [w [sheets|e]]; eauto.
Qed.

Lemma format_date_column_issued self sheet_id s :
  exists rest,
    issued (format_date_column self sheet_id s).1 = issued s ++ rest /\
    printed (format_date_column self sheet_id s).1 = printed s /\
    daily_data (format_date_column self sheet_id s).1 = daily_data s /\
    Forall cosmetic rest.
Proof.
  unfold format_date_column. destruct sheet_id as [i|].
  - destruct (i =? 0).
    + exists []. by rewrite app_nil_r.
    + unfold execute. destruct (batch_update _ _ _) as [w r]. simpl.
      eexists. split_and!; try done. by repeat constructor.
  - exists []. by rewrite app_nil_r.
Qed.

(** Once the batch is sent, only cosmetic requests follow. *)
Lemma write_new_rows_issued self new_rows duplicate_count s :
  exists rest,
    issued (write_new_rows self new_rows duplicate_count s).1
    = issued s ++ ValuesAppend (append_request self new_rows) :: rest /\
    Forall cosmetic rest.
Proof.
  rewrite write_new_rows_run.
  destruct (values_append _ _) as [w [result|e]]; [|by exists []].
  destruct (get_sheet_id_issued self
              (sent (ValuesAppend (append_request self new_rows)) w s))
    as (w' & sheet_id & ->).
  destruct (format_date_column_issued self sheet_id
              (sent (SpreadsheetsGet (spreadsheet_id self)) w'
                 (sent (ValuesAppend (append_request self new_rows)) w s)))
    as (rest & Hi & _ & _ & Hc).
  destruct (format_date_column _ _ _) as [s3 [[]|e]]; simpl in *.
  - exists (SpreadsheetsGet (spreadsheet_id self) :: rest). split.
    + unfold reported. destruct (0 <? duplicate_count)%nat; simpl;
        rewrite Hi; by rewrite <- !app_assoc.
    + by constructor.
  - exists (SpreadsheetsGet (spreadsheet_id self) :: rest). split.
    + rewrite Hi. by rewrite <- !app_assoc.
    + by constructor.
Qed.

(** The run of a call on a non-empty list, once the sheet is read and
    the dates in it are collected. *)
Lemma append_daily_data_written self s s1 existing_data seen rows :
  daily_data s <> [] ->
  get_existing_data self s = (s1, Ok existing_data) ->
  existing_dates_of (or_headers existing_data) = Ok seen ->
  Forall (fun day => exists d, strptime (date day) = Ok d) (daily_data s) ->
  format_rows (new_days seen (sort_by_date (daily_data s))) = Ok rows ->
  rows <> [] ->
  append_daily_data self s
  = try_except
      (write_new_rows self rows
         (length (duplicate_days seen (sort_by_date (daily_data s)))))
      (fun e => print (MsgAppendError e);; raise e)
      (sorted_in_place s1).
Proof.
  intros Hne Hread Hseen Hparse Hrows Hrows_ne.
  rewrite append_daily_data_run by done.
  rewrite (append_body_run _ _ _ _ Hread), Hseen.
  destruct (get_existing_data_ok self s) as (s1' & ex' & Hread' & Hdd & _).
  rewrite Hread in Hread'. injection Hread' as <- <-. rewrite Hdd.
  rewrite (filter_new_run _ _ _ rows); [|by rewrite sort_by_date_perm|done].
  simpl. destruct rows as [|row rows]; [done|].
  unfold try_except.
  by destruct (write_new_rows _ _ _ _) as [s' [a|e]].
Qed.

Lemma try_except_issued {A} (body : M W A) s :
  issued (try_except body (fun e => print (MsgAppendError e);; raise e) s).1
  = issued (body s).1.
Proof. unfold try_except. by destruct (body s) as [s' [a|e]]. Qed.

Lemma format_row_head day row :
  format_row day = Ok row ->
  exists d cells, row = VStr (formatted_date_of d) :: cells.
Proof.
  unfold format_row, row_of.
  destruct (strptime (date day)) as [d|]; simpl; [|done].
  destruct (format_bytes (bytes day)); simpl; [|done].
  destruct (format_bytes (cached_bytes day)); simpl; [|done].
  intros [= <-]. eauto.
Qed.

Lemma format_rows_Forall days rows :
  format_rows days = Ok rows ->
  Forall2 (fun day row => format_row day = Ok row) days rows.
Proof.
  revert rows. induction days as [|day days IH]; intros rows; simpl.
  - intros [= <-]. constructor.
  - destruct (format_row day) as [row|] eqn:Hrow; simpl; [|done].
    destruct (format_rows days) as [rows'|]; simpl; [|done].
    intros [= <-]. constructor; auto.
Qed.

Lemma header_row_not_formatted days rows :
  format_rows days = Ok rows -> map VStr headers ∉ rows.
Proof.
  intros Hrows Hin. apply format_rows_Forall in Hrows.
  apply list_elem_of_lookup in Hin as [i Hi].
  destruct (Forall2_lookup_r _ _ _ _ _ Hrows Hi) as (day & _ & Hrow).
  apply format_row_head in Hrow as (d & cells & Heq). discriminate Heq.
Qed.

Lemma format_rows_parse days rows :
  format_rows days = Ok rows ->
  Forall (fun day => exists d, strptime (date day) = Ok d) days.
Proof.
  revert rows. induction days as [|day days IH]; intros rows; simpl; [done|].
  unfold format_row at 1.
  destruct (strptime (date day)) as [d|] eqn:Hd; simpl; [|done].
  destruct (row_of _ _); simpl; [|done].
  destruct (format_rows days) as [rows'|]; simpl; [|done].
  intros _. constructor; eauto.
Qed.

Lemma append_daily_data_nil self (w : W) reqs lines :
  append_daily_data self
    {| world := w; issued := reqs; printed := lines; daily_data := [] |}
  = ({| world := w; issued := reqs;
        printed := lines ++ [MsgNothingToAppend]; daily_data := [] |},
     Ok None).
Proof. reflexivity. Qed.

(** ** The claims on [append_daily_data] *)

(** C7. For an empty list of records the call executes no request, so it
    writes nothing: the remote state and the requests issued are those
    before the call, one line is printed, and [None] ("nothing to do")
    is returned. *)
Theorem C7_empty_list_writes_nothing self (w : W) reqs lines :
  append_daily_data self
    {| world := w; issued := reqs; printed := lines; daily_data := [] |}
  = ({| world := w; issued := reqs;
        printed := lines ++ [MsgNothingToAppend]; daily_data := [] |},
     Ok None).
Proof. apply append_daily_data_nil. Qed.

(** C9. When the reading of the sheet returns no rows, the header row is
    only put in the list in memory: the call issues the reading, then one
    batch write whose rows are the formatted rows of the records, oldest
    first, one per record, none of them the header row, and after it
    only the requests of the date format, which carry no cell. *)
Theorem C9_header_only_in_memory self s s1 rows :
  daily_data s <> [] ->
  get_existing_data self s = (s1, Ok []) ->
  format_rows (sort_by_date (daily_data s)) = Ok rows ->
  exists rest,
    issued (append_daily_data self s).1
    = issued s ++ read_request self
               :: ValuesAppend (append_request self rows) :: rest /\
    Forall cosmetic rest /\
    (map VStr headers ∉ rows) /\
    length rows = length (daily_data s).
Proof.
  intros Hne Hread Hrows.
  assert (Hlen : length rows = length (daily_data s)).
  { rewrite (format_rows_length _ _ Hrows). apply sort_by_date_length. }
  assert (Hrows_ne : rows <> []).
  { intros ->. destruct (daily_data s); [done|discriminate Hlen]. }
  assert (Hparse : Forall (fun day => exists d, strptime (date day) = Ok d)
                     (daily_data s)).
  { rewrite <- sort_by_date_perm. by eapply format_rows_parse. }
  rewrite (append_daily_data_written self s s1 [] ∅ rows); try done.
  - rewrite try_except_issued.
    destruct (write_new_rows_issued self rows
                (length (duplicate_days ∅ (sort_by_date (daily_data s))))
                (sorted_in_place s1)) as (rest & -> & Hc).
    destruct (get_existing_data_ok self s) as (s1' & ex' & Hread' & _ & _ & _ & Hi).
    rewrite Hread in Hread'. injection Hread' as <- <-.
    exists rest. simpl. rewrite Hi, <- app_assoc. simpl.
    split_and!; try done. by eapply header_row_not_formatted.
  - rewrite new_days_all; [done|]. apply Forall_forall. set_solver.
Qed.

(** A call whose reading shows no date keeps every record. Its run, in the
    answers of the service: the batch write of the rows of all the records
    on the sheet as the reading left it; an exception of that write is
    printed and raised; after a write that went through the tab is looked
    up and, when it is found with an id other than 0, the date format is
    written, whose exception is printed and raised as well; otherwise the
    number of rows is printed and the answer of the batch write is
    returned. *)
Lemma append_daily_data_all_new self s s1 existing_data rows :
  daily_data s <> [] ->
  get_existing_data self s = (s1, Ok existing_data) ->
  existing_dates_of (or_headers existing_data) = Ok ∅ ->
  format_rows (sort_by_date (daily_data s)) = Ok rows ->
  let s2 := sorted_in_place s1 in
  let request := append_request self rows in
  let lookup := SpreadsheetsGet (spreadsheet_id self) in
  length rows = length (daily_data s) /\
  (forall w e,
     values_append request (world s1) = (w, Raise e) ->
     append_daily_data self s
     = (say (MsgAppendError e) (sent (ValuesAppend request) w s2), Raise e)) /\
  (forall w result w' found,
     values_append request (world s1) = (w, Ok result) ->
     spreadsheets_get (spreadsheet_id self) w = (w', found) ->
     (forall sheets, found = Ok sheets ->
        find_sheet (sheet_name self) sheets = None \/
        find_sheet (sheet_name self) sheets = Some 0) ->
     append_daily_data self s
     = (say (MsgAppended (length rows))
          (sent lookup w' (sent (ValuesAppend request) w s2)),
        Ok (Some result))) /\
  (forall w result w' sheets i w'' formatted,
     values_append request (world s1) = (w, Ok result) ->
     spreadsheets_get (spreadsheet_id self) w = (w', Ok sheets) ->
     find_sheet (sheet_name self) sheets = Some i -> i <> 0 ->
     batch_update (spreadsheet_id self) (date_format_request i) w' = (w'', formatted) ->
     let s4 := sent (BatchUpdate (spreadsheet_id self) (date_format_request i)) w''
                 (sent lookup w' (sent (ValuesAppend request) w s2)) in
     append_daily_data self s
     = match formatted with
       | Ok _ => (say (MsgAppended (length rows)) s4, Ok (Some result))
       | Raise e => (say (MsgAppendError e) s4, Raise e)
       end).
Proof.
  intros Hne Hread Hseen Hrows s2 request lookup.
  assert (Hlen : length rows = length (daily_data s)).
  { rewrite (format_rows_length _ _ Hrows). apply sort_by_date_length. }
  assert (Hrows_ne : rows <> []).
  { intros ->. destruct (daily_data s); [done|discriminate Hlen]. }
  assert (Hparse : Forall (fun day => exists d, strptime (date day) = Ok d)
                     (daily_data s)).
  { rewrite <- sort_by_date_perm. by eapply format_rows_parse. }
  assert (Hall : forall l : list DailyRecord,
            Forall (fun day => date day ∉ (∅ : gset string)) l).
  { intros l. apply Forall_forall. set_solver. }
  assert (Hdup : forall l, duplicate_days ∅ l = []).
  { intros l. unfold duplicate_days. induction l as [|x l IH]; [done|].
    rewrite filter_cons_False; [done|set_solver]. }
  assert (Hrun : append_daily_data self s
                 = try_except (write_new_rows self rows 0)
                     (fun e => print (MsgAppendError e);; raise e) s2).
  { rewrite (append_daily_data_written self s s1 existing_data ∅ rows); try done.
    - by rewrite Hdup.
    - by rewrite new_days_all. }
  rewrite Hrun. unfold try_except. rewrite write_new_rows_run.
  change (world s2) with (world s1). fold request.
  split; [done|]. split_and!.
  - intros w e Hw. by rewrite Hw.
  - intros w result w' found Hw Hg Hfound. rewrite Hw, get_sheet_id_run. simpl.
    rewrite Hg. destruct found as [sheets|e]; [|done].
    by destruct (Hfound sheets eq_refl) as [-> | ->].
  - intros w result w' sheets i w'' formatted Hw Hg Hfind Hi Hb.
    rewrite Hw, get_sheet_id_run. simpl. rewrite Hg, Hfind.
    unfold format_date_column. destruct (Z.eqb_spec i 0) as [|_]; [done|].
    unfold execute. simpl. rewrite Hb. by destruct formatted as [[]|e].
Qed.

(** C4. When the reading of the sheet raises, the call goes on. The error
    is printed, the sheet counts as empty and every record is new: the
    rows of all the records go to the service in one batch write, on the
    sheet as the failed reading left it. What the call then returns is
    what the write gives: its answer, after the number of rows is printed,
    or its exception, or that of the date format that follows it. *)
Theorem C4_read_failure_counts_as_empty self s w0 e0 rows :
  daily_data s <> [] ->
  values_get (spreadsheet_id self) (sheet_name self +:+ "!A:J") (world s)
  = (w0, Raise e0) ->
  format_rows (sort_by_date (daily_data s)) = Ok rows ->
  let s2 := sorted_in_place (say (MsgReadError e0) (sent (read_request self) w0 s)) in
  let request := append_request self rows in
  let lookup := SpreadsheetsGet (spreadsheet_id self) in
  length rows = length (daily_data s) /\
  (forall w e,
     values_append request w0 = (w, Raise e) ->
     append_daily_data self s
     = (say (MsgAppendError e) (sent (ValuesAppend request) w s2), Raise e)) /\
  (forall w result w' found,
     values_append request w0 = (w, Ok result) ->
     spreadsheets_get (spreadsheet_id self) w = (w', found) ->
     (forall sheets, found = Ok sheets ->
        find_sheet (sheet_name self) sheets = None \/
        find_sheet (sheet_name self) sheets = Some 0) ->
     append_daily_data self s
     = (say (MsgAppended (length rows))
          (sent lookup w' (sent (ValuesAppend request) w s2)),
        Ok (Some result))) /\
  (forall w result w' sheets i w'' formatted,
     values_append request w0 = (w, Ok result) ->
     spreadsheets_get (spreadsheet_id self) w = (w', Ok sheets) ->
     find_sheet (sheet_name self) sheets = Some i -> i <> 0 ->
     batch_update (spreadsheet_id self) (date_format_request i) w' = (w'', formatted) ->
     let s4 := sent (BatchUpdate (spreadsheet_id self) (date_format_request i)) w''
                 (sent lookup w' (sent (ValuesAppend request) w s2)) in
     append_daily_data self s
     = match formatted with
       | Ok _ => (say (MsgAppended (length rows)) s4, Ok (Some result))
       | Raise e => (say (MsgAppendError e) s4, Raise e)
       end).
Proof.
  intros Hne Hget Hrows.
  assert (Hread : get_existing_data self s
                  = (say (MsgReadError e0) (sent (read_request self) w0 s), Ok [])).
  { rewrite get_existing_data_run, Hget. done. }
  exact (append_daily_data_all_new self s _ [] rows Hne Hread eq_refl Hrows).
Qed.

(** A sheet of one row, whatever the row holds: the row counts as the
    header, no date is read, and the call writes the rows of all the
    records, as on an empty sheet. *)
Lemma single_row_counts_as_header self s w0 row rows :
  daily_data s <> [] ->
  values_get (spreadsheet_id self) (sheet_name self +:+ "!A:J") (world s)
  = (w0, Ok (Some [row])) ->
  format_rows (sort_by_date (daily_data s)) = Ok rows ->
  let s2 := sorted_in_place (sent (read_request self) w0 s) in
  let request := append_request self rows in
  let lookup := SpreadsheetsGet (spreadsheet_id self) in
  length rows = length (daily_data s) /\
  (forall w e,
     values_append request w0 = (w, Raise e) ->
     append_daily_data self s
     = (say (MsgAppendError e) (sent (ValuesAppend request) w s2), Raise e)) /\
  (forall w result w' found,
     values_append request w0 = (w, Ok result) ->
     spreadsheets_get (spreadsheet_id self) w = (w', found) ->
     (forall sheets, found = Ok sheets ->
        find_sheet (sheet_name self) sheets = None \/
        find_sheet (sheet_name self) sheets = Some 0) ->
     append_daily_data self s
     = (say (MsgAppended (length rows))
          (sent lookup w' (sent (ValuesAppend request) w s2)),
        Ok (Some result))) /\
  (forall w result w' sheets i w'' formatted,
     values_append request w0 = (w, Ok result) ->
     spreadsheets_get (spreadsheet_id self) w = (w', Ok sheets) ->
     find_sheet (sheet_name self) sheets = Some i -> i <> 0 ->
     batch_update (spreadsheet_id self) (date_format_request i) w' = (w'', formatted) ->
     let s4 := sent (BatchUpdate (spreadsheet_id self) (date_format_request i)) w''
                 (sent lookup w' (sent (ValuesAppend request) w s2)) in
     append_daily_data self s
     = match formatted with
       | Ok _ => (say (MsgAppended (length rows)) s4, Ok (Some result))
       | Raise e => (say (MsgAppendError e) s4, Raise e)
       end).
Proof.
  intros Hne Hget Hrows.
  assert (Hread : get_existing_data self s
                  = (sent (read_request self) w0 s, Ok [row])).
  { rewrite get_existing_data_run, Hget. done. }
  exact (append_daily_data_all_new self s _ [row] rows Hne Hread eq_refl Hrows).
Qed.




(** The two halves of the date format, for any service: a look-up of the
    tab that raises is swallowed and the call returns the answer to the
    write; a [batchUpdate] that raises is raised by the call, after the
    write. *)
Lemma sheet_lookup_failure_is_swallowed self new_rows duplicate_count s w result w' e :
  values_append (append_request self new_rows) (world s) = (w, Ok result) ->
  spreadsheets_get (spreadsheet_id self) w = (w', Raise e) ->
  write_new_rows self new_rows duplicate_count s
  = (reported new_rows duplicate_count
       (sent (SpreadsheetsGet (spreadsheet_id self)) w'
          (sent (ValuesAppend (append_request self new_rows)) w s)),
     Ok (Some result)).
Proof.
  intros Hw Hg. rewrite write_new_rows_run, Hw, get_sheet_id_run. simpl.
  by rewrite Hg.
Qed.

Lemma date_format_failure_is_raised
    self new_rows duplicate_count s w result w' sheets i w'' e :
  values_append (append_request self new_rows) (world s) = (w, Ok result) ->
  spreadsheets_get (spreadsheet_id self) w = (w', Ok sheets) ->
  find_sheet (sheet_name self) sheets = Some i -> i <> 0 ->
  batch_update (spreadsheet_id self) (date_format_request i) w' = (w'', Raise e) ->
  try_except (write_new_rows self new_rows duplicate_count)
             (fun e => print (MsgAppendError e);; raise e) s
  = (say (MsgAppendError e)
       (sent (BatchUpdate (spreadsheet_id self) (date_format_request i)) w''
          (sent (SpreadsheetsGet (spreadsheet_id self)) w'
             (sent (ValuesAppend (append_request self new_rows)) w s))),
     Raise e).
Proof.
  intros Hw Hg Hfind Hi Hb. unfold try_except.
  rewrite write_new_rows_run, Hw, get_sheet_id_run. simpl.
  rewrite Hg, Hfind. unfold format_date_column.
  destruct (Z.eqb_spec i 0) as [|_]; [done|].
  unfold execute. simpl. by rewrite Hb.
Qed.

Lemma write_new_rows_daily_data self new_rows duplicate_count s :
  daily_data (write_new_rows self new_rows duplicate_count s).1 = daily_data s.
Proof.
  rewrite write_new_rows_run.
  destruct (values_append _ _) as [w [result|e]]; [|done].
  destruct (get_sheet_id_issued self
              (sent (ValuesAppend (append_request self new_rows)) w s))
    as (w' & sheet_id & ->).
  destruct (format_date_column_issued self sheet_id
              (sent (SpreadsheetsGet (spreadsheet_id self)) w'
                 (sent (ValuesAppend (append_request self new_rows)) w s)))
    as (rest & _ & _ & Hd & _).
  destruct (format_date_column _ _ _) as [s3 [[]|e]]; simpl in *; [|done].
  unfold reported. by destruct (0 <? duplicate_count)%nat.
Qed.

(** A call that ends normally has read the sheet, parsed every date and
    left the list sorted. *)
Lemma append_daily_data_ok_inv self s s' r :
  daily_data s <> [] ->
  append_daily_data self s = (s', Ok r) ->
  exists s1 existing_data seen rows,
    get_existing_data self s = (s1, Ok existing_data) /\
    existing_dates_of (or_headers existing_data) = Ok seen /\
    format_rows (new_days seen (sort_by_date (daily_data s))) = Ok rows /\
    Forall (fun day => exists d, strptime (date day) = Ok d) (daily_data s) /\
    daily_data s' = sort_by_date (daily_data s) /\
    (s', Ok r)
    = match rows with
      | [] => (print MsgNoNewData;;
               print_duplicates
                 (length (duplicate_days seen (sort_by_date (daily_data s))));;
               mret None) (sorted_in_place s1)
      | _ => write_new_rows self rows
               (length (duplicate_days seen (sort_by_date (daily_data s))))
               (sorted_in_place s1)
      end.
Proof.
  intros Hne. rewrite append_daily_data_run by done.
  destruct (get_existing_data_ok self s) as (s1 & ex & Hread & Hdd & _).
  rewrite (append_body_run _ _ _ _ Hread).
  destruct (existing_dates_of (or_headers ex)) as [seen|e] eqn:Hseen; [|done].
  rewrite Hdd.
  destruct (filter_new seen _ _) as [[rows n]|e] eqn:Hf; [|done].
  apply filter_new_inv in Hf as (rows' & Hrows & [= -> ->] & Hparse). simpl.
  intros Hrun. exists s1, ex, seen, rows'.
  rewrite sort_by_date_perm in Hparse.
  split_and!; try done.
  - destruct rows' as [|row rows'].
    + unfold mbind, M_bind, print in Hrun. rewrite print_duplicates_run in Hrun.
      simpl in Hrun. destruct (0 <? _)%nat; injection Hrun as <- <-;
        simpl; by rewrite Hdd.
    + pose proof (write_new_rows_daily_data self (row :: rows')
                    (length (duplicate_days seen (sort_by_date (daily_data s))))
                    (sorted_in_place s1)) as Hw.
      destruct (write_new_rows _ _ _ _) as [s2 [a|e]]; [|done].
      injection Hrun as <- <-. simpl in Hw. by rewrite Hw, Hdd.
  - destruct rows' as [|row rows'].
    + by destruct ((print MsgNoNewData;; _) (sorted_in_place s1)) as [s2 [a|e]].
    + by destruct (write_new_rows _ _ _ _) as [s2 [a|e]].
Qed.


(** What the filter of a second call does once the dates are there: after
    a first call that ends normally, a second call on the same list, whose
    reading of the sheet shows below the first row the date of every
    record, executes that reading and nothing else: no row is written,
    the number of duplicates it prints is the length of the list, and it
    returns [None]. Whether the reading shows the dates is up to the
    sheet and to the first call. *)
Lemma second_call_writes_nothing_when_the_dates_show self s s1 r1 w2 snapshot seen :
  daily_data s <> [] ->
  append_daily_data self s = (s1, Ok r1) ->
  values_get (spreadsheet_id self) (sheet_name self +:+ "!A:J") (world s1)
  = (w2, Ok (Some snapshot)) ->
  existing_dates_of (or_headers snapshot) = Ok seen ->
  (forall day, day ∈ daily_data s -> date day ∈ seen) ->
  append_daily_data self s1
  = (say (MsgDuplicates (length (daily_data s)))
       (say MsgNoNewData (sent (read_request self) w2 s1)),
     Ok None).
Proof.
  intros Hne Hfirst Hget Hseen Hall.
  destruct (append_daily_data_ok_inv _ _ _ _ Hne Hfirst)
    as (_ & _ & _ & _ & _ & _ & _ & Hparse & Hsorted & _).
  assert (Hne1 : daily_data s1 <> []).
  { rewrite Hsorted. intros Hnil.
    pose proof (sort_by_date_length (daily_data s)) as Hlen.
    rewrite Hnil in Hlen. destruct (daily_data s); [done|discriminate Hlen]. }
  assert (Hread : get_existing_data self s1
                  = (sent (read_request self) w2 s1, Ok snapshot)).
  { by rewrite get_existing_data_run, Hget. }
  assert (Hidem : sort_by_date (daily_data s1) = daily_data s1).
  { rewrite Hsorted. apply sort_by_date_idemp. }
  assert (Hin : Forall (fun day => date day ∈ seen) (daily_data s1)).
  { rewrite Hsorted, sort_by_date_perm. by apply Forall_forall. }
  rewrite append_daily_data_run by done.
  rewrite (append_body_run _ _ _ _ Hread), Hseen. simpl.
  rewrite Hidem.
  rewrite (filter_new_run _ _ _ []).
  - rewrite duplicate_days_all by done. simpl.
    unfold mbind, M_bind, print. rewrite print_duplicates_run.
    assert (Hlen : length (daily_data s1) = length (daily_data s)).
    { rewrite Hsorted. apply sort_by_date_length. }
    rewrite Hlen.
    destruct (0 <? length (daily_data s))%nat eqn:Hpos.
    + do 3 f_equal. unfold sorted_in_place, sent. simpl. by rewrite Hidem.
    + apply Nat.ltb_ge in Hpos. destruct (daily_data s); [done|simpl in Hpos; lia].
  - rewrite Hsorted, sort_by_date_perm. done.
  - by rewrite new_days_none.
Qed.

End Runs.

(** ** The claims, run on the spreadsheet in memory *)

Section OnMemSheet.

Import MemSheet Fixtures.

(** A second call whose reading fails writes again, as C4 has it: the
    sheet holds its header, the first call writes the row of the one
    record, the reading of the second call fails, and the second call
    writes the same row again and prints no count of duplicates. *)
Lemma second_call_after_a_failed_read_writes_again :
  let first := call (start flaky_read [day1]) in
  let second := call first.1 in
  first.2 = Ok (Some {| updatedRows := 1; tableRows := 1 |}) /\
  cells (world first.1) = [headers; shown1] /\
  second.2 = Ok (Some {| updatedRows := 1; tableRows := 2 |}) /\
  cells (world second.1) = [headers; shown1; shown1] /\
  printed second.1
  = [MsgAppended 1; MsgReadError (ApiError "HttpError"); MsgAppended 1].
Proof. vm_compute. done. Qed.

(** C1 fails on a sheet that starts empty, with no fault of the service.
    The header is put in front of the rows read, in memory, and is never
    written (lines 217 to 224), so the first call leaves the row of the
    record in the first line of the sheet. The reading of the second call
    returns that one line; it is taken for the header (line 228 reads the
    dates from the second line on), no date is read, the record counts as
    new, and the second call writes its row again: the sheet holds the
    row twice, and the second call reports one row added and no
    duplicate. *)
Theorem C1_second_call_on_a_fresh_sheet_writes_again :
  let first := call (start blank [day1]) in
  let second := call first.1 in
  first.2 = Ok (Some {| updatedRows := 1; tableRows := 0 |}) /\
  cells (world first.1) = [shown1] /\
  values_get "doc" "Analytics!A:J" (world first.1)
  = (world first.1, Ok (Some [shown1])) /\
  second.2 = Ok (Some {| updatedRows := 1; tableRows := 1 |}) /\
  cells (world second.1) = [shown1; shown1] /\
  drop (length (issued first.1)) (issued second.1)
  = [read_request handler; ValuesAppend (append_request handler [row1]);
     SpreadsheetsGet "doc"; BatchUpdate "doc" (date_format_request 7)] /\
  drop (length (printed first.1)) (printed second.1) = [MsgAppended 1].
Proof. vm_compute. done. Qed.

(** With two records it is the older one that is written again: its row
    is the first line of the sheet. *)
Lemma oldest_row_of_a_fresh_sheet_is_written_again :
  let first := call (start blank [day2; day1]) in
  let second := call first.1 in
  map (hd ""%string) (cells (world first.1)) = ["2024-01-01"; "2024-01-02"]%string /\
  map (hd ""%string) (cells (world second.1))
  = ["2024-01-01"; "2024-01-02"; "2024-01-01"]%string /\
  drop (length (printed first.1)) (printed second.1)
  = [MsgAppended 1; MsgDuplicates 1].
Proof. vm_compute. done. Qed.

Lemma second_call_writes_nothing_example :
  let s := start with_header [day1] in
  let s1 := (call s).1 in
  let w2 := sheet_of [headers; shown1] 7 [] in
  let seen : gset string := {["2024-01-01"%string]} in
  (daily_data s <> [] /\
   append_daily_data handler s
   = (s1, Ok (Some {| updatedRows := 1; tableRows := 1 |})) /\
   values_get "doc" "Analytics!A:J" (world s1) = (w2, Ok (Some [headers; shown1])) /\
   existing_dates_of (or_headers [headers; shown1]) = Ok seen /\
   (forall day, day ∈ daily_data s -> date day ∈ seen)) /\
  append_daily_data handler s1
  = (say (MsgDuplicates (length (daily_data s)))
       (say MsgNoNewData (sent (read_request handler) w2 s1)),
     Ok None).
Proof.
  assert (H1 : daily_data (start with_header [day1]) <> []) by done.
  assert (H2 : append_daily_data handler (start with_header [day1])
               = ((call (start with_header [day1])).1,
                  Ok (Some {| updatedRows := 1; tableRows := 1 |})))
    by (vm_compute; reflexivity).
  assert (H3 : values_get "doc" "Analytics!A:J"
                 (world (call (start with_header [day1])).1)
               = (sheet_of [headers; shown1] 7 [], Ok (Some [headers; shown1])))
    by (vm_compute; reflexivity).
  assert (H4 : existing_dates_of (or_headers [headers; shown1])
               = Ok ({["2024-01-01"%string]} : gset string)) by (vm_compute; reflexivity).
  assert (H5 : forall day, day ∈ daily_data (start with_header [day1]) ->
                           date day ∈ ({["2024-01-01"%string]} : gset string)).
  { intros day Hday. apply list_elem_of_singleton in Hday as ->.
    apply elem_of_singleton. reflexivity. }
  split; [exact (conj H1 (conj H2 (conj H3 (conj H4 H5))))|].
  exact (second_call_writes_nothing_when_the_dates_show handler _ _ _ _ _ _ H1 H2 H3 H4 H5).
Defined.

(** C2 fails on the formatting write. The sheet holds its header, the
    batch write of the one row succeeds, the tab is found, and the
    [batchUpdate] of the date format fails: the call prints the error and
    raises it, although the row is in the sheet. *)
Theorem C2_failed_date_format_fails_the_call :
  let run := call (start flaky_format [day1]) in
  run.2 = Raise (ApiError "HttpError") /\
  cells (world run.1) = [headers; shown1] /\
  issued run.1
  = [read_request handler;
     ValuesAppend (append_request handler [row1]);
     SpreadsheetsGet "doc";
     BatchUpdate "doc" (date_format_request 7)] /\
  printed run.1 = [MsgAppendError (ApiError "HttpError")].
Proof. vm_compute. done. Qed.

(** The other half of C2 holds: a failed look-up of the tab is swallowed. *)
Lemma failed_lookup_is_swallowed :
  let run := call (start flaky_lookup [day1]) in
  run.2 = Ok (Some {| updatedRows := 1; tableRows := 1 |}) /\
  cells (world run.1) = [headers; shown1] /\
  printed run.1 = [MsgAppended 1].
Proof. vm_compute. done. Qed.



Lemma C4_witness :
  let s := start unreadable [day1] in
  let w0 := sheet_of [headers; shown1] 7 [] in
  let e0 := ApiError "HttpError" in
  let w := sheet_of [headers; shown1; shown1] 7 [] in
  let result := {| updatedRows := 1; tableRows := 2 |} in
  let request := append_request handler [row1] in
  (daily_data s <> [] /\
   values_get "doc" "Analytics!A:J" (world s) = (w0, Raise e0) /\
   format_rows (sort_by_date (daily_data s)) = Ok [row1]) /\
  (values_append request w0 = (w, Ok result) /\
   spreadsheets_get "doc" w = (w, Ok [tab 7]) /\
   find_sheet "Analytics" [tab 7] = Some 7 /\ 7 <> 0 /\
   batch_update "doc" (date_format_request 7) w = (w, Ok tt)) /\
  append_daily_data handler s
  = (say (MsgAppended 1)
       (sent (BatchUpdate "doc" (date_format_request 7)) w
          (sent (SpreadsheetsGet "doc") w
             (sent (ValuesAppend request) w
                (sorted_in_place
                   (say (MsgReadError e0) (sent (read_request handler) w0 s)))))),
     Ok (Some result)).
Proof.
  assert (H1 : daily_data (start unreadable [day1]) <> []) by done.
  assert (H2 : values_get "doc" "Analytics!A:J" (world (start unreadable [day1]))
               = (sheet_of [headers; shown1] 7 [], Raise (ApiError "HttpError")))
    by (vm_compute; reflexivity).
  assert (H3 : format_rows (sort_by_date (daily_data (start unreadable [day1])))
               = Ok [row1]) by (vm_compute; reflexivity).
  assert (H4 : values_append (append_request handler [row1])
                 (sheet_of [headers; shown1] 7 [])
               = (sheet_of [headers; shown1; shown1] 7 [],
                  Ok {| updatedRows := 1; tableRows := 2 |}))
    by (vm_compute; reflexivity).
  assert (H5 : spreadsheets_get "doc" (sheet_of [headers; shown1; shown1] 7 [])
               = (sheet_of [headers; shown1; shown1] 7 [], Ok [tab 7]))
    by (vm_compute; reflexivity).
  assert (H6 : find_sheet "Analytics" [tab 7] = Some 7) by (vm_compute; reflexivity).
  assert (H7 : 7 <> 0) by discriminate.
  assert (H8 : batch_update "doc" (date_format_request 7)
                 (sheet_of [headers; shown1; shown1] 7 [])
               = (sheet_of [headers; shown1; shown1] 7 [], Ok tt))
    by (vm_compute; reflexivity).
  split; [exact (conj H1 (conj H2 H3))|].
  split; [exact (conj H4 (conj H5 (conj H6 (conj H7 H8))))|].
  exact (proj2 (proj2 (proj2
           (C4_read_failure_counts_as_empty handler (start unreadable [day1])
              _ _ _ H1 H2 H3)))
           _ _ _ _ _ _ _ H4 H5 H6 H7 H8).
Defined.


Lemma C9_witness :
  let s := start blank [day2; day1] in
  let s1 := sent (read_request handler) blank s in
  (daily_data s <> [] /\
   get_existing_data handler s = (s1, Ok []) /\
   format_rows (sort_by_date (daily_data s)) = Ok [row1; row2]) /\
  exists rest,
    issued (append_daily_data handler s).1
    = issued s ++ read_request handler
               :: ValuesAppend (append_request handler [row1; row2]) :: rest /\
    Forall cosmetic rest /\
    (map VStr headers ∉ [row1; row2]) /\
    length [row1; row2] = length (daily_data s).
Proof.
  assert (H1 : daily_data (start blank [day2; day1]) <> []) by done.
  assert (H2 : get_existing_data handler (start blank [day2; day1])
               = (sent (read_request handler) blank (start blank [day2; day1]),
                  Ok [])) by (vm_compute; reflexivity).
  assert (H3 : format_rows (sort_by_date (daily_data (start blank [day2; day1])))
               = Ok [row1; row2]) by (vm_compute; reflexivity).
  split; [exact (conj H1 (conj H2 H3))|].
  exact (C9_header_only_in_memory handler _ _ _ H1 H2 H3).
Defined.

(** A sheet that shows the first two days, a call with the first and the
    third: one row is written, one record is skipped. *)
Lemma partial_overlap :
  let run := call (start (sheet_of [headers; shown1; stored "2024-01-02"] 7 [])
                     [day3; day1]) in
  run.2 = Ok (Some {| updatedRows := 1; tableRows := 3 |}) /\
  map (hd ""%string) (cells (world run.1))
  = ["날짜"; "2024-01-01"; "2024-01-02"; "2024-01-03"]%string /\
  printed run.1 = [MsgAppended 1; MsgDuplicates 1].
Proof. vm_compute. done. Qed.

(** On the sheet in memory the rows of C9 are what the sheet then shows:
    no header line. *)
Lemma blank_sheet_gets_no_header :
  cells (world (call (start blank [day2; day1])).1)
  = map (map display) [row1; row2].
Proof. vm_compute. reflexivity. Qed.

End OnMemSheet.

(** ** The scheduling gate *)

(** C10. Whatever the time, [should_collect_data] returns [True] exactly
    when the day of the month is 1. *)
Theorem C10_collects_on_the_first_of_the_month (now : datetime) :
  (should_collect_data now).2 = true <-> dt_day now = 1.
Proof. unfold should_collect_data. simpl. apply Z.eqb_eq. Qed.

(** * More properties *)

(** ** The order of the dates *)

Lemma ascii_compare_trans a b c o :
  Ascii.compare a b = o -> Ascii.compare b c = o -> Ascii.compare a c = o.
Proof.
  unfold Ascii.compare. destruct o.
  - rewrite !N.compare_eq_iff. congruence.
  - rewrite !N.compare_lt_iff. lia.
  - rewrite !N.compare_gt_iff. lia.
Qed.

Lemma ascii_compare_eq a b : Ascii.compare a b = Eq -> a = b.
Proof.
  unfold Ascii.compare. rewrite N.compare_eq_iff. intros H.
  rewrite <- (ascii_N_embedding a), <- (ascii_N_embedding b). by rewrite H.
Qed.

Lemma string_leb_trans s1 s2 s3 :
  String.leb s1 s2 = true -> String.leb s2 s3 = true -> String.leb s1 s3 = true.
Proof.
  unfold String.leb. revert s2 s3.
  induction s1 as [|a s1 IH]; intros [|b s2] [|c s3]; simpl; try done.
  destruct (Ascii.compare a b) eqn:Hab; try done;
    destruct (Ascii.compare b c) eqn:Hbc; try done.
  - apply ascii_compare_eq in Hab, Hbc. subst.
    assert (Hcc : Ascii.compare c c = Eq) by (unfold Ascii.compare; apply N.compare_refl).
    rewrite Hcc. apply IH.
  - apply ascii_compare_eq in Hab. subst. by rewrite Hbc.
  - apply ascii_compare_eq in Hbc. subst. by rewrite Hab.
  - by rewrite (ascii_compare_trans a b c Lt).
Qed.

Lemma date_le_trans x y z : date_le x y -> date_le y z -> date_le x z.
Proof. unfold date_le. apply string_leb_trans. Qed.

Lemma StronglySorted_filter_list {A} (R : A -> A -> Prop) (P : A -> Prop)
    `{forall x, Decision (P x)} (l : list A) :
  StronglySorted R l -> StronglySorted R (filter P l).
Proof.
  induction 1 as [|x l Hs IH Hall]; [constructor|].
  destruct (decide (P x)).
  - rewrite filter_cons_True by done. constructor; [done|].
    apply Forall_forall. intros y Hy. apply list_elem_of_filter in Hy as [_ Hy].
    rewrite Forall_forall in Hall. by apply Hall.
  - by rewrite filter_cons_False.
Qed.

Lemma new_days_Sorted seen l :
  StronglySorted date_le (new_days seen (sort_by_date l)).
Proof.
  unfold new_days. apply StronglySorted_filter_list.
  apply Sorted_StronglySorted; [|apply sort_by_date_Sorted].
  intros x y z. apply date_le_trans.
Qed.

(** ** The dates read from the sheet *)

Lemma first_cells_Ok rows cs :
  first_cells rows = Ok cs ->
  Forall2 (fun row c => exists cells, row = c :: cells) rows cs.
Proof.
  revert cs. induction rows as [|row rows IH]; intros cs; simpl.
  - intros [= <-]. constructor.
  - destruct row as [|c cells]; [done|].
    destruct (first_cells rows) as [cs'|]; simpl; [|done].
    intros [= <-]. constructor; eauto.
Qed.

Lemma first_cells_blank rows :
  [] ∈ rows -> first_cells rows = Raise IndexError.
Proof.
  induction rows as [|row rows IH]; intros Hin; [by apply elem_of_nil in Hin|].
  simpl. destruct row as [|c cells]; [done|].
  apply elem_of_cons in Hin as [|Hin]; [done|].
  by rewrite IH.
Qed.

(** The first row of the sheet is taken for the header whatever it holds:
    the dates read are the first cells of the rows below it. *)
Theorem dates_are_read_below_the_first_row first_row rows seen :
  existing_dates_of (first_row :: rows) = Ok seen ->
  forall d, d ∈ seen <-> exists cells, (d :: cells) ∈ rows.
Proof.
  unfold existing_dates_of. simpl.
  destruct rows as [|row rows].
  - simpl. intros [= <-] d. split; [set_solver|].
    intros [cells H]. by apply elem_of_nil in H.
  - replace (1 <? S (S (length rows)))%nat with true by done.
    destruct (first_cells (row :: rows)) as [cs|] eqn:Hcs; simpl; [|done].
    intros [= <-] d. apply first_cells_Ok in Hcs.
    rewrite elem_of_list_to_set. split.
    + intros Hd. apply list_elem_of_lookup in Hd as [i Hi].
      destruct (Forall2_lookup_r _ _ _ _ _ Hcs Hi) as (r & Hr & cells & ->).
      exists cells. by eapply list_elem_of_lookup_2.
    + intros [cells Hin]. apply list_elem_of_lookup in Hin as [i Hi].
      destruct (Forall2_lookup_l _ _ _ _ _ Hcs Hi) as (c & Hc & cells' & Heq).
      injection Heq as <- _. by eapply list_elem_of_lookup_2.
Qed.

Lemma dates_are_read_below_the_first_row_witness :
  existing_dates_of ([] :: [["2024-01-01"; "x"]; ["2024-01-02"]])%string
  = Ok ({["2024-01-01"; "2024-01-02"]}%string : gset string) /\
  forall d, d ∈ ({["2024-01-01"; "2024-01-02"]}%string : gset string) <->
            exists cells, (d :: cells) ∈ [["2024-01-01"; "x"]; ["2024-01-02"]]%string.
Proof.
  assert (H : existing_dates_of ([] :: [["2024-01-01"; "x"]; ["2024-01-02"]])%string
              = Ok ({["2024-01-01"; "2024-01-02"]}%string : gset string))
    by (vm_compute; reflexivity).
  split; [exact H|].
  exact (dates_are_read_below_the_first_row _ _ _ H).
Defined.

Lemma existing_dates_of_raises existing_data e :
  existing_dates_of existing_data = Raise e ->
  e = IndexError /\ [] ∈ tail existing_data.
Proof.
  unfold existing_dates_of. destruct (1 <? length existing_data)%nat; [|done].
  generalize (tail existing_data). intros rows.
  induction rows as [|row rows IH]; simpl; [done|].
  destruct row as [|c cells]; [intros [= <-]; split; [done|apply list_elem_of_here]|].
  destruct (first_cells rows) as [cs|e'] eqn:Hcs; simpl; [done|].
  intros [= ->]. destruct (IH eq_refl) as [-> Hin].
  split; [done|]. by apply list_elem_of_further.
Qed.

Lemma filter_new_raises seen days acc day e :
  day ∈ days -> strptime (date day) = Raise e ->
  exists e', filter_new seen days acc = Raise e'.
Proof.
  revert acc. induction days as [|x days IH]; intros acc Hin Hday;
    [by apply elem_of_nil in Hin|].
  simpl. apply elem_of_cons in Hin as [<-|Hin].
  - unfold filter_step. rewrite Hday. simpl. eauto.
  - destruct (filter_step seen acc x) as [acc'|e']; simpl; eauto.
Qed.

Section MoreRuns.

Context {W Resp : Type} `{!Sheets W Resp}.
Implicit Types (self : GoogleSheetHandler) (s : state W).

(** The requests of a call: nothing, or the reading alone, or the reading,
    one batch write and then only requests of the date format. *)
Theorem requests_of_a_call self s :
  exists new,
    issued (append_daily_data self s).1 = issued s ++ new /\
    (new = [] \/
     new = [read_request self] \/
     exists rows rest,
       new = read_request self :: ValuesAppend (append_request self rows) :: rest /\
       rows <> [] /\ Forall cosmetic rest).
Proof.
  destruct (daily_data s) as [|day days] eqn:Hdd.
  { exists []. split; [|by left]. destruct s as [w i p d]. simpl in Hdd. subst d.
    rewrite append_daily_data_nil. simpl. by rewrite app_nil_r. }
  assert (Hne : daily_data s <> []) by (by rewrite Hdd).
  rewrite append_daily_data_run by done.
  destruct (get_existing_data_ok self s) as (s1 & ex & Hread & Hd1 & _ & _ & Hi).
  rewrite (append_body_run _ _ _ _ Hread).
  destruct (existing_dates_of (or_headers ex)) as [seen|e].
  2:{ exists [read_request self]. simpl. split; [done|]. right. by left. }
  destruct (filter_new seen _ _) as [[rows n]|e].
  2:{ exists [read_request self]. simpl. split; [done|]. right. by left. }
  destruct rows as [|row rows].
  - exists [read_request self]. split; [|right; by left].
    unfold mbind, M_bind, print. rewrite print_duplicates_run.
    by destruct (0 <? n)%nat.
  - destruct (write_new_rows_issued self (row :: rows) n (sorted_in_place s1))
      as (rest & Hw & Hc).
    exists (read_request self :: ValuesAppend (append_request self (row :: rows)) :: rest).
    split.
    + destruct (write_new_rows _ _ _ _) as [s2 [a|e]]; simpl in *;
        rewrite Hw, Hi, <- app_assoc; done.
    + right. right. by exists (row :: rows), rest.
Qed.

(** The caller's list after a call: the same records, sorted oldest first,
    or untouched when the call stopped on a row of the sheet without
    cells. *)
Theorem list_is_sorted_in_place self s :
  daily_data s <> [] ->
  daily_data (append_daily_data self s).1 = sort_by_date (daily_data s) \/
  daily_data (append_daily_data self s).1 = daily_data s /\
  (append_daily_data self s).2 = Raise IndexError.
Proof.
  intros Hne. rewrite append_daily_data_run by done.
  destruct (get_existing_data_ok self s) as (s1 & ex & Hread & Hd1 & _).
  rewrite (append_body_run _ _ _ _ Hread).
  destruct (existing_dates_of (or_headers ex)) as [seen|e] eqn:Hseen.
  2:{ right. apply existing_dates_of_raises in Hseen as [-> _]. by simpl. }
  left. destruct (filter_new seen _ _) as [[rows n]|e]; [|by simpl; rewrite Hd1].
  destruct rows as [|row rows].
  - unfold mbind, M_bind, print. rewrite print_duplicates_run.
    destruct (0 <? n)%nat; simpl; by rewrite Hd1.
  - pose proof (write_new_rows_daily_data self (row :: rows) n (sorted_in_place s1)) as Hw.
    destruct (write_new_rows _ _ _ _) as [s2 [a|e]]; simpl in *; by rewrite Hw, Hd1.
Qed.

(** Every record of a call that ends normally is written or counted as a
    duplicate: the two numbers printed add up to the length of the list. *)
Theorem counts_add_up self s s' r :
  daily_data s <> [] ->
  append_daily_data self s = (s', Ok r) ->
  exists lines n d,
    (n + d)%nat = length (daily_data s) /\
    (r = None <-> n = 0%nat) /\
    printed s'
    = lines ++ (if (0 <? n)%nat then [MsgAppended n] else [MsgNoNewData])
            ++ (if (0 <? d)%nat then [MsgDuplicates d] else []).
Proof.
  intros Hne Hrun.
  destruct (append_daily_data_ok_inv _ _ _ _ Hne Hrun)
    as (s1 & ex & seen & rows & Hread & Hseen & Hrows & _ & _ & Heq).
  set (sorted := sort_by_date (daily_data s)) in *.
  assert (Hlen : (length rows + length (duplicate_days seen sorted))%nat
                 = length (daily_data s)).
  { rewrite (format_rows_length _ _ Hrows). unfold new_days, duplicate_days.
    rewrite <- (sort_by_date_length (daily_data s)). fold sorted.
    clear. induction sorted as [|x l IH]; [done|].
    destruct (decide (date x ∈ seen)).
    - rewrite filter_cons_False, (filter_cons_True (fun day => date day ∈ seen)) by auto.
      simpl. lia.
    - rewrite filter_cons_True, (filter_cons_False (fun day => date day ∈ seen)) by auto.
      simpl. lia. }
  destruct rows as [|row rows].
  - unfold mbind, M_bind, print in Heq. rewrite print_duplicates_run in Heq.
    exists (printed s1), 0%nat, (length (duplicate_days seen sorted)).
    simpl in *.
    destruct (0 <? _)%nat; injection Heq as -> ->; simpl;
      rewrite <- ?app_assoc; done.
  - rewrite write_new_rows_run in Heq.
    destruct (values_append _ _) as [w [result|e]]; [|done].
    destruct (get_sheet_id_issued self
                (sent (ValuesAppend (append_request self (row :: rows))) w
                   (sorted_in_place s1))) as (w' & sheet_id & Hid).
    rewrite Hid in Heq.
    destruct (format_date_column _ _ _) as [s3 [[]|e]]; [|done].
    injection Heq as -> ->.
    exists (printed s3), (length (row :: rows)),
      (length (duplicate_days seen sorted)).
    split; [done|]. split; [done|].
    unfold reported. simpl.
    destruct (0 <? _)%nat; simpl; rewrite <- ?app_assoc; done.
Qed.

(** A batch write that raises is raised by the call, after the error is
    printed; nothing follows it, and the list stays sorted. *)
Theorem write_failure_is_raised self s s1 existing_data seen rows w e :
  daily_data s <> [] ->
  get_existing_data self s = (s1, Ok existing_data) ->
  existing_dates_of (or_headers existing_data) = Ok seen ->
  Forall (fun day => exists d, strptime (date day) = Ok d) (daily_data s) ->
  format_rows (new_days seen (sort_by_date (daily_data s))) = Ok rows ->
  rows <> [] ->
  values_append (append_request self rows) (world s1) = (w, Raise e) ->
  append_daily_data self s
  = (say (MsgAppendError e)
       (sent (ValuesAppend (append_request self rows)) w (sorted_in_place s1)),
     Raise e).
Proof.
  intros Hne Hread Hseen Hparse Hrows Hrows_ne Hw.
  rewrite (append_daily_data_written self s s1 existing_data seen rows) by done.
  unfold try_except. rewrite write_new_rows_run. simpl. by rewrite Hw.
Qed.

(** A row without cells below the first row of the sheet stops the call on
    an IndexError before the list is sorted and before anything is
    written. *)
Theorem blank_row_stops_the_call self s s1 first_row rows :
  daily_data s <> [] ->
  get_existing_data self s = (s1, Ok (first_row :: rows)) ->
  [] ∈ rows ->
  append_daily_data self s = (say (MsgAppendError IndexError) s1, Raise IndexError).
Proof.
  intros Hne Hread Hin. rewrite append_daily_data_run by done.
  rewrite (append_body_run _ _ _ _ Hread). unfold or_headers, existing_dates_of.
  destruct rows as [|row rows]; [by apply elem_of_nil in Hin|].
  replace (1 <? length (first_row :: row :: rows))%nat with true by done.
  simpl tail. by rewrite (first_cells_blank _ Hin).
Qed.

(** A record whose date does not parse stops the call, new or duplicate:
    the call raises after the reading and writes nothing. *)
Theorem unparsable_date_stops_the_call self s s1 existing_data seen day e :
  get_existing_data self s = (s1, Ok existing_data) ->
  existing_dates_of (or_headers existing_data) = Ok seen ->
  day ∈ daily_data s ->
  strptime (date day) = Raise e ->
  exists e',
    append_daily_data self s
    = (say (MsgAppendError e') (sorted_in_place s1), Raise e') /\
    issued (append_daily_data self s).1 = issued s ++ [read_request self].
Proof.
  intros Hread Hseen Hin Hday.
  assert (Hne : daily_data s <> []).
  { intros Hnil. rewrite Hnil in Hin. by apply elem_of_nil in Hin. }
  destruct (get_existing_data_ok self s) as (s1' & ex' & Hread' & Hdd & _ & _ & Hi).
  rewrite Hread in Hread'. injection Hread' as <- <-.
  destruct (filter_new_raises seen (sort_by_date (daily_data s1)) ([], 0%nat) day e)
    as [e' He']; [by rewrite Hdd, sort_by_date_perm|done|].
  exists e'. rewrite append_daily_data_run by done.
  rewrite (append_body_run _ _ _ _ Hread), Hseen, He'. by simpl.
Qed.

(** The date format is requested only for a tab that is found and whose id
    is not 0: without one the call ends after the look-up. *)
Theorem no_date_format_without_an_id self new_rows duplicate_count s w result w' sheets :
  values_append (append_request self new_rows) (world s) = (w, Ok result) ->
  spreadsheets_get (spreadsheet_id self) w = (w', Ok sheets) ->
  find_sheet (sheet_name self) sheets = None \/
  find_sheet (sheet_name self) sheets = Some 0 ->
  write_new_rows self new_rows duplicate_count s
  = (reported new_rows duplicate_count
       (sent (SpreadsheetsGet (spreadsheet_id self)) w'
          (sent (ValuesAppend (append_request self new_rows)) w s)),
     Ok (Some result)).
Proof.
  intros Hw Hg Hfind. rewrite write_new_rows_run, Hw, get_sheet_id_run. simpl.
  rewrite Hg. by destruct Hfind as [-> | ->].
Qed.

(** The look-up of the tab: the id of the first tab with the name. *)
Theorem find_sheet_is_the_first_match name sheets i :
  find_sheet name sheets = Some i <->
  exists before sheet after,
    sheets = before ++ sheet :: after /\
    title sheet = name /\ sheetId sheet = i /\
    Forall (fun sh => title sh <> name) before.
Proof.
  split.
  - induction sheets as [|sh sheets IH]; simpl; [done|].
    destruct (String.eqb_spec (title sh) name) as [Heq|Hne].
    + intros [= <-]. by exists [], sh, sheets.
    + intros H. destruct (IH H) as (before & sheet & after & -> & Ht & Hi & Hall).
      exists (sh :: before), sheet, after. split_and!; try done. by constructor.
  - intros (before & sheet & after & -> & Ht & Hi & Hall).
    induction Hall as [|sh before Hne _ IH]; simpl.
    + rewrite <- Ht, String.eqb_refl. by rewrite Hi.
    + destruct (String.eqb_spec (title sh) name); [done|apply IH].
Qed.

(** [get_sheet_id] never raises and prints nothing, whatever the service
    does: a look-up that fails gives [None]. *)
Theorem get_sheet_id_never_raises self s :
  exists w sheet_id,
    get_sheet_id self s
    = (sent (SpreadsheetsGet (spreadsheet_id self)) w s, Ok sheet_id) /\
    (forall e, spreadsheets_get (spreadsheet_id self) (world s) = (w, Raise e) ->
               sheet_id = None) /\
    (forall sheets, spreadsheets_get (spreadsheet_id self) (world s) = (w, Ok sheets) ->
                    sheet_id = find_sheet (sheet_name self) sheets).
Proof.
  rewrite get_sheet_id_run.
  destruct (spreadsheets_get _ _) as [w [sheets|e]]; do 2 eexists;
    (split; [reflexivity|]); split; congruence.
Qed.

(** The batch of a call that returns an answer. The call has sent the
    reading, then one batch write, then only requests of the date format.
    The rows of the batch are the rows of the records the call keeps, one
    row for each in the same order; the records it keeps are the records
    of the list whose date is not among the dates read from the sheet,
    each as often as the list has it, oldest first. *)
Theorem batch_is_in_date_order self s s' result :
  append_daily_data self s = (s', Ok (Some result)) ->
  exists s1 existing_data (seen : gset string) kept rows rest,
    get_existing_data self s = (s1, Ok existing_data) /\
    existing_dates_of (or_headers existing_data) = Ok seen /\
    issued s' = issued s ++ read_request self
                         :: ValuesAppend (append_request self rows) :: rest /\
    Forall cosmetic rest /\
    ar_values (append_request self rows) = rows /\
    Forall2 (fun day row => format_row day = Ok row) kept rows /\
    kept ≡ₚ filter (fun day => date day ∉ seen) (daily_data s) /\
    StronglySorted date_le kept.
Proof.
  intros Hrun.
  assert (Hne : daily_data s <> []).
  { intros Hnil. destruct s as [w i p d]. simpl in Hnil. subst d.
    rewrite append_daily_data_nil in Hrun. discriminate Hrun. }
  destruct (append_daily_data_ok_inv _ _ _ _ Hne Hrun)
    as (s1 & ex & seen & rows & Hread & Hseen & Hrows & _ & _ & Heq).
  destruct rows as [|row rows].
  { unfold mbind, M_bind, print in Heq. rewrite print_duplicates_run in Heq.
    discriminate Heq. }
  destruct (write_new_rows_issued self (row :: rows)
              (length (duplicate_days seen (sort_by_date (daily_data s))))
              (sorted_in_place s1)) as (rest & Hi & Hc).
  rewrite <- Heq in Hi. simpl in Hi.
  destruct (get_existing_data_ok self s) as (s1' & ex' & Hread' & _ & _ & _ & Hi1).
  rewrite Hread in Hread'. injection Hread' as <- <-.
  exists s1, ex, seen, (new_days seen (sort_by_date (daily_data s))),
    (row :: rows), rest.
  split_and!; try done.
  - rewrite Hi, Hi1, <- app_assoc. done.
  - by apply format_rows_Forall.
  - unfold new_days. by rewrite sort_by_date_perm.
  - apply new_days_Sorted.
Qed.

End MoreRuns.

(** ** Negative byte counts *)

Lemma nearest_double_small_neg p :
  Z.pos p < 2 ^ 53 ->
  exists m,
    nearest_double (Z.neg p) = S754_finite true m (Z.pos (digits2_pos p) - 53) /\
    Z.pos (digits2_pos m) = 53 /\
    Z.pos m = Z.pos p * 2 ^ (53 - Z.pos (digits2_pos p)).
Proof.
  intros Hp. pose proof (digits2_pos_bounds p) as [Hlo Hhi].
  set (d := Z.pos (digits2_pos p)) in *.
  assert (Hd : 1 <= d <= 53).
  { split; [lia|]. destruct (Z_lt_le_dec 53 d) as [H|H]; [|done].
    assert (2 ^ 53 <= 2 ^ (d - 1)) by (apply Z.pow_le_mono_r; lia). lia. }
  unfold nearest_double, binary_normalize, binary_round, shl_align.
  fold d. rewrite Z.add_0_r, fexp_eq by lia. rewrite Z.sub_0_r.
  destruct (d - 53) as [|q|q] eqn:Hq; try lia.
  - exists p. rewrite binary_round_aux_canonical by (fold d; lia).
    split_and!; try done; [fold d; lia|].
    replace (53 - d) with 0 by lia. lia.
  - assert (Hm : Z.pos (Pos.iter xO p q) = Z.pos p * 2 ^ (53 - d)).
    { rewrite pos_iter_xO. f_equal. f_equal. lia. }
    assert (Hdm : Z.pos (digits2_pos (Pos.iter xO p q)) = 53).
    { apply digits2_pos_unique. rewrite Hm.
      replace (2 ^ (53 - 1)) with (2 ^ (d - 1) * 2 ^ (53 - d))
        by (rewrite <- Z.pow_add_r by lia; f_equal; lia).
      replace (2 ^ 53) with (2 ^ d * 2 ^ (53 - d))
        by (rewrite <- Z.pow_add_r by lia; f_equal; lia).
      assert (0 < 2 ^ (53 - d)) by (apply Z.pow_pos_nonneg; lia). nia. }
    exists (Pos.iter xO p q).
    rewrite binary_round_aux_canonical by (try done; lia). done.
Qed.

Lemma string_app_assoc (s1 s2 s3 : string) :
  (s1 +:+ s2) +:+ s3 = s1 +:+ (s2 +:+ s3).
Proof.
  induction s1 as [|c s1 IH]; [done|].
  change (String c ((s1 +:+ s2) +:+ s3) = String c (s1 +:+ s2 +:+ s3)).
  by f_equal.
Qed.

Lemma two_decimals_whole n :
  0 <= n -> two_decimals (n * 100) = str_of_int n +:+ ".00".
Proof.
  intros Hn. unfold two_decimals.
  rewrite Z.div_mul by lia.
  replace (n * 100 / 10) with (n * 10)
    by (apply (Z.div_unique _ 10 _ 0); lia).
  replace (n * 10 mod 10) with 0 by (symmetry; apply Z.mod_mul; lia).
  replace (n * 100 mod 10) with 0
    by (symmetry; replace (n * 100) with (n * 10 * 10) by lia; apply Z.mod_mul; lia).
  done.
Qed.

(** A negative count is never scaled: it is printed in bytes, with its
    sign. *)
Theorem format_bytes_negative n :
  - 2 ^ 53 < n < 0 ->
  format_bytes n = Ok ("-" +:+ str_of_int (- n) +:+ ".00 B").
Proof.
  intros [Hlo Hhi]. destruct n as [|p|p]; try lia.
  destruct (nearest_double_small_neg p ltac:(lia)) as (m & Hn & Hd & Hm).
  unfold format_bytes, units.
  cbn [format_bytes_loop lt_1024 fmt_2f]. unfold float_of_int. rewrite Hn.
  cbn [is_finite mbind mret outcome_bind outcome_ret obind format_2f sign_prefix].
  replace (Z.pos (digits2_pos p) - 53)
    with (- (53 - Z.pos (digits2_pos p)) - 0) by lia.
  pose proof (digits2_pos_bounds p) as [Hlo' _].
  assert (Z.pos (digits2_pos p) <= 53).
  { destruct (Z_lt_le_dec 53 (Z.pos (digits2_pos p))) as [H|H]; [|done].
    assert (2 ^ 53 <= 2 ^ (Z.pos (digits2_pos p) - 1)) by (apply Z.pow_le_mono_r; lia).
    lia. }
  rewrite (hundredths_shifted m (Z.pos p) _ _ Hm) by lia.
  change (2 ^ 0) with 1. rewrite round_half_even_1, two_decimals_whole by lia.
  change (- Z.neg p) with (Z.pos p).
  change (Z.neg p <? 1024) with true. cbn iota.
  by rewrite !string_app_assoc.
Qed.

(** ** The fetcher *)

Lemma insert_by_date_desc_perm x l : insert_by_date_desc x l ≡ₚ x :: l.
Proof.
  induction l as [|y l IH]; simpl; [done|].
  destruct (String.leb (date y) (date x)); [done|].
  rewrite IH. apply Permutation_swap.
Qed.

Lemma sort_by_date_desc_perm l : sort_by_date_desc l ≡ₚ l.
Proof.
  induction l as [|x l IH]; simpl; [done|].
  rewrite insert_by_date_desc_perm. by rewrite IH.
Qed.

Lemma insert_by_date_desc_Sorted x l :
  Sorted date_ge l -> Sorted date_ge (insert_by_date_desc x l).
Proof.
  induction 1 as [|y l Hs IH Hhd]; simpl.
  - by repeat constructor.
  - destruct (String.leb (date y) (date x)) eqn:Hxy.
    + constructor; [by constructor|]. by constructor.
    + constructor; [done|].
      assert (Hyx : date_ge y x).
      { unfold date_ge, date_le.
        destruct (String.leb_total (date x) (date y)) as [H|H]; [done|congruence]. }
      destruct Hhd as [|z l Hyz]; simpl; [by constructor|].
      destruct (String.leb (date z) (date x)); by constructor.
Qed.

Lemma sort_by_date_desc_Sorted l : Sorted date_ge (sort_by_date_desc l).
Proof.
  induction l as [|x l IH]; simpl; [constructor|].
  by apply insert_by_date_desc_Sorted.
Qed.

Lemma records_of_Forall2 groups records :
  records_of groups = Fine records ->
  Forall2 (fun g r => exists day, group_of g = Fine day /\ daily_record_of day = Ok r)
          groups records.
Proof.
  revert records. induction groups as [|g groups IH]; simpl; intros records Hr.
  - injection Hr as <-. constructor.
  - destruct (group_of g) as [day|e] eqn:Hg; simpl in Hr; [|done].
    destruct (daily_record_of day) as [r|e] eqn:Hd; simpl in Hr; [|done].
    destruct (records_of groups) as [rs|e] eqn:Hrs; simpl in Hr; [|done].
    injection Hr as <-. constructor; [by exists day|by apply IH].
Qed.

Lemma records_of_fails groups g e :
  g ∈ groups -> group_of g = Failed e -> exists e', records_of groups = Failed e'.
Proof.
  induction groups as [|g' groups IH]; intros Hin Hg; [by apply elem_of_nil in Hin|].
  apply elem_of_cons in Hin as [->|Hin]; simpl.
  - rewrite Hg. by eexists.
  - destruct (group_of g') as [day|e1]; simpl; [|by eexists].
    destruct (daily_record_of day) as [r|e1]; simpl; [|by eexists].
    destruct (IH Hin Hg) as [e' ->]. by eexists.
Qed.

Opaque records_of.

Lemma read_response_Some response l :
  (read_response response).2 = Fine (Some l) ->
  exists body zone rest groups records,
    status_code response = 200 /\ json_body response = Fine body /\
    (errors body = None \/ errors body = Some []) /\
    zones_of body = zone :: rest /\
    httpRequests1dGroups zone = Some groups /\ groups <> [] /\
    records_of groups = Fine records /\ l = sort_by_date_desc records /\
    (read_response response).1 = [].
Proof.
  unfold read_response.
  destruct (status_code response =? 200) eqn:Hs; simpl; [|done].
  apply Z.eqb_eq in Hs.
  destruct (json_body response) as [body|e]; simpl; [|done].
  assert (He : errors body = None \/ errors body = Some [] \/
               exists e es, errors body = Some (e :: es)).
  { destruct (errors body) as [[|e es]|]; eauto. }
  destruct He as [He|[He|(e & es & He)]]; rewrite He; simpl; [| |done].
  all: destruct (zones_of body) as [|zone rest] eqn:Hz; simpl; [done|].
  all: destruct (httpRequests1dGroups zone) as [[|g groups]|] eqn:Hg;
         simpl; [done| |done].
  all: destruct (records_of (g :: groups)) as [records|e] eqn:Hrec; [|by cbn].
  all: cbn; intros [= <-].
  all: exists body, zone, rest, (g :: groups), records; rewrite He; naive_solver.
Qed.

Transparent records_of.

Lemma reported_fetch_Fine run v :
  (reported_fetch run).2 = Fine v -> run.2 = Fine v /\ (reported_fetch run).1 = run.1.
Proof.
  unfold reported_fetch. destruct run as [lines [a|e]]; simpl; [|done].
  by intros [= ->].
Qed.

Lemma fetch_Some self now post l :
  returned (get_last_30days_analytics self now post) = Fine (Some l) ->
  exists start_date response,
    days_before 30 now = Fine start_date /\
    post (request_of self (strftime start_date) (strftime now)) = Fine response /\
    (read_response response).2 = Fine (Some l) /\
    said (get_last_30days_analytics self now post)
    = [MsgPeriod (strftime start_date) (strftime now)] /\
    posted (get_last_30days_analytics self now post)
    = [request_of self (strftime start_date) (strftime now)].
Proof.
  unfold get_last_30days_analytics.
  destruct (days_before 30 now) as [start_date|e]; simpl; [|done].
  intros Hr. apply reported_fetch_Fine in Hr as [Hr Hl]. rewrite Hl.
  destruct (post _) as [response|e] eqn:Hp; simpl in *; [|done].
  exists start_date, response. repeat split; try done.
  apply read_response_Some in Hr as (?&?&?&?&?&?&?&?&?&?&?&?&?&->). done.
Qed.

(** What the fetcher returns, when it returns a list: the provider
    answered the request of the window, and the list holds one record for
    each group of the first zone of that answer, each built from its
    group, sorted by date, newest first; the list is not empty. *)
Theorem fetched_days_are_newest_first self now post l :
  returned (get_last_30days_analytics self now post) = Fine (Some l) ->
  exists start_date response body zone rest groups records,
    days_before 30 now = Fine start_date /\
    post (request_of self (strftime start_date) (strftime now)) = Fine response /\
    status_code response = 200 /\
    json_body response = Fine body /\
    zones_of body = zone :: rest /\
    httpRequests1dGroups zone = Some groups /\
    Forall2 (fun g r => exists day, group_of g = Fine day /\ daily_record_of day = Ok r)
            groups records /\
    l ≡ₚ records /\ StronglySorted (fun x y => date_le y x) l /\ l <> [].
Proof.
  intros Hr. apply fetch_Some in Hr as (start_date & response & Hd & Hp & Hr & _).
  apply read_response_Some in Hr
    as (body & zone & rest & groups & records & Hs & Hb & _ & Hz & Hg & Hne & Hrec & -> & _).
  exists start_date, response, body, zone, rest, groups, records.
  split_and!; try done.
  - by apply records_of_Forall2.
  - apply sort_by_date_desc_perm.
  - apply Sorted_StronglySorted; [|apply sort_by_date_desc_Sorted].
    intros x y z Hxy Hyz. unfold date_ge in *. eapply date_le_trans; eauto.
  - intros Hnil. apply records_of_Forall2 in Hrec.
    assert (Hlen : length (sort_by_date_desc records) = length groups).
    { rewrite sort_by_date_desc_perm. symmetry. by eapply Forall2_length. }
    rewrite Hnil in Hlen. destruct groups; [done|simpl in Hlen; lia].
Qed.

(** A failure inside the [try] is printed, as the last line, and raised
    again; a run that returns prints no such line. The request was sent
    either way. *)
Theorem fetch_failures_are_printed_and_raised self now post start_date :
  days_before 30 now = Fine start_date ->
  let f := get_last_30days_analytics self now post in
  posted f = [request_of self (strftime start_date) (strftime now)] /\
  (forall e, returned f = Failed e ->
     exists lines, said f = MsgPeriod (strftime start_date) (strftime now) :: lines
                            ++ [MsgFetchError e] /\
                   forall e', MsgFetchError e' ∉ lines) /\
  (forall v, returned f = Fine v -> forall e, MsgFetchError e ∉ said f).
Proof.
  intros Hd. unfold get_last_30days_analytics. rewrite Hd. simpl.
  split; [done|].
  set (run := match post _ with Fine response => read_response response | Failed e => _ end).
  assert (Hrun : forall e', MsgFetchError e' ∉ run.1).
  { intros e'. unfold run. destruct (post _) as [response|e]; simpl;
      [|by apply not_elem_of_nil].
    unfold read_response.
    destruct (status_code response =? 200); simpl.
    - destruct (json_body response) as [body|e]; simpl; [|by apply not_elem_of_nil].
      destruct (errors body) as [[|? ?]|]; simpl.
      2: { intros Hin. apply list_elem_of_singleton in Hin. done. }
      all: destruct (zones_of body) as [|zone rest]; simpl; [by apply not_elem_of_nil|].
      all: destruct (default [] (httpRequests1dGroups zone)); simpl;
             [|by apply not_elem_of_nil].
      all: intros Hin; apply list_elem_of_singleton in Hin; done.
    - intros Hin. apply elem_of_cons in Hin as [?|Hin]; [done|].
      apply list_elem_of_singleton in Hin. done. }
  clearbody run. unfold reported_fetch. destruct run as [lines [v|e]]; simpl in *.
  - split; [done|]. intros v' _ e Hin.
    apply elem_of_cons in Hin as [?|Hin]; [done|]. by apply (Hrun e).
  - split; [|done]. intros e' [= <-]. by exists lines.
Qed.

Opaque records_of.

(** One day of the response without its date, its sums or its visitors
    fails the whole fetch: no day is returned. *)
Theorem one_bad_day_fails_the_fetch self now post start_date response body
    zone rest groups g e :
  days_before 30 now = Fine start_date ->
  post (request_of self (strftime start_date) (strftime now)) = Fine response ->
  status_code response = 200 ->
  json_body response = Fine body ->
  errors body = None \/ errors body = Some [] ->
  zones_of body = zone :: rest ->
  httpRequests1dGroups zone = Some groups ->
  g ∈ groups -> group_of g = Failed e ->
  exists e', returned (get_last_30days_analytics self now post) = Failed e' /\
             last (said (get_last_30days_analytics self now post))
             = Some (MsgFetchError e').
Proof.
  intros Hd Hp Hs Hb He Hz Hg Hin Hfail.
  destruct (records_of_fails _ _ _ Hin Hfail) as [e' He'].
  exists e'. unfold get_last_30days_analytics. rewrite Hd. cbn zeta. rewrite Hp.
  assert (Hr : read_response response = ([], Failed e')).
  { unfold read_response. rewrite Hs, Hb. simpl.
    destruct groups as [|g0 groups]; [by apply elem_of_nil in Hin|].
    destruct He as [-> | ->]; rewrite Hz, Hg; simpl; by rewrite He'. }
  rewrite Hr. simpl. done.
Qed.

Transparent records_of.

Lemma days_before_within n y m d :
  Z.of_nat n < d ->
  days_before n {| year := y; month := m; day := d |}
  = Fine {| year := y; month := m; day := d - Z.of_nat n |}.
Proof.
  revert d. induction n as [|n IH]; intros d Hd.
  - simpl. by rewrite Z.sub_0_r.
  - cbn [days_before]. unfold prev_day. cbn [day month year].
    replace (1 <? d) with true by (symmetry; apply Z.ltb_lt; lia).
    cbn. rewrite IH by lia. do 2 f_equal. lia.
Qed.

Lemma days_before_S n d : days_before (S n) d = prev_day d ≫= days_before n.
Proof. reflexivity. Qed.

Lemma days_before_add a b d :
  days_before (a + b) d = days_before a d ≫= days_before b.
Proof.
  revert d. induction a as [|a IH]; intros d; [done|].
  cbn [days_before Nat.add]. destruct (prev_day d) as [d'|e]; [|done].
  cbn. apply IH.
Qed.

(** On the first day of a month the window of thirty days starts in the
    month before, on its first day when that month has 30 days and on its
    second when it has 31; from the first of March it starts on the 30th
    of January, on the 31st in a leap year. *)
Theorem window_from_the_first_of_a_month y m :
  2 <= y -> 1 <= m <= 12 ->
  days_before 30 {| year := y; month := m; day := 1 |}
  = Fine (if m =? 1 then {| year := y - 1; month := 12; day := 2 |}
          else if m =? 3
               then {| year := y; month := 1; day := if is_leap y then 31 else 30 |}
               else {| year := y; month := m - 1;
                       day := days_in_month y (m - 1) - 29 |}).
Proof.
  intros Hy Hm.
  rewrite (days_before_S 29). unfold prev_day at 1. cbn [day month year].
  change (1 <? 1) with false. cbv iota.
  destruct (m =? 1) eqn:Hm1.
  - apply Z.eqb_eq in Hm1 as ->. change (1 <? 1) with false. cbv iota.
    replace (1 <? y) with true by (symmetry; apply Z.ltb_lt; lia).
    cbn [mbind attempt_bind]. by rewrite days_before_within.
  - apply Z.eqb_neq in Hm1.
    replace (1 <? m) with true by (symmetry; apply Z.ltb_lt; lia).
    cbn [mbind attempt_bind].
    destruct (m =? 3) eqn:Hm3.
    + apply Z.eqb_eq in Hm3 as ->. change (3 - 1) with 2.
      unfold days_in_month. change (2 =? 2) with true. cbv iota.
      destruct (is_leap y).
      * change 29%nat with (28 + 1)%nat. rewrite days_before_add.
        rewrite days_before_within by (simpl; lia). reflexivity.
      * change 29%nat with (27 + 2)%nat. rewrite days_before_add.
        rewrite days_before_within by (simpl; lia). reflexivity.
    + apply Z.eqb_neq in Hm3.
      apply days_before_within. unfold days_in_month.
      replace (m - 1 =? 2) with false by (symmetry; apply Z.eqb_neq; lia).
      destruct (_ || _); simpl; lia.
Qed.

(** ** The loader *)

Lemma contains_true key c :
  contains key c = Fine true ->
  (exists v, item c key = Fine v) \/ item c key = Failed TypeError.
Proof.
  destruct c; simpl; try done; eauto.
  intros [= Hm]. apply bool_decide_eq_true in Hm as [v ->]. eauto.
Qed.

Lemma validate_fields_Fine config section fields :
  fields <> [] ->
  validate_fields config section fields = Fine tt <->
  exists members in_section,
    item config section = Fine (JObj in_section) /\
    config = JObj members /\
    Forall (filled in_section) fields.
Proof.
  intros Hne. split.
  - intros Hv.
    assert (Hs : exists sec, item config section = Fine sec).
    { destruct fields as [|f fs]; [done|]. simpl in Hv.
      destruct (item config section); [eauto|done]. }
    destruct Hs as [sec Hs].
    assert (Hall : forall f, f ∈ fields ->
              exists sm, sec = JObj sm /\ filled sm f).
    { clear Hne. induction fields as [|f fs IH]; intros f' Hin;
        [by apply elem_of_nil in Hin|].
      simpl in Hv. rewrite Hs in Hv. simpl in Hv.
      destruct (contains f sec) as [[|]|] eqn:Hc; simpl in Hv; try done.
      destruct (item sec f) as [v|] eqn:Hi; simpl in Hv; [|done].
      destruct (truthy v) eqn:Ht; simpl in Hv; [|done].
      apply elem_of_cons in Hin as [->|Hin]; [|by apply IH].
      destruct sec; simpl in Hi; try done.
      eexists. split; [done|]. exists v. split; [|done].
      destruct (member f members); [by injection Hi as ->|done]. }
    destruct fields as [|f fs]; [done|].
    destruct (Hall f) as (sm & -> & _); [by left|].
    destruct config as [| | | | | |members]; try done.
    exists members, sm. split; [done|]. split; [done|].
    apply Forall_forall. intros f' Hin.
    destruct (Hall f' Hin) as (sm' & [= <-] & Hf). done.
  - intros (members & sm & Hs & -> & Hall). clear Hne.
    induction Hall as [|f fs (v & Hm & Ht) _ IH]; [done|].
    simpl in *. rewrite Hs. simpl. rewrite Hm. simpl.
    by rewrite Ht.
Qed.

Opaque validate_fields.

(** The loader returns a configuration exactly when the file parses to an
    object whose two sections are objects that hold each of their fields
    with a value that is not empty; it returns it as it was parsed. *)
Theorem load_config_accepts config_path file config :
  load_config config_path file = Fine config <->
  file = Parsed config /\
  exists members cloudflare google_sheets,
    config = JObj members /\
    member "cloudflare" members = Some (JObj cloudflare) /\
    member "google_sheets" members = Some (JObj google_sheets) /\
    filled cloudflare "api_token" /\ filled cloudflare "zone_id" /\
    filled google_sheets "credentials_file" /\
    filled google_sheets "spreadsheet_id" /\
    filled google_sheets "sheet_name".
Proof.
  assert (Hitem : forall members section sm,
            item (JObj members) section = Fine (JObj sm) <->
            member section members = Some (JObj sm)).
  { intros members section sm. simpl. destruct (member section members); naive_solver. }
  split.
  - destruct file as [| | |parsed]; simpl; try done.
    destruct (validate_config parsed) as [[]|] eqn:Hv; simpl; [|done].
    intros [= ->]. split; [done|].
    unfold validate_config, required_fields in Hv. simpl validate_sections in Hv.
    destruct (contains "cloudflare" config) as [[|]|]; simpl in Hv; try done.
    destruct (validate_fields config "cloudflare" _) as [[]|] eqn:H1;
      simpl in Hv; [|done].
    destruct (contains "google_sheets" config) as [[|]|]; simpl in Hv; try done.
    destruct (validate_fields config "google_sheets" _) as [[]|] eqn:H2;
      simpl in Hv; [|done].
    apply validate_fields_Fine in H1 as (members & cf & Hcf & -> & Fcf); [|done].
    apply validate_fields_Fine in H2 as (members' & gs & Hgs & [= <-] & Fgs); [|done].
    exists members, cf, gs. apply Hitem in Hcf, Hgs.
    repeat match goal with
           | H : Forall _ (_ :: _) |- _ => apply Forall_cons in H as [? H]
           end.
    done.
  - intros (-> & members & cf & gs & -> & Hcf & Hgs & F1 & F2 & F3 & F4 & F5).
    simpl. unfold validate_config, required_fields. simpl validate_sections.
    assert (H1 : validate_fields (JObj members) "cloudflare" ["api_token"; "zone_id"]%string
                 = Fine tt).
    { apply validate_fields_Fine; [done|]. exists members, cf.
      split; [by apply Hitem|]. split; [done|]. by repeat constructor. }
    assert (H2 : validate_fields (JObj members) "google_sheets"
                   ["credentials_file"; "spreadsheet_id"; "sheet_name"]%string
                 = Fine tt).
    { apply validate_fields_Fine; [done|]. exists members, gs.
      split; [by apply Hitem|]. split; [done|]. by repeat constructor. }
    rewrite H1, H2. simpl contains. rewrite Hcf, Hgs.
    rewrite !bool_decide_eq_true_2 by eauto. done.
Qed.

Transparent validate_fields.

Lemma validate_fields_Failed members section in_section fields e :
  member section members = Some in_section ->
  validate_fields (JObj members) section fields = Failed e ->
  exists passed field rest,
    fields = passed ++ field :: rest /\
    Forall (fun f => exists sm, in_section = JObj sm /\ filled sm f) passed /\
    (e = MissingField section field /\ contains field in_section = Fine false \/
     e = EmptyField section field /\
       (exists v, item in_section field = Fine v /\ truthy v = false) \/
     e = TypeError /\ forall sm, in_section <> JObj sm).
Proof.
  intros Hm. induction fields as [|f fs IH]; [done|].
  simpl. rewrite Hm. simpl.
  destruct (contains f in_section) as [[|]|e0] eqn:Hc; simpl.
  - destruct (item in_section f) as [v|e1] eqn:Hi; simpl.
    + destruct (truthy v) eqn:Ht; simpl.
      * intros Hv. destruct (IH Hv) as (passed & field & rest & -> & Hp & H).
        exists (f :: passed), field, rest. split; [done|]. split; [|done].
        constructor; [|done].
        destruct in_section; simpl in Hi; try done.
        eexists. split; [done|]. exists v. split; [|done].
        destruct (member f members0); [by injection Hi as ->|done].
      * intros [= <-]. exists [], f, fs. split; [done|]. split; [done|].
        right. left. eauto.
    + intros [= <-]. exists [], f, fs. split; [done|]. split; [done|].
      right. right.
      destruct in_section; simpl in Hc, Hi; try done; try by injection Hi as <-.
      injection Hc as Hc. apply bool_decide_eq_true in Hc as [v Hv].
      by rewrite Hv in Hi.
  - intros [= <-]. exists [], f, fs. split; [done|]. split; [done|]. by left.
  - intros [= <-]. exists [], f, fs. split; [done|]. split; [done|].
    right. right.
    destruct in_section; simpl in Hc; try done; by injection Hc as <-.
Qed.

Opaque validate_fields.

(** The exception of a configuration that is an object but is rejected
    names the defect the first failing check meets. The checks go section
    by section in the order of [required_fields], and in a section field
    by field: the sections before the one named are objects that hold
    each of their fields with a value that is not empty, the fields before
    the one named are held with such a value, and the exception is that of
    a section that is missing, of a field that is missing from its
    section, of a field whose value is empty, or a TypeError for a section
    that is no object. It is never a KeyError. *)
Theorem validate_config_names_the_defect members e :
  validate_config (JObj members) = Failed e ->
  exists before section fields after,
    required_fields = before ++ (section, fields) :: after /\
    Forall (fun sf => exists sm, member sf.1 members = Some (JObj sm) /\
                                 Forall (filled sm) sf.2) before /\
    (e = MissingSection section /\ member section members = None \/
     exists in_section passed field rest,
       member section members = Some in_section /\
       fields = passed ++ field :: rest /\
       Forall (fun f => exists sm, in_section = JObj sm /\ filled sm f) passed /\
       (e = MissingField section field /\ contains field in_section = Fine false \/
        e = EmptyField section field /\
          (exists v, item in_section field = Fine v /\ truthy v = false) \/
        e = TypeError /\ forall sm, in_section <> JObj sm)).
Proof.
  unfold validate_config, required_fields. simpl validate_sections.
  destruct (member "cloudflare" members) as [cf|] eqn:Hcf.
  2:{ rewrite bool_decide_eq_false_2 by (by intros [? ?]). simpl.
      intros [= <-]. exists [], "cloudflare"%string. do 2 eexists.
      split; [reflexivity|]. split; [constructor|]. by left. }
  rewrite bool_decide_eq_true_2 by eauto. simpl.
  destruct (validate_fields _ "cloudflare" _) as [[]|e1] eqn:H1; simpl.
  2:{ intros [= <-]. exists [], "cloudflare"%string. do 2 eexists.
      split; [reflexivity|]. split; [constructor|]. right.
      destruct (validate_fields_Failed _ _ _ _ _ Hcf H1)
        as (passed & field & rest & Hf & Hp & H).
      by exists cf, passed, field, rest. }
  apply validate_fields_Fine in H1 as (members' & sm & Hsm & [= <-] & Fsm); [|done].
  assert (Hcf' : member "cloudflare" members = Some (JObj sm)).
  { simpl in Hsm. rewrite Hcf in Hsm. by injection Hsm as ->. }
  destruct (member "google_sheets" members) as [gs|] eqn:Hgs.
  2:{ rewrite bool_decide_eq_false_2 by (by intros [? ?]). simpl.
      intros [= <-].
      exists [("cloudflare", ["api_token"; "zone_id"])]%string, "google_sheets"%string.
      do 2 eexists. split; [reflexivity|]. split; [|by left].
      constructor; [|constructor]. by exists sm. }
  rewrite bool_decide_eq_true_2 by eauto. simpl.
  destruct (validate_fields _ "google_sheets" _) as [[]|e2] eqn:H2; simpl; [done|].
  intros [= <-].
  exists [("cloudflare", ["api_token"; "zone_id"])]%string, "google_sheets"%string.
  do 2 eexists. split; [reflexivity|]. split.
  { constructor; [|constructor]. by exists sm. }
  right.
  destruct (validate_fields_Failed _ _ _ _ _ Hgs H2)
    as (passed & field & rest & Hf & Hp & H).
  by exists gs, passed, field, rest.
Qed.

Transparent validate_fields.

(** ** The loop *)

Lemma total_cons (field : DailyRecord -> Z) day l :
  total field (day :: l) = field day + total field l.
Proof.
  unfold total. simpl.
  assert (H : forall acc, fold_left (fun acc day => acc + field day) l acc
                          = acc + fold_left (fun acc day => acc + field day) l 0).
  { induction l as [|x l IH]; intros acc; simpl; [lia|].
    rewrite IH, (IH (0 + field x)). lia. }
  rewrite H. lia.
Qed.

Lemma total_perm (field : DailyRecord -> Z) l l' :
  l ≡ₚ l' -> total field l = total field l'.
Proof.
  induction 1 as [|x l l' _ IH|x y l|l l' l'' _ IH1 _ IH2];
    rewrite ?total_cons; try lia; congruence.
Qed.

Lemma head_is_least l first :
  StronglySorted date_le l -> head l = Some first ->
  first ∈ l /\ forall day, day ∈ l -> date_le first day.
Proof.
  intros Hs Hh. destruct l as [|x l]; [done|]. injection Hh as ->.
  split; [by left|]. intros day Hin.
  apply StronglySorted_inv in Hs as [_ Hall].
  apply elem_of_cons in Hin as [->|Hin].
  - unfold date_le. destruct (String.leb_total (date first) (date first)); done.
  - rewrite Forall_forall in Hall. by apply Hall.
Qed.

Lemma last_is_greatest l newest :
  StronglySorted date_le l -> last l = Some newest ->
  newest ∈ l /\ forall day, day ∈ l -> date_le day newest.
Proof.
  induction 1 as [|x l Hs IH Hall]; [done|].
  destruct l as [|y l].
  - intros [= ->]. split; [by left|]. intros day Hin.
    apply list_elem_of_singleton in Hin as ->.
    unfold date_le. destruct (String.leb_total (date newest) (date newest)); done.
  - intros Hl. change (last (y :: l) = Some newest) in Hl.
    destruct (IH Hl) as [Hin Hmax]. split; [by right|].
    intros day Hday. apply elem_of_cons in Hday as [->|Hday]; [|by apply Hmax].
    rewrite Forall_forall in Hall. by apply Hall.
Qed.

(** The first five lines of the summary. *)
Lemma summary_lines daily_data :
  daily_data <> [] ->
  exists first newest rest,
    head daily_data = Some first /\ last daily_data = Some newest /\
    (summary daily_data).1
    = [MsgSummaryHeader;
       MsgSummaryPeriod (date first) (date newest);
       MsgTotalVisitors (total uniques daily_data);
       MsgTotalRequests (total requests daily_data);
       MsgTotalCached (total cached_requests daily_data)] ++ rest.
Proof.
  intros Hne. unfold summary.
  destruct (head daily_data) as [first|] eqn:Hh; [|by destruct daily_data].
  destruct (last daily_data) as [newest|] eqn:Hl.
  2:{ apply last_None in Hl. done. }
  exists first, newest.
  destruct (ratio_line _ _) as [r1|e]; [|by exists []].
  destruct (format_bytes _) as [b1|e]; [|eexists; split_and!; try done;
    by rewrite <- app_assoc].
  destruct (format_bytes _) as [b2|e]; [|eexists; split_and!; try done;
    by rewrite <- !app_assoc].
  destruct (ratio_line _ _) as [r2|e]; eexists; split_and!; try done;
    by rewrite <- !app_assoc.
Qed.

Section LoopFacts.

Context {W Resp : Type} `{!Sheets W Resp}.
Variable nonempty : Resp -> bool.
Implicit Types (config : Config) (t : Turn) (j : job W).

Lemma turn_case_eq config t j j1 j2 :
  j1 = j2 -> turn_case nonempty config t j j1 -> turn_case nonempty config t j j2.
Proof. by intros ->. Qed.

Lemma no_success_in_fetch (lines : list fetch_line) :
  OutMain MsgSuccess ∉ (OutFetch <$> lines).
Proof. intros Hin. apply list_elem_of_fmap in Hin as (? & ? & ?). done. Qed.

Lemma no_success_in_sheet (lines : list line) :
  OutMain MsgSuccess ∉ (OutSheet <$> lines).
Proof. intros Hin. apply list_elem_of_fmap in Hin as (? & ? & ?). done. Qed.

Lemma no_success_in_summary daily_data :
  OutMain MsgSuccess ∉ (OutMain <$> (summary daily_data).1).
Proof.
  intros Hin. apply list_elem_of_fmap in Hin as (l & [= <-] & Hin).
  unfold summary in Hin.
  destruct (head daily_data) as [first|], (last daily_data) as [newest|];
    try (apply list_elem_of_singleton in Hin; done).
  destruct (ratio_line _ _) as [r1|e1];
    [destruct (format_bytes _) as [b1|e2];
     [destruct (format_bytes _) as [b2|e3];
      [destruct (ratio_line _ _) as [r2|e4]|]|]|];
    try destruct r1; try destruct r2;
    simpl in Hin;
    rewrite ?elem_of_app, ?elem_of_cons, ?elem_of_nil in Hin; intuition congruence.
Qed.

Ltac no_success :=
  rewrite ?not_elem_of_app, ?not_elem_of_cons;
  repeat split;
  first [ done | apply not_elem_of_nil | apply no_success_in_fetch
        | apply no_success_in_sheet ].

Ltac same_job :=
  unfold sleep, out, after_fetch, after_call; simpl; f_equal;
  rewrite <- ?app_assoc; simpl; rewrite ?app_nil_r; reflexivity.

Lemma turn_cases config t j :
  turn_case nonempty config t j (turn nonempty config t j).
Proof.
  unfold turn, collect, should_collect_data. cbn [fst snd].
  destruct (dt_day (now_checked t) =? 1) eqn:Hday.
  2:{ apply Z.eqb_neq in Hday. eapply turn_case_eq; [|by apply off_day]. same_job. }
  apply Z.eqb_eq in Hday. cbv zeta. fold (fetch_of config t).
  set (start := [OutSheet (MsgCurrentDay (dt_day (now_checked t)));
                 OutMain (MsgCollecting (now_started t)); OutMain MsgFetching]
                ++ (OutFetch <$> said (fetch_of config t))).
  assert (Hstart : OutMain MsgSuccess ∉ start) by (unfold start; no_success).
  destruct (returned (fetch_of config t)) as [[[|day days]|]|e] eqn:Hf.
  - eapply turn_case_eq;
      [|apply (fetched_nothing nonempty config t j
                 (start ++ [OutMain MsgNothingCollected; OutMain MsgWaiting]));
         [done|congruence|no_success]].
    unfold start. simpl. same_job.
  - set (fetched := day :: days) in *.
    assert (Hne : fetched <> []) by done.
    unfold store, GoogleSheetHandler_init.
    destruct (auth_failure t) as [msg|] eqn:Hauth.
    { eapply turn_case_eq;
        [|apply (not_authenticated nonempty config t j fetched
                   (start ++ [OutMain MsgAppending; OutMain (MsgError (AuthFailed msg));
                              OutMain MsgRetry]));
           [done|done|done|congruence|no_success]].
      unfold start. simpl. same_job. }
    cbv zeta. cbn [remote out].
    change (append_daily_data _ _) with (call_of config fetched j).
    destruct (call_of config fetched j) as [s' [[result|]|e]] eqn:Hcall; cbn [fst snd].
    + destruct (nonempty result) eqn:Hr.
      * destruct (summary (daily_data s')) as [lines [[]|e]] eqn:Hsum; cbn [fst snd of_outcome].
        -- eapply turn_case_eq;
             [|apply (called_with_summary nonempty config t j fetched result
                        (start ++ [OutMain MsgAppending] ++ (OutSheet <$> printed s'))
                        [OutMain MsgWaiting]);
                [done|done|done|done|by rewrite Hcall|done|no_success|no_success]].
           rewrite Hcall. cbn [fst snd]. rewrite Hsum. unfold start. simpl. same_job.
        -- eapply turn_case_eq;
             [|apply (called_with_summary nonempty config t j fetched result
                        (start ++ [OutMain MsgAppending] ++ (OutSheet <$> printed s'))
                        [OutMain (MsgError (Raised e)); OutMain MsgRetry]);
                [done|done|done|done|by rewrite Hcall|done|no_success|no_success]].
           rewrite Hcall. cbn [fst snd]. rewrite Hsum. unfold start. simpl. same_job.
      * eapply turn_case_eq;
          [|apply (called_without_summary nonempty config t j fetched
                     (start ++ [OutMain MsgAppending] ++ (OutSheet <$> printed s')
                      ++ [OutMain MsgWaiting]));
             [done|done|done|done| |no_success]].
        -- rewrite Hcall. unfold start. simpl. same_job.
        -- rewrite Hcall. simpl. by intros ? [= <-].
    + eapply turn_case_eq;
        [|apply (called_without_summary nonempty config t j fetched
                   (start ++ [OutMain MsgAppending] ++ (OutSheet <$> printed s')
                    ++ [OutMain MsgWaiting]));
           [done|done|done|done| |no_success]].
      * rewrite Hcall. unfold start. simpl. same_job.
      * rewrite Hcall. simpl. done.
    + eapply turn_case_eq;
        [|apply (called_without_summary nonempty config t j fetched
                   (start ++ [OutMain MsgAppending] ++ (OutSheet <$> printed s')
                    ++ [OutMain (MsgError (Raised e)); OutMain MsgRetry]));
           [done|done|done|done| |no_success]].
      * rewrite Hcall. unfold start. simpl. same_job.
      * rewrite Hcall. simpl. done.
  - eapply turn_case_eq;
      [|apply (fetched_nothing nonempty config t j
                 (start ++ [OutMain MsgNothingCollected; OutMain MsgWaiting]));
         [done|congruence|no_success]].
    unfold start. simpl. same_job.
  - eapply turn_case_eq;
      [|apply (fetched_nothing nonempty config t j
                 (start ++ [OutMain (MsgError e); OutMain MsgRetry]));
         [done|congruence|no_success]].
    unfold start. simpl. same_job.
Qed.

End LoopFacts.

Section LoopProperties.

Context {W Resp : Type} `{!Sheets W Resp}.
Variable nonempty : Resp -> bool.
Implicit Types (config : Config) (t : Turn) (j : job W).

Lemma turn_sleeps config t j :
  sleeps (turn nonempty config t j) = sleeps j ++ [3600].
Proof. by destruct (turn_cases nonempty config t j). Qed.

(** The loop sleeps one hour in every turn, whatever the turn met: an
    off day, a failure of the provider, of the authentication or of the
    sheet, or a collection that went through. When the configuration does
    not load, [main] sleeps one hour and returns: no turn is taken. *)
Theorem main_sleeps_an_hour_a_turn now config_path loaded turns j :
  sleeps (main nonempty now config_path loaded turns j)
  = sleeps j ++ replicate (match loaded with
                           | Fine _ => length turns
                           | Failed _ => 1%nat
                           end) 3600.
Proof.
  unfold main. destruct loaded as [config|e]; [|done].
  set (j0 := out _ (out _ j)).
  change (sleeps j) with (sleeps j0). clearbody j0. revert j0.
  induction turns as [|t turns IH]; intros j0; simpl; [by rewrite app_nil_r|].
  rewrite IH, turn_sleeps, <- app_assoc. done.
Qed.

(** A turn sends at most one request to the provider, and none on a day
    that is not the first of the month. It touches the spreadsheet only on
    the first of the month, after a fetch that returned at least one day
    and an authentication that went through. *)
Theorem requests_of_a_turn config t j :
  let j' := turn nonempty config t j in
  (exists sent, http_requests j' = http_requests j ++ sent /\ (length sent <= 1)%nat) /\
  (dt_day (now_checked t) <> 1 ->
   http_requests j' = http_requests j /\ sheet_requests j' = sheet_requests j /\
   remote j' = remote j) /\
  (sheet_requests j' <> sheet_requests j \/ remote j' <> remote j ->
   dt_day (now_checked t) = 1 /\ auth_failure t = None /\
   exists fetched, returned (fetch_of config t) = Fine (Some fetched) /\ fetched <> []).
Proof.
  assert (Hposted : (length (posted (fetch_of config t)) <= 1)%nat).
  { unfold fetch_of, get_last_30days_analytics.
    destruct (days_before _ _); simpl; lia. }
  cbv zeta. destruct (turn_cases nonempty config t j); cbn [http_requests sheet_requests remote].
  - split; [exists []; split; [by rewrite app_nil_r|simpl; lia]|].
    split; [done|]. by intros [?|?].
  - split; [by eexists|]. split; [done|]. by intros [?|?].
  - split; [by eexists|]. split; [done|]. by intros [?|?].
  - split; [by eexists|]. split; [done|]. intros _. eauto.
  - split; [by eexists|]. split; [done|]. intros _. eauto.
Qed.

(** The summary is printed only after a call of the handler that returned
    an answer, and it is about every day that was fetched, written or
    skipped: its period runs from the oldest of their dates to the newest,
    as the handler has sorted the list it was passed, and its totals are
    taken over all of them. *)
Theorem summary_is_about_every_fetched_day config t j :
  exists lines,
    output_lines (turn nonempty config t j) = output_lines j ++ lines /\
    (OutMain MsgSuccess ∈ lines ->
     exists fetched result oldest newest before after,
       returned (fetch_of config t) = Fine (Some fetched) /\
       (call_of config fetched j).2 = Ok (Some result) /\
       oldest ∈ fetched /\ newest ∈ fetched /\
       (forall day, day ∈ fetched -> date_le oldest day /\ date_le day newest) /\
       lines = before ++ [OutMain MsgSuccess; OutMain MsgSummaryHeader;
                          OutMain (MsgSummaryPeriod (date oldest) (date newest));
                          OutMain (MsgTotalVisitors (total uniques fetched));
                          OutMain (MsgTotalRequests (total requests fetched));
                          OutMain (MsgTotalCached (total cached_requests fetched))]
                      ++ after).
Proof.
  destruct (turn_cases nonempty config t j)
    as [Hday|lines Hday Hf Hno|fetched lines Hday Hf Hne Hauth Hno
        |fetched lines Hday Hf Hne Hauth Hr Hno
        |fetched result before after Hday Hf Hne Hauth Hcall Hr Hb Ha];
    cbn [output_lines].
  - eexists. split; [done|]. intros Hin. apply list_elem_of_singleton in Hin. done.
  - by exists lines.
  - by exists lines.
  - by exists lines.
  - eexists. split; [done|]. intros _.
    destruct (call_of config fetched j) as [s' r] eqn:Hrun. simpl in Hcall. subst r.
    pose proof Hrun as Hrun'. unfold call_of in Hrun.
    apply append_daily_data_ok_inv in Hrun
      as (_ & _ & _ & _ & _ & _ & _ & _ & Hsorted & _); [|exact Hne].
    cbn [daily_data] in Hsorted. cbn [fst]. rewrite Hsorted.
    assert (Hne' : sort_by_date fetched <> []).
    { intros Hnil. apply Hne. apply Permutation_nil_r.
      by rewrite <- Hnil, sort_by_date_perm. }
    destruct (summary_lines _ Hne') as (oldest & newest & rest & Hh & Hl & ->).
    assert (Hs : StronglySorted date_le (sort_by_date fetched)).
    { apply Sorted_StronglySorted; [|apply sort_by_date_Sorted].
      intros x y z. apply date_le_trans. }
    destruct (head_is_least _ _ Hs Hh) as [Hin1 Hmin].
    destruct (last_is_greatest _ _ Hs Hl) as [Hin2 Hmax].
    rewrite sort_by_date_perm in Hin1, Hin2.
    exists fetched, result, oldest, newest, before, ((OutMain <$> rest) ++ after).
    split_and!; try done.
    + by rewrite Hrun'.
    + intros day Hin. rewrite <- (sort_by_date_perm fetched) in Hin. auto.
    + rewrite !(total_perm _ _ _ (sort_by_date_perm fetched)).
      rewrite fmap_app. simpl. by rewrite <- ?app_assoc.
Qed.

End LoopProperties.

(** ** The properties on the sheet in memory *)

Section MoreOnMemSheet.

Import MemSheet Fixtures Cases.

Lemma list_is_sorted_in_place_witness :
  daily_data (start with_header [day2; day1]) <> [] /\
  (daily_data (append_daily_data handler (start with_header [day2; day1])).1
   = sort_by_date (daily_data (start with_header [day2; day1])) \/
   daily_data (append_daily_data handler (start with_header [day2; day1])).1
   = daily_data (start with_header [day2; day1]) /\
   (append_daily_data handler (start with_header [day2; day1])).2 = Raise IndexError).
Proof.
  assert (H1 : daily_data (start with_header [day2; day1]) <> []) by done.
  exact (conj H1 (list_is_sorted_in_place handler _ H1)).
Defined.

Lemma counts_add_up_witness :
  let s := start with_day1 [day2; day1] in
  let s' := (call s).1 in
  let r := Some {| updatedRows := 1; tableRows := 2 |} in
  (daily_data s <> [] /\ append_daily_data handler s = (s', Ok r)) /\
  exists lines n d,
    (n + d)%nat = length (daily_data s) /\
    (r = None <-> n = 0%nat) /\
    printed s'
    = lines ++ (if (0 <? n)%nat then [MsgAppended n] else [MsgNoNewData])
            ++ (if (0 <? d)%nat then [MsgDuplicates d] else []).
Proof.
  assert (H1 : daily_data (start with_day1 [day2; day1]) <> []) by done.
  assert (H2 : append_daily_data handler (start with_day1 [day2; day1])
               = ((call (start with_day1 [day2; day1])).1,
                  Ok (Some {| updatedRows := 1; tableRows := 2 |})))
    by (vm_compute; reflexivity).
  split; [exact (conj H1 H2)|].
  exact (counts_add_up handler _ _ _ H1 H2).
Defined.

Lemma write_failure_is_raised_witness :
  let s := start flaky_write [day1] in
  let s1 := sent (read_request handler) (sheet_of [headers] 7 [true]) s in
  let seen : gset string := ∅ in
  let w := sheet_of [headers] 7 [] in
  let e := ApiError "HttpError" in
  (daily_data s <> [] /\
   get_existing_data handler s = (s1, Ok [headers]) /\
   existing_dates_of (or_headers [headers]) = Ok seen /\
   Forall (fun day => exists d, strptime (date day) = Ok d) (daily_data s) /\
   format_rows (new_days seen (sort_by_date (daily_data s))) = Ok [row1] /\
   [row1] <> [] /\
   values_append (append_request handler [row1]) (world s1) = (w, Raise e)) /\
  append_daily_data handler s
  = (say (MsgAppendError e)
       (sent (ValuesAppend (append_request handler [row1])) w (sorted_in_place s1)),
     Raise e).
Proof.
  assert (H1 : daily_data (start flaky_write [day1]) <> []) by done.
  assert (H2 : get_existing_data handler (start flaky_write [day1])
               = (sent (read_request handler) (sheet_of [headers] 7 [true])
                    (start flaky_write [day1]), Ok [headers]))
    by (vm_compute; reflexivity).
  assert (H3 : existing_dates_of (or_headers [headers]) = Ok (∅ : gset string))
    by (vm_compute; reflexivity).
  assert (H4 : Forall (fun day => exists d, strptime (date day) = Ok d)
                 (daily_data (start flaky_write [day1]))).
  { constructor; [|constructor].
    exists {| year := 2024; month := 1; day := 1 |}. vm_compute. reflexivity. }
  assert (H5 : format_rows (new_days (∅ : gset string)
                              (sort_by_date (daily_data (start flaky_write [day1]))))
               = Ok [row1]) by (vm_compute; reflexivity).
  assert (H6 : [row1] <> []) by done.
  assert (H7 : values_append (append_request handler [row1])
                 (world (sent (read_request handler) (sheet_of [headers] 7 [true])
                           (start flaky_write [day1])))
               = (sheet_of [headers] 7 [], Raise (ApiError "HttpError")))
    by (vm_compute; reflexivity).
  split; [exact (conj H1 (conj H2 (conj H3 (conj H4 (conj H5 (conj H6 H7))))))|].
  exact (write_failure_is_raised handler _ _ _ _ _ _ _ H1 H2 H3 H4 H5 H6 H7).
Defined.

Lemma blank_row_stops_the_call_witness :
  let s := start with_gap [day1] in
  let s1 := sent (read_request handler) with_gap s in
  (daily_data s <> [] /\
   get_existing_data handler s = (s1, Ok (headers :: [[]; shown1])) /\
   [] ∈ [[]; shown1]) /\
  append_daily_data handler s = (say (MsgAppendError IndexError) s1, Raise IndexError).
Proof.
  assert (H1 : daily_data (start with_gap [day1]) <> []) by done.
  assert (H2 : get_existing_data handler (start with_gap [day1])
               = (sent (read_request handler) with_gap (start with_gap [day1]),
                  Ok (headers :: [[]; shown1])))
    by (vm_compute; reflexivity).
  assert (H3 : ([] : list string) ∈ [[]; shown1]) by apply list_elem_of_here.
  split; [exact (conj H1 (conj H2 H3))|].
  exact (blank_row_stops_the_call handler _ _ _ _ H1 H2 H3).
Defined.

Lemma unparsable_date_stops_the_call_witness :
  let s := start with_header [day1; no_day] in
  let s1 := sent (read_request handler) with_header s in
  let seen : gset string := ∅ in
  (get_existing_data handler s = (s1, Ok [headers]) /\
   existing_dates_of (or_headers [headers]) = Ok seen /\
   no_day ∈ daily_data s /\
   strptime (date no_day) = Raise ValueError) /\
  exists e',
    append_daily_data handler s
    = (say (MsgAppendError e') (sorted_in_place s1), Raise e') /\
    issued (append_daily_data handler s).1 = issued s ++ [read_request handler].
Proof.
  assert (H1 : get_existing_data handler (start with_header [day1; no_day])
               = (sent (read_request handler) with_header
                    (start with_header [day1; no_day]), Ok [headers]))
    by (vm_compute; reflexivity).
  assert (H2 : existing_dates_of (or_headers [headers]) = Ok (∅ : gset string))
    by (vm_compute; reflexivity).
  assert (H3 : no_day ∈ daily_data (start with_header [day1; no_day]))
    by (apply list_elem_of_further, list_elem_of_here).
  assert (H4 : strptime (date no_day) = Raise ValueError)
    by (vm_compute; reflexivity).
  split; [exact (conj H1 (conj H2 (conj H3 H4)))|].
  exact (unparsable_date_stops_the_call handler _ _ _ _ _ _ H1 H2 H3 H4).
Defined.

Lemma no_date_format_without_an_id_witness :
  let s := start first_tab [day1] in
  let w := sheet_of [headers; shown1] 0 [] in
  let result := {| updatedRows := 1; tableRows := 1 |} in
  (values_append (append_request handler [row1]) (world s) = (w, Ok result) /\
   spreadsheets_get (spreadsheet_id handler) w = (w, Ok [tab 0]) /\
   (find_sheet (sheet_name handler) [tab 0] = None \/
    find_sheet (sheet_name handler) [tab 0] = Some 0)) /\
  write_new_rows handler [row1] 0 s
  = (reported [row1] 0
       (sent (SpreadsheetsGet (spreadsheet_id handler)) w
          (sent (ValuesAppend (append_request handler [row1])) w s)),
     Ok (Some result)).
Proof.
  assert (H1 : values_append (append_request handler [row1])
                 (world (start first_tab [day1]))
               = (sheet_of [headers; shown1] 0 [],
                  Ok {| updatedRows := 1; tableRows := 1 |}))
    by (vm_compute; reflexivity).
  assert (H2 : spreadsheets_get (spreadsheet_id handler)
                 (sheet_of [headers; shown1] 0 [])
               = (sheet_of [headers; shown1] 0 [], Ok [tab 0]))
    by (vm_compute; reflexivity).
  assert (H3 : find_sheet (sheet_name handler) [tab 0] = None \/
               find_sheet (sheet_name handler) [tab 0] = Some 0)
    by (right; vm_compute; reflexivity).
  split; [exact (conj H1 (conj H2 H3))|].
  exact (no_date_format_without_an_id handler _ _ _ _ _ _ _ H1 H2 H3).
Defined.

Lemma batch_is_in_date_order_witness :
  let s := start with_day1 [day3; day1; day2] in
  let s' := (call s).1 in
  let result := {| updatedRows := 2; tableRows := 2 |} in
  append_daily_data handler s = (s', Ok (Some result)) /\
  exists s1 existing_data (seen : gset string) kept rows rest,
    get_existing_data handler s = (s1, Ok existing_data) /\
    existing_dates_of (or_headers existing_data) = Ok seen /\
    issued s' = issued s ++ read_request handler
                         :: ValuesAppend (append_request handler rows) :: rest /\
    Forall cosmetic rest /\
    ar_values (append_request handler rows) = rows /\
    Forall2 (fun day row => format_row day = Ok row) kept rows /\
    kept ≡ₚ filter (fun day => date day ∉ seen) (daily_data s) /\
    StronglySorted date_le kept.
Proof.
  assert (H1 : append_daily_data handler (start with_day1 [day3; day1; day2])
               = ((call (start with_day1 [day3; day1; day2])).1,
                  Ok (Some {| updatedRows := 2; tableRows := 2 |})))
    by (vm_compute; reflexivity).
  exact (conj H1 (batch_is_in_date_order handler _ _ _ H1)).
Defined.

(** A turn on the first of February on a sheet with its header: the two
    days of the provider are written, oldest first, and the summary gives
    the period from the older to the newer, although the fetcher returned
    the newer first. *)
Lemma a_collection :
  let j := turn answered settings (on_the_first (answering [raw1; raw2]))
             (fresh with_header) in
  returned (fetch_of settings (on_the_first (answering [raw1; raw2])))
  = Fine (Some [day2; day1]) /\
  map (hd ""%string) (cells (remote j)) = ["날짜"; "2024-01-01"; "2024-01-02"]%string /\
  map date_geq (http_requests j) = ["2024-01-02"%string] /\
  output_lines j
  = [OutSheet (MsgCurrentDay 1); OutMain (MsgCollecting (midnight 2024 2 1));
     OutMain MsgFetching; OutFetch (MsgPeriod "2024-01-02" "2024-02-01");
     OutMain MsgAppending; OutSheet (MsgAppended 2);
     OutMain MsgSuccess; OutMain MsgSummaryHeader;
     OutMain (MsgSummaryPeriod "2024-01-01" "2024-01-02");
     OutMain (MsgTotalVisitors 20); OutMain (MsgTotalRequests 4);
     OutMain (MsgTotalCached 1); OutMain (MsgCacheRatio "25.00");
     OutMain (MsgTotalBytes "3.00 KB"); OutMain (MsgCachedBytes "2.00 KB");
     OutMain (MsgBytesCacheRatio "66.67"); OutMain MsgWaiting] /\
  sleeps j = [3600].
Proof. vm_compute. done. Qed.

(** The same turn a day later sends nothing. *)
Lemma an_off_day :
  let j := turn answered settings (on_the_second (answering [raw1; raw2]))
             (fresh with_header) in
  remote j = with_header /\ sheet_requests j = [] /\ http_requests j = [] /\
  output_lines j = [OutSheet (MsgCurrentDay 2)] /\ sleeps j = [3600].
Proof. vm_compute. done. Qed.

End MoreOnMemSheet.

(** ** Witnesses of the other properties *)

Section MoreWitnesses.

Import Cases Fixtures.

Lemma format_bytes_negative_witness :
  - 2 ^ 53 < -5 < 0 /\
  format_bytes (-5) = Ok ("-" +:+ str_of_int (- -5) +:+ ".00 B").
Proof.
  assert (H : - 2 ^ 53 < -5 < 0) by lia.
  exact (conj H (format_bytes_negative (-5) H)).
Defined.

Lemma fetched_days_are_newest_first_witness :
  returned (get_last_30days_analytics account first_of_february
              (answering [raw1; raw2])) = Fine (Some [day2; day1]) /\
  exists start_date response body zone rest groups records,
    days_before 30 first_of_february = Fine start_date /\
    answering [raw1; raw2]
      (request_of account (strftime start_date) (strftime first_of_february))
    = Fine response /\
    status_code response = 200 /\
    json_body response = Fine body /\
    zones_of body = zone :: rest /\
    httpRequests1dGroups zone = Some groups /\
    Forall2 (fun g r => exists day, group_of g = Fine day /\ daily_record_of day = Ok r)
            groups records /\
    [day2; day1] ≡ₚ records /\
    StronglySorted (fun x y => date_le y x) [day2; day1] /\ [day2; day1] <> [].
Proof.
  assert (H : returned (get_last_30days_analytics account first_of_february
                          (answering [raw1; raw2])) = Fine (Some [day2; day1]))
    by (vm_compute; reflexivity).
  exact (conj H (fetched_days_are_newest_first _ _ _ _ H)).
Defined.

Lemma fetch_failures_are_printed_and_raised_witness :
  days_before 30 first_of_february = Fine second_of_january /\
  let f := get_last_30days_analytics account first_of_february refusing in
  posted f = [request_of account (strftime second_of_january)
                (strftime first_of_february)] /\
  (forall e, returned f = Failed e ->
     exists lines, said f = MsgPeriod (strftime second_of_january)
                              (strftime first_of_february) :: lines
                            ++ [MsgFetchError e] /\
                   forall e', MsgFetchError e' ∉ lines) /\
  (forall v, returned f = Fine v -> forall e, MsgFetchError e ∉ said f).
Proof.
  assert (H : days_before 30 first_of_february = Fine second_of_january)
    by (vm_compute; reflexivity).
  exact (conj H (fetch_failures_are_printed_and_raised account first_of_february
                   refusing second_of_january H)).
Defined.

Lemma one_bad_day_fails_the_fetch_witness :
  let post := answering [raw1; undated] in
  (days_before 30 first_of_february = Fine second_of_january /\
   post (request_of account (strftime second_of_january) (strftime first_of_february))
   = Fine (response_of [raw1; undated]) /\
   status_code (response_of [raw1; undated]) = 200 /\
   json_body (response_of [raw1; undated]) = Fine (body_of [raw1; undated]) /\
   (errors (body_of [raw1; undated]) = None \/
    errors (body_of [raw1; undated]) = Some []) /\
   zones_of (body_of [raw1; undated]) = zone_of [raw1; undated] :: [] /\
   httpRequests1dGroups (zone_of [raw1; undated]) = Some [raw1; undated] /\
   undated ∈ [raw1; undated] /\
   group_of undated = Failed (KeyError "date")) /\
  exists e', returned (get_last_30days_analytics account first_of_february post)
             = Failed e' /\
             last (said (get_last_30days_analytics account first_of_february post))
             = Some (MsgFetchError e').
Proof.
  assert (H1 : days_before 30 first_of_february = Fine second_of_january)
    by (vm_compute; reflexivity).
  assert (H2 : answering [raw1; undated]
                 (request_of account (strftime second_of_january)
                    (strftime first_of_february))
               = Fine (response_of [raw1; undated])) by reflexivity.
  assert (H3 : status_code (response_of [raw1; undated]) = 200) by reflexivity.
  assert (H4 : json_body (response_of [raw1; undated])
               = Fine (body_of [raw1; undated])) by reflexivity.
  assert (H5 : errors (body_of [raw1; undated]) = None \/
               errors (body_of [raw1; undated]) = Some []) by (left; reflexivity).
  assert (H6 : zones_of (body_of [raw1; undated]) = zone_of [raw1; undated] :: [])
    by reflexivity.
  assert (H7 : httpRequests1dGroups (zone_of [raw1; undated])
               = Some [raw1; undated]) by reflexivity.
  assert (H8 : undated ∈ [raw1; undated])
    by (apply list_elem_of_further, list_elem_of_here).
  assert (H9 : group_of undated = Failed (KeyError "date")) by reflexivity.
  split;
    [exact (conj H1 (conj H2 (conj H3 (conj H4 (conj H5 (conj H6 (conj H7
              (conj H8 H9))))))))|].
  exact (one_bad_day_fails_the_fetch account first_of_february _ _ _ _ _ _ _ _ _
           H1 H2 H3 H4 H5 H6 H7 H8 H9).
Defined.

Lemma window_from_the_first_of_a_month_witness :
  (2 <= 2024 /\ 1 <= 3 <= 12) /\
  days_before 30 {| year := 2024; month := 3; day := 1 |}
  = Fine (if 3 =? 1 then {| year := 2024 - 1; month := 12; day := 2 |}
          else if 3 =? 3
               then {| year := 2024; month := 1;
                       day := if is_leap 2024 then 31 else 30 |}
               else {| year := 2024; month := 3 - 1;
                       day := days_in_month 2024 (3 - 1) - 29 |}).
Proof.
  assert (H1 : 2 <= 2024) by lia.
  assert (H2 : 1 <= 3 <= 12) by lia.
  exact (conj (conj H1 H2) (window_from_the_first_of_a_month 2024 3 H1 H2)).
Defined.

Lemma validate_config_names_the_defect_witness :
  let e := EmptyField "google_sheets" "sheet_name" in
  validate_config (JObj no_sheet_name) = Failed e /\
  exists before section fields after,
    required_fields = before ++ (section, fields) :: after /\
    Forall (fun sf => exists sm, member sf.1 no_sheet_name = Some (JObj sm) /\
                                 Forall (filled sm) sf.2) before /\
    (e = MissingSection section /\ member section no_sheet_name = None \/
     exists in_section passed field rest,
       member section no_sheet_name = Some in_section /\
       fields = passed ++ field :: rest /\
       Forall (fun f => exists sm, in_section = JObj sm /\ filled sm f) passed /\
       (e = MissingField section field /\ contains field in_section = Fine false \/
        e = EmptyField section field /\
          (exists v, item in_section field = Fine v /\ truthy v = false) \/
        e = TypeError /\ forall sm, in_section <> JObj sm)).
Proof.
  assert (H : validate_config (JObj no_sheet_name)
              = Failed (EmptyField "google_sheets" "sheet_name"))
    by (vm_compute; reflexivity).
  exact (conj H (validate_config_names_the_defect no_sheet_name _ H)).
Defined.

(** The configuration of the fixtures loads. *)
Lemma config_file_loads :
  load_config "config.json" (Parsed config_file) = Fine config_file.
Proof. vm_compute. reflexivity. Qed.

End MoreWitnesses.
